(** * Behavioural signal aggregation and travel-archetype classification

    A shallow embedding of the extractors and of the classifier of
    [src/server/services/aiService.js], the properties its specification
    states about them, and further properties of the code: ranges of the
    scores, ties of the preferred categories, grouping by key.

    Conventions of the embedding.
    - A JavaScript number is an exact rational, or one of the three special
      values [NaN], [+Infinity], [-Infinity]; the sign of zero is not
      represented.  The rounding of binary64 arithmetic is not represented
      either: a property that states the digits printed for a computed mean
      or sum is stated for every number within a bound on that rounding
      (a slack) of the exact one, and the properties on counts, whole
      days, ranges and comparisons of the printed values do not depend on
      it.
    - A scalar field of an input record is a [field]: [Absent] for
      [undefined], [Null] for [null], or a value [Given].  The two are told
      apart where the code does so: [new Date(undefined)] is invalid and
      [new Date(null)] is the epoch, [undefined] is [NaN] in arithmetic and
      [null] is [0], and [===] holds between neither.  A sequence that may
      be missing is an [option], [None] for [undefined] and for [null],
      which [||] and [!] do not tell apart.
    - [new Date(s)] is represented by its result: an invalid date, or a
      number of milliseconds since the epoch.  The host's local time zone is
      a fixed offset [tz] from UTC, in milliseconds.
    - The string returned by [toFixed] is kept as the numeral it spells
      ([numstr]); [showNumstr] gives its characters, for magnitudes below
      10^21, and [Number] its value when the code compares it with a
      number.
    - An object used as a map holds its own keys; the properties it
      inherits from [Object.prototype] are not represented, and the
      properties on such maps assume that no key names one. *)

From Stdlib Require Import ZArith NArith QArith Qround Qabs.
From Stdlib Require Import List String Ascii Bool Sorted Permutation.
From Stdlib Require Import Lia Lqa DecimalString.
Import ListNotations.

Local Open Scope list_scope.
Local Open Scope string_scope.

(* ================================================================== *)
(** ** JavaScript numbers *)

Module Num.

Inductive num : Type :=
| Fin (q : Q)
| PInf
| NInf
| NaN.

Definition Qltb (x y : Q) : bool := negb (Qle_bool y x).

Definition ofZ (z : Z) : num := Fin (inject_Z z).
Definition ofNat (n : nat) : num := Fin (inject_Z (Z.of_nat n)).

Definition neg (a : num) : num :=
  match a with
  | Fin x => Fin (- x)
  | PInf => NInf
  | NInf => PInf
  | NaN => NaN
  end.

Definition add (a b : num) : num :=
  match a, b with
  | NaN, _ | _, NaN => NaN
  | Fin x, Fin y => Fin (x + y)
  | PInf, NInf | NInf, PInf => NaN
  | PInf, _ | _, PInf => PInf
  | NInf, _ | _, NInf => NInf
  end.

Definition sub (a b : num) : num := add a (neg b).

(** An infinity of the sign of [q], or [NaN] when [q] is zero. *)
Definition infOfSign (q : Q) (flip : bool) : num :=
  match (q ?= 0)%Q with
  | Eq => NaN
  | Gt => if flip then NInf else PInf
  | Lt => if flip then PInf else NInf
  end.

Definition mul (a b : num) : num :=
  match a, b with
  | NaN, _ | _, NaN => NaN
  | Fin x, Fin y => Fin (x * y)
  | Fin x, PInf | PInf, Fin x => infOfSign x false
  | Fin x, NInf | NInf, Fin x => infOfSign x true
  | PInf, PInf | NInf, NInf => PInf
  | PInf, NInf | NInf, PInf => NInf
  end.

Definition div (a b : num) : num :=
  match a, b with
  | NaN, _ | _, NaN => NaN
  | Fin x, Fin y => if Qeq_bool y 0 then infOfSign x false else Fin (x / y)
  | Fin _, (PInf | NInf) => Fin 0
  | (PInf | NInf), (PInf | NInf) => NaN
  | PInf, Fin y => if Qltb y 0 then NInf else PInf
  | NInf, Fin y => if Qltb y 0 then PInf else NInf
  end.

(** [a < b]; every comparison with [NaN] is false. *)
Definition lt (a b : num) : bool :=
  match a, b with
  | NaN, _ | _, NaN => false
  | Fin x, Fin y => Qltb x y
  | NInf, (Fin _ | PInf) => true
  | Fin _, PInf => true
  | _, _ => false
  end.

Definition gt (a b : num) : bool := lt b a.
Definition le (a b : num) : bool :=
  match a, b with
  | NaN, _ | _, NaN => false
  | _, _ => negb (lt b a)
  end.
Definition ge (a b : num) : bool := le b a.

(** [Math.abs], [Math.min], [Math.max], [Math.round]. *)
Definition abs (a : num) : num :=
  match a with
  | Fin x => Fin (Qabs x)
  | PInf | NInf => PInf
  | NaN => NaN
  end.

Definition min (a b : num) : num :=
  match a, b with
  | NaN, _ | _, NaN => NaN
  | _, _ => if lt b a then b else a
  end.

Definition max (a b : num) : num :=
  match a, b with
  | NaN, _ | _, NaN => NaN
  | _, _ => if lt a b then b else a
  end.

(** [Math.round] rounds to the nearest integer, a half going up. *)
Definition round (a : num) : num :=
  match a with
  | Fin x => Fin (inject_Z (Qfloor (x + (1 # 2))))
  | other => other
  end.

(** Truthiness of a number: [0] and [NaN] are falsy. *)
Definition truthy (a : num) : bool :=
  match a with
  | Fin x => negb (Qeq_bool x 0)
  | PInf | NInf => true
  | NaN => false
  end.

Definition sum (l : list num) : num := fold_left add l (Fin 0).

(** *** [toFixed] *)

(** The numeral [toFixed] returns: ["NaN"], ["Infinity"], ["-Infinity"], or
    a sign, the digits of [scaled] and [digits] of them after the point. *)
Inductive numstr : Type :=
| NSNaN
| NSInf (negative : bool)
| NSDec (negative : bool) (scaled : N) (digits : nat).

Definition pow10 (d : nat) : Z := (10 ^ Z.of_nat d)%Z.

(** [x.toFixed(d)]: the nearest numeral with [d] decimals, the larger one in
    magnitude on a tie; the sign is that of [x].  For magnitudes of 10^21
    and more the numeral keeps the value of the result, which [toFixed]
    prints in exponent form: the properties on printed characters bound
    the magnitude. *)
Definition toFixed (d : nat) (x : num) : numstr :=
  match x with
  | NaN => NSNaN
  | PInf => NSInf false
  | NInf => NSInf true
  | Fin q =>
      NSDec (Qltb q 0)
            (Z.to_N (Qfloor (Qabs q * inject_Z (pow10 d) + (1 # 2))))
            d
  end.

(** [Number(s)] for a numeral [s]. *)
Definition Number (s : numstr) : num :=
  match s with
  | NSNaN => NaN
  | NSInf false => PInf
  | NSInf true => NInf
  | NSDec sg n d =>
      let m := (inject_Z (Z.of_N n) / inject_Z (pow10 d))%Q in
      Fin (if sg then - m else m)
  end.

(** A [null] operand of a comparison converts to [0]. *)
Definition NumberOrNull (s : option numstr) : num :=
  match s with
  | Some n => Number n
  | None => Fin 0
  end.

Fixpoint zeros (k : nat) : string :=
  match k with
  | O => ""
  | S k' => String "0" (zeros k')
  end.

Definition digitsOfN (n : N) : string := NilZero.string_of_uint (N.to_uint n).

(** The characters of a numeral. *)
Definition showNumstr (s : numstr) : string :=
  match s with
  | NSNaN => "NaN"
  | NSInf false => "Infinity"
  | NSInf true => "-Infinity"
  | NSDec sg n d =>
      let raw := digitsOfN n in
      let padded := zeros (S d - String.length raw) ++ raw in
      let k := (String.length padded - d)%nat in
      let body :=
        match d with
        | O => padded
        | _ => substring 0 k padded ++ "." ++ substring k d padded
        end in
      (if sg then "-" else "") ++ body
  end.

End Num.

(* ================================================================== *)
(** ** Dates *)

Module Dates.

Local Open Scope Z_scope.

(** The result of [new Date(s)]. *)
Inductive jsdate : Type :=
| InvalidDate
| DateAt (ms : Z).

Definition msPerHour : Z := 1000 * 60 * 60.
Definition msPerDay : Z := 1000 * 60 * 60 * 24.

(** The number a date converts to in arithmetic and comparisons. *)
Definition valueOf (d : jsdate) : Num.num :=
  match d with
  | InvalidDate => Num.NaN
  | DateAt t => Num.ofZ t
  end.

(** Days since the epoch of a civil date of the proleptic Gregorian
    calendar, and the month (1 to 12) a day count falls in. *)
Definition daysFromCivil (y m d : Z) : Z :=
  let y' := if m <=? 2 then y - 1 else y in
  let era := y' / 400 in
  let yoe := y' - era * 400 in
  let mp := if 2 <? m then m - 3 else m + 9 in
  let doy := (153 * mp + 2) / 5 + d - 1 in
  let doe := yoe * 365 + yoe / 4 - yoe / 100 + doy in
  era * 146097 + doe - 719468.

Definition monthFromDays (days : Z) : Z :=
  let z := days + 719468 in
  let era := z / 146097 in
  let doe := z - era * 146097 in
  let yoe := (doe - doe / 1460 + doe / 36524 - doe / 146096) / 365 in
  let doy := doe - (365 * yoe + yoe / 4 - yoe / 100) in
  let mp := (5 * doy + 2) / 153 in
  if mp <? 10 then mp + 3 else mp - 9.

(** [new Date("YYYY-MM-DD")]: a date-only form is read as UTC. *)
Definition dateOnly (y m d : Z) : jsdate :=
  DateAt (daysFromCivil y m d * msPerDay).

Section LocalTime.

(** Offset of the host's local time from UTC, in milliseconds. *)
Variable tz : Z.

(** [new Date("YYYY-MM-DDTHH:mm")]: a date-time form without offset is read
    as local time. *)
Definition dateTimeLocal (y m d hh mm : Z) : jsdate :=
  DateAt (daysFromCivil y m d * msPerDay + hh * msPerHour + mm * 60000 - tz).

(** [getDay], [getHours], [getMonth]: local-time fields, [None] standing for
    the [NaN] an invalid date gives. *)
Definition getDay (d : jsdate) : option nat :=
  match d with
  | InvalidDate => None
  | DateAt t => Some (Z.to_nat (((t + tz) / msPerDay + 4) mod 7))
  end.

Definition getHours (d : jsdate) : option nat :=
  match d with
  | InvalidDate => None
  | DateAt t => Some (Z.to_nat (((t + tz) mod msPerDay) / msPerHour))
  end.

Definition getMonth (d : jsdate) : option nat :=
  match d with
  | InvalidDate => None
  | DateAt t => Some (Z.to_nat (monthFromDays ((t + tz) / msPerDay) - 1))
  end.

End LocalTime.

End Dates.

(* ================================================================== *)
(** ** Event records *)

Module Events.

Import Dates.
Local Open Scope nat_scope.

(** A scalar field of a record: absent ([undefined]), [null], or a value
    of its type. *)
Inductive field (A : Type) : Type :=
| Absent
| Null
| Given (a : A).

Arguments Absent {A}.
Arguments Null {A}.
Arguments Given {A} a.

(** A date field of a record: a given date is what its non-empty text
    parses to, which may be invalid; an empty text reads as an absent
    field does. *)
Definition dateField : Type := field jsdate.

(** [new Date(f)] for a date field [f]: [new Date(undefined)] is invalid and
    [new Date(null)] is the epoch. *)
Definition newDate (f : dateField) : jsdate :=
  match f with
  | Given d => d
  | Null => DateAt 0
  | Absent => InvalidDate
  end.

Record booking : Type := {
  bookingDate : dateField;
  checkIn : dateField;
  checkOut : dateField;
  bookingPropertyId : field string;
  bookingPrice : field Q;
  bookingRating : field Q;
  propertyType : field string;
  destination : field string
}.

Record session : Type := {
  startTime : dateField;
  endTime : dateField
}.

Record search : Type := {
  searchDate : dateField;
  searchPropertyId : field string;
  searchTerm : field string
}.

Record hover : Type := {
  hoverDuration : field Q;
  elementType : field string
}.

Record scroll : Type := {
  depthPercentage : field Q;
  pixelsPerSecond : field Q
}.

Record imageView : Type := {
  viewDuration : field Q;
  imageId : field string
}.

Record priceFilter : Type := {
  minPrice : field Q;
  maxPrice : field Q
}.

(** [x || 0] for a numeric field: [undefined], [null] and [0] give [0]. *)
Definition orZero (x : field Q) : Q :=
  match x with
  | Given q => q
  | Absent | Null => 0%Q
  end.

(** [v || 0] for the value [v] of a lookup, [None] when there is no such
    key. *)
Definition valueOrZero (v : option Q) : Q :=
  match v with
  | Some q => q
  | None => 0%Q
  end.

(** Truthiness of a numeric field: [undefined], [null] and [0] are
    falsy. *)
Definition truthyQ (x : field Q) : bool :=
  match x with
  | Given q => negb (Qeq_bool q 0)
  | Absent | Null => false
  end.

(** Truthiness of a string field, as in [s || 'unknown']: the string when
    it is truthy; [undefined], [null] and the empty string are falsy. *)
Definition truthyString (s : field string) : option string :=
  match s with
  | Given "" => None
  | Given t => Some t
  | Absent | Null => None
  end.

(** [xs || []] for a sequence that may be missing; [None] stands for
    [undefined] and for [null], which [||] and [!] do not tell apart. *)
Definition orEmpty {A : Type} (xs : option (list A)) : list A :=
  match xs with
  | Some l => l
  | None => []
  end.

(** [!xs || xs.length === 0]. *)
Definition missingOrEmpty {A : Type} (xs : option (list A)) : bool :=
  match xs with
  | Some (_ :: _) => false
  | _ => true
  end.

Definition showNat (n : nat) : string := Num.digitsOfN (N.of_nat n).

(** [xs.reduce((a, b) => a[1] > b[1] ? a : b)] over the entries of an object
    with numeric values; [None] stands for the [TypeError] that [reduce]
    raises on an empty array without initial value. *)
Definition reduceGreater {K : Type} (gt : K -> K -> bool) (entries : list K)
  : option K :=
  match entries with
  | [] => None
  | a :: rest => Some (fold_left (fun a b => if gt a b then a else b) rest a)
  end.

(** [Math.max(...counts)] and [counts.indexOf(v)] on a non-empty array of
    counts. *)
Definition maxCount (counts : list nat) : nat := fold_left Nat.max counts 0%nat.

Fixpoint indexOf (v : nat) (counts : list nat) : option nat :=
  match counts with
  | [] => None
  | c :: rest =>
      if Nat.eqb c v then Some 0%nat
      else option_map S (indexOf v rest)
  end.

(** [counts[i]++] for an index [i] of the array.  An index past the end,
    where the assignment would extend the array, does not occur: the days
    are below 7 and the hours below 24. *)
Fixpoint incrAt (i : nat) (counts : list nat) : list nat :=
  match counts, i with
  | [], _ => []
  | c :: rest, O => S c :: rest
  | c :: rest, S i' => c :: incrAt i' rest
  end.

(** [(count / total * 100).toFixed(1)]. *)
Definition percentageOf (count total : nat) : Num.numstr :=
  Num.toFixed 1 (Num.mul (Num.div (Num.ofNat count) (Num.ofNat total))
                         (Num.ofNat 100)).

End Events.

(* ================================================================== *)
(** ** Time-pattern extractor *)

Module TimePatterns.

Import Dates Events.
Local Open Scope nat_scope.

Record dayEntry : Type := {
  day : string;
  dayCount : nat;
  dayPercentage : Num.numstr
}.

Record timeEntry : Type := {
  timeOfDay : string;
  timeCount : nat;
  timePercentage : Num.numstr
}.

(** Fields missing from the empty report are [None]. *)
Record bookingPatterns : Type := {
  preferredDayOfWeek : option string;
  preferredTimeOfDay : option string;
  dayDistribution : option (list dayEntry);
  timeDistribution : option (list timeEntry)
}.

Record timeOfDayCounts : Type := {
  morning : nat;
  afternoon : nat;
  evening : nat;
  night : nat
}.

Definition days : list string :=
  ["Sunday"; "Monday"; "Tuesday"; "Wednesday"; "Thursday"; "Friday";
   "Saturday"].

(** [Object.entries(timeOfDayCounts)], in the order the keys are declared. *)
Definition timeEntries (c : timeOfDayCounts) : list (string * nat) :=
  [("morning", morning c); ("afternoon", afternoon c);
   ("evening", evening c); ("night", night c)].

Definition entryGt (a b : string * nat) : bool := Nat.ltb (snd b) (snd a).

Record hourEntry : Type := {
  hour : string;
  hourCount : nat;
  hourPercentage : Num.numstr
}.

Record browsingHours : Type := {
  preferredBrowsingTime : option string;
  averageSessionDuration : option string;
  hourlyDistribution : option (list hourEntry)
}.

Record seasonCounts : Type := {
  spring : nat;
  summer : nat;
  fall : nat;
  winter : nat
}.

Definition seasonEntries (c : seasonCounts) : list (string * nat) :=
  [("spring", spring c); ("summer", summer c);
   ("fall", fall c); ("winter", winter c)].

Record seasonEntry : Type := {
  seasonCount : nat;
  seasonPercentage : Num.numstr
}.

Record seasonalTrends : Type := {
  preferredSeason : option string;
  seasonalDistribution : list (string * seasonEntry)
}.

Record planningWindow : Type := {
  averagePlanningDays : option Num.num;
  planningStyle : option string;
  shortestPlanningDays : option Num.num;
  longestPlanningDays : option Num.num
}.

Record userActivity : Type := {
  bookings : option (list booking);
  sessions : option (list session);
  searches : option (list search)
}.

Record timePatterns : Type := {
  bookingTime : option bookingPatterns;
  browsingTime : option browsingHours;
  seasonalPreference : option seasonalTrends;
  planningHorizon : option planningWindow
}.

Section Host.

Variable tz : Z.

(** One iteration of the counting loop of [detectBookingPatterns].  For an
    invalid date [getDay] is [NaN]: the increment then lands on a property
    that is no index of the array, and every comparison of the hour is
    false, which leaves the [else] branch. *)
Definition countBooking (st : list nat * timeOfDayCounts) (b : booking)
  : list nat * timeOfDayCounts :=
  let '(dayOfWeekCounts, t) := st in
  let d := newDate (bookingDate b) in
  let dayOfWeekCounts' :=
    match getDay tz d with
    | Some dayOfWeek => incrAt dayOfWeek dayOfWeekCounts
    | None => dayOfWeekCounts
    end in
  let inRange lo hi :=
    match getHours tz d with
    | Some h => Nat.leb lo h && Nat.ltb h hi
    | None => false
    end in
  let t' :=
    if inRange 5 12 then
      {| morning := S (morning t); afternoon := afternoon t;
         evening := evening t; night := night t |}
    else if inRange 12 17 then
      {| morning := morning t; afternoon := S (afternoon t);
         evening := evening t; night := night t |}
    else if inRange 17 22 then
      {| morning := morning t; afternoon := afternoon t;
         evening := S (evening t); night := night t |}
    else
      {| morning := morning t; afternoon := afternoon t;
         evening := evening t; night := S (night t) |} in
  (dayOfWeekCounts', t').

Definition bookingCounts (bs : list booking) : list nat * timeOfDayCounts :=
  fold_left countBooking bs
    ([0; 0; 0; 0; 0; 0; 0]%nat,
     {| morning := 0; afternoon := 0; evening := 0; night := 0 |}).

Definition detectBookingPatterns (bookings : option (list booking))
  : bookingPatterns :=
  if missingOrEmpty bookings then
    {| preferredDayOfWeek := None; preferredTimeOfDay := None;
       dayDistribution := None; timeDistribution := None |}
  else
    let bs := orEmpty bookings in
    let '(dayOfWeekCounts, timeOfDay) := bookingCounts bs in
    let maxDayCount := maxCount dayOfWeekCounts in
    let preferredDayIndex := indexOf maxDayCount dayOfWeekCounts in
    {| preferredDayOfWeek :=
         match preferredDayIndex with
         | Some i => nth_error days i
         | None => None
         end;
       preferredTimeOfDay :=
         option_map fst (reduceGreater entryGt (timeEntries timeOfDay));
       dayDistribution :=
         Some (map (fun '(name, count) =>
                      {| day := name; dayCount := count;
                         dayPercentage := percentageOf count (List.length bs) |})
                   (combine days dayOfWeekCounts));
       timeDistribution :=
         Some (map (fun '(time, count) =>
                      {| timeOfDay := time; timeCount := count;
                         timePercentage := percentageOf count (List.length bs) |})
                   (timeEntries timeOfDay)) |}.

(** One iteration of the loop of [analyzeBrowsingHours]. *)
Definition countSession (st : list nat * Num.num) (s : session)
  : list nat * Num.num :=
  let '(hourCounts, totalDuration) := st in
  let sessionStart := newDate (startTime s) in
  let hourCounts' :=
    match getHours tz sessionStart with
    | Some h => incrAt h hourCounts
    | None => hourCounts
    end in
  let totalDuration' :=
    match endTime s with
    | Given e =>
        Num.add totalDuration
          (Num.div (Num.sub (valueOf e) (valueOf sessionStart))
                   (Num.ofZ (1000 * 60)))
    | Absent | Null => totalDuration
    end in
  (hourCounts', totalDuration').

Definition sessionCounts (ss : list session) : list nat * Num.num :=
  fold_left countSession ss (repeat 0%nat 24, Num.Fin 0).

Definition analyzeBrowsingHours (sessions : option (list session))
  : browsingHours :=
  if missingOrEmpty sessions then
    {| preferredBrowsingTime := None; averageSessionDuration := None;
       hourlyDistribution := None |}
  else
    let ss := orEmpty sessions in
    let '(hourCounts, totalDuration) := sessionCounts ss in
    let maxHourCount := maxCount hourCounts in
    let preferredHourIndex :=
      match indexOf maxHourCount hourCounts with
      | Some i => i
      | None => 0%nat
      end in
    let averageSessionDuration :=
      Num.toFixed 1 (Num.div totalDuration (Num.ofNat (List.length ss))) in
    {| preferredBrowsingTime :=
         Some (showNat preferredHourIndex ++ ":00 - "
               ++ showNat (preferredHourIndex + 1) ++ ":00");
       averageSessionDuration :=
         Some (Num.showNumstr averageSessionDuration ++ " minutes");
       hourlyDistribution :=
         Some (map (fun '(h, count) =>
                      {| hour := showNat h ++ ":00"; hourCount := count;
                         hourPercentage := percentageOf count (List.length ss) |})
                   (combine (seq 0 24) hourCounts)) |}.

(** One iteration of the loop of [detectSeasonalTrends]; as for the hour, an
    invalid date fails every comparison of the month. *)
Definition countSearch (c : seasonCounts) (s : search) : seasonCounts :=
  let inRange lo hi :=
    match getMonth tz (newDate (searchDate s)) with
    | Some m => Nat.leb lo m && Nat.leb m hi
    | None => false
    end in
  if inRange 2 4 then
    {| spring := S (spring c); summer := summer c; fall := fall c;
       winter := winter c |}
  else if inRange 5 7 then
    {| spring := spring c; summer := S (summer c); fall := fall c;
       winter := winter c |}
  else if inRange 8 10 then
    {| spring := spring c; summer := summer c; fall := S (fall c);
       winter := winter c |}
  else
    {| spring := spring c; summer := summer c; fall := fall c;
       winter := S (winter c) |}.

Definition searchCounts (ss : list search) : seasonCounts :=
  fold_left countSearch ss
    {| spring := 0; summer := 0; fall := 0; winter := 0 |}.

Definition detectSeasonalTrends (searches : option (list search))
  : seasonalTrends :=
  if missingOrEmpty searches then
    {| preferredSeason := None; seasonalDistribution := [] |}
  else
    let ss := orEmpty searches in
    let counts := searchCounts ss in
    {| preferredSeason :=
         option_map fst (reduceGreater entryGt (seasonEntries counts));
       seasonalDistribution :=
         map (fun '(season, count) =>
                (season,
                 {| seasonCount := count;
                    seasonPercentage := percentageOf count (List.length ss) |}))
             (seasonEntries counts) |}.

(** [Math.round((checkInDate - bookingDate) / (1000*60*60*24))]. *)
Definition planningDays (b : booking) : Num.num :=
  Num.round
    (Num.div (Num.sub (valueOf (newDate (checkIn b)))
                      (valueOf (newDate (bookingDate b))))
             (Num.ofZ msPerDay)).

Definition planningWindows (bs : list booking) : list Num.num :=
  map planningDays bs.

Definition styleOf (averagePlanningDays : Num.num) : string :=
  if Num.lt averagePlanningDays (Num.ofNat 14) then "Spontaneous"
  else if Num.lt averagePlanningDays (Num.ofNat 60) then "Moderate Planner"
  else "Advance Planner".

Definition calculatePlanningWindow (bookings : option (list booking))
  : planningWindow :=
  if missingOrEmpty bookings then
    {| averagePlanningDays := None; planningStyle := None;
       shortestPlanningDays := None; longestPlanningDays := None |}
  else
    let windows := planningWindows (orEmpty bookings) in
    let totalDays := fold_left Num.add windows (Num.Fin 0) in
    let average :=
      Num.round (Num.div totalDays (Num.ofNat (List.length windows))) in
    {| averagePlanningDays := Some average;
       planningStyle := Some (styleOf average);
       shortestPlanningDays := Some (fold_left Num.min windows Num.PInf);
       longestPlanningDays := Some (fold_left Num.max windows Num.NInf) |}.

Definition analyzeTimePatterns (activity : option userActivity)
  : timePatterns :=
  match activity with
  | None =>
      {| bookingTime := None; browsingTime := None;
         seasonalPreference := None; planningHorizon := None |}
  | Some a =>
      {| bookingTime :=
           Some (detectBookingPatterns (Some (orEmpty (bookings a))));
         browsingTime :=
           Some (analyzeBrowsingHours (Some (orEmpty (sessions a))));
         seasonalPreference :=
           Some (detectSeasonalTrends (Some (orEmpty (searches a))));
         planningHorizon :=
           Some (calculatePlanningWindow (Some (orEmpty (bookings a)))) |}
  end.

End Host.

End TimePatterns.

(* ================================================================== *)
(** ** JavaScript objects used as maps *)

Module Obj.

Local Open Scope nat_scope.

(** An object with string keys, as the list of its own entries in the
    order the keys were first assigned.  The properties an object inherits
    from [Object.prototype] are not represented: [get] and [set] stand for
    [o[k]] and [o[k] = v] on the keys that are none of [inheritedKeys]. *)
Definition obj (V : Type) : Type := list (string * V).

(** The names of the properties of [Object.prototype]. *)
Definition inheritedKeys : list string :=
  ["constructor"; "__defineGetter__"; "__defineSetter__"; "hasOwnProperty";
   "__lookupGetter__"; "__lookupSetter__"; "isPrototypeOf";
   "propertyIsEnumerable"; "toString"; "valueOf"; "__proto__";
   "toLocaleString"]%string.

(** A key that names no inherited property. *)
Definition ownKey (k : string) : Prop := ~ In k inheritedKeys.

Fixpoint get {V : Type} (o : obj V) (k : string) : option V :=
  match o with
  | [] => None
  | (k', v) :: rest => if String.eqb k' k then Some v else get rest k
  end.

(** [o[k] = v]: an existing key keeps its place. *)
Fixpoint set {V : Type} (o : obj V) (k : string) (v : V) : obj V :=
  match o with
  | [] => [(k, v)]
  | (k', v') :: rest =>
      if String.eqb k' k then (k', v) :: rest else (k', v') :: set rest k v
  end.

(** A key that is the canonical numeral of an integer below 2^32 - 1 is an
    array index. *)
Definition arrayIndex (k : string) : option N :=
  match NilZero.uint_of_string k with
  | Some u =>
      let n := N.of_uint u in
      if String.eqb (Num.digitsOfN n) k && N.ltb n 4294967295
      then Some n else None
  | None => None
  end.

Fixpoint insertIndexed {V : Type} (e : N * (string * V))
  (l : list (N * (string * V))) : list (N * (string * V)) :=
  match l with
  | [] => [e]
  | e' :: rest =>
      if N.ltb (fst e) (fst e') then e :: l else e' :: insertIndexed e rest
  end.

Definition indexed {V : Type} (o : obj V) : list (N * (string * V)) :=
  fold_right
    (fun e acc =>
       match arrayIndex (fst e) with
       | Some n => insertIndexed (n, e) acc
       | None => acc
       end) [] o.

Definition named {V : Type} (o : obj V) : obj V :=
  filter (fun e => match arrayIndex (fst e) with Some _ => false | None => true end) o.

(** [Object.entries(o)]: array-index keys first, in ascending order, then
    the other keys in the order of their creation. *)
Definition entries {V : Type} (o : obj V) : list (string * V) :=
  (map snd (indexed o) ++ named o)%list.

End Obj.

(* ================================================================== *)
(** ** Micro-interaction extractor *)

Module MicroInteractions.

Import Events.
Local Open Scope nat_scope.

Record breakdownEntry : Type := {
  breakdownElementType : string;
  totalTime : Q;
  breakdownPercentage : Num.numstr
}.

Record hoverTime : Type := {
  averageTime : option string;
  mostViewedElementType : option string;
  elementBreakdown : option (list breakdownEntry)
}.

Record scrollReport : Type := {
  scrollDepth : option string;
  scrollSpeed : option string;
  scrollBehaviorLabel : option string
}.

Record imageEngagement : Type := {
  averageViewTime : option string;
  totalImagesViewed : nat;
  visualEngagementLevel : option string
}.

Record priceSensitivityReport : Type := {
  priceElasticity : option string;
  priceSensitivity : option string;
  averagePriceRange : option string
}.

Record interactions : Type := {
  hovers : option (list hover);
  scrolls : option (list scroll);
  imageViews : option (list imageView);
  priceFilters : option (list priceFilter)
}.

Record microInteractions : Type := {
  hoverTimeReport : option hoverTime;
  scrollBehavior : option scrollReport;
  imageEngagementReport : option imageEngagement;
  priceElasticityReport : option priceSensitivityReport
}.

(** One iteration of the loop of [calculateAverageHoverTime]; the state is
    [hoverTimeByType] and [totalHoverTime]. *)
Definition countHover (st : Obj.obj Q * Q) (h : hover) : Obj.obj Q * Q :=
  let '(hoverTimeByType, totalHoverTime) := st in
  let duration := orZero (hoverDuration h) in
  let elementType :=
    match truthyString (elementType h) with
    | Some t => t
    | None => "unknown"
    end in
  (Obj.set hoverTimeByType elementType
     (valueOrZero (Obj.get hoverTimeByType elementType) + duration)%Q,
   (totalHoverTime + duration)%Q).

Definition hoverTotals (hs : list hover) : Obj.obj Q * Q :=
  fold_left countHover hs ([], 0%Q).

Definition timeGt (a b : string * Q) : bool := Num.Qltb (snd b) (snd a).

Definition calculateAverageHoverTime (hovers : option (list hover))
  : hoverTime :=
  if missingOrEmpty hovers then
    {| averageTime := None; mostViewedElementType := None;
       elementBreakdown := None |}
  else
    let hs := orEmpty hovers in
    let '(hoverTimeByType, totalHoverTime) := hoverTotals hs in
    let averageTime :=
      Num.toFixed 1 (Num.div (Num.Fin totalHoverTime)
                             (Num.ofNat (List.length hs))) in
    {| averageTime := Some (Num.showNumstr averageTime ++ " seconds");
       mostViewedElementType :=
         option_map fst (reduceGreater timeGt (Obj.entries hoverTimeByType));
       elementBreakdown :=
         Some (map (fun '(type, time) =>
                      {| breakdownElementType := type;
                         totalTime := time;
                         breakdownPercentage :=
                           Num.toFixed 1
                             (Num.mul (Num.div (Num.Fin time)
                                               (Num.Fin totalHoverTime))
                                      (Num.ofNat 100)) |})
                   (Obj.entries hoverTimeByType)) |}.

(** One iteration of the loop of [analyzeScrollPatterns]; the state is
    [totalDepth], [totalSpeed] and [completedScrolls]. *)
Definition countScroll (st : Q * Q * nat) (s : scroll) : Q * Q * nat :=
  let '(totalDepth, totalSpeed, completedScrolls) := st in
  let '(totalDepth', completedScrolls') :=
    if truthyQ (depthPercentage s)
    then ((totalDepth + orZero (depthPercentage s))%Q, S completedScrolls)
    else (totalDepth, completedScrolls) in
  let totalSpeed' :=
    if truthyQ (pixelsPerSecond s)
    then (totalSpeed + orZero (pixelsPerSecond s))%Q
    else totalSpeed in
  (totalDepth', totalSpeed', completedScrolls').

Definition scrollTotals (ss : list scroll) : Q * Q * nat :=
  fold_left countScroll ss (0%Q, 0%Q, 0).

Definition analyzeScrollPatterns (scrolls : option (list scroll))
  : scrollReport :=
  if missingOrEmpty scrolls then
    {| scrollDepth := None; scrollSpeed := None;
       scrollBehaviorLabel := None |}
  else
    let ss := orEmpty scrolls in
    let '(totalDepth, totalSpeed, completedScrolls) := scrollTotals ss in
    let averageDepth :=
      if Nat.ltb 0 completedScrolls
      then Some (Num.toFixed 1 (Num.div (Num.Fin totalDepth)
                                        (Num.ofNat completedScrolls)))
      else None in
    let averageSpeed :=
      if Nat.ltb 0 (List.length ss)
      then Some (Num.toFixed 1 (Num.div (Num.Fin totalSpeed)
                                        (Num.ofNat (List.length ss))))
      else None in
    let fast := Num.gt (Num.NumberOrNull averageSpeed) (Num.ofNat 1000) in
    let label :=
      if Num.gt (Num.NumberOrNull averageDepth) (Num.ofNat 80)
      then (if fast then "Rapid Deep Reader" else "Thorough Reader")
      else (if fast then "Quick Scanner" else "Casual Browser") in
    {| scrollDepth :=
         option_map (fun a => Num.showNumstr a ++ "%") averageDepth;
       scrollSpeed :=
         option_map (fun a => Num.showNumstr a ++ " px/s") averageSpeed;
       scrollBehaviorLabel := Some label |}.

(** One iteration of the loop of [calculateImageViewTime]; the set of
    image identifiers is the list of its members in insertion order. *)
Definition countView (st : Q * list string) (v : imageView)
  : Q * list string :=
  let '(totalViewTime, uniqueImageIds) := st in
  ((totalViewTime + orZero (viewDuration v))%Q,
   match truthyString (imageId v) with
   | Some id =>
       if existsb (String.eqb id) uniqueImageIds then uniqueImageIds
       else (uniqueImageIds ++ [id])%list
   | None => uniqueImageIds
   end).

Definition calculateImageViewTime (imageViews : option (list imageView))
  : imageEngagement :=
  if missingOrEmpty imageViews then
    {| averageViewTime := None; totalImagesViewed := 0;
       visualEngagementLevel := None |}
  else
    let vs := orEmpty imageViews in
    let '(totalViewTime, uniqueImageIds) := fold_left countView vs (0%Q, []) in
    let averageViewTime :=
      Num.toFixed 1 (Num.div (Num.Fin totalViewTime)
                             (Num.ofNat (List.length vs))) in
    {| averageViewTime := Some (Num.showNumstr averageViewTime ++ " seconds");
       totalImagesViewed := List.length uniqueImageIds;
       visualEngagementLevel :=
         Some (if Num.gt (Num.Number averageViewTime) (Num.ofNat 5) then "High"
               else if Num.gt (Num.Number averageViewTime) (Num.ofNat 2)
                    then "Medium" else "Low") |}.

(** [a !== b] on a numeric field: [undefined] and [null] differ. *)
Definition strictNe (a b : field Q) : bool :=
  match a, b with
  | Absent, Absent | Null, Null => false
  | Given x, Given y => negb (Qeq_bool x y)
  | _, _ => true
  end.

(** One iteration of the [for] loop of [analyzePriceSensitivity]; the state
    is [totalMinPrice], [totalMaxPrice], [priceChanges] and the filter at
    [i - 1], if any. *)
Definition countFilter (st : Q * Q * nat * option priceFilter)
  (currentFilter : priceFilter) : Q * Q * nat * option priceFilter :=
  let '(totalMinPrice, totalMaxPrice, priceChanges, prev) := st in
  let priceChanges' :=
    match prev with
    | Some prevFilter =>
        if strictNe (minPrice prevFilter) (minPrice currentFilter)
           || strictNe (maxPrice prevFilter) (maxPrice currentFilter)
        then S priceChanges else priceChanges
    | None => priceChanges
    end in
  ((totalMinPrice + orZero (minPrice currentFilter))%Q,
   (totalMaxPrice + orZero (maxPrice currentFilter))%Q,
   priceChanges',
   Some currentFilter).

Definition filterTotals (fs : list priceFilter)
  : Q * Q * nat * option priceFilter :=
  fold_left countFilter fs (0%Q, 0%Q, 0, None).

Definition analyzePriceSensitivity (priceFilters : option (list priceFilter))
  : priceSensitivityReport :=
  if missingOrEmpty priceFilters then
    {| priceElasticity := None; priceSensitivity := None;
       averagePriceRange := None |}
  else
    let fs := orEmpty priceFilters in
    let '(totalMinPrice, totalMaxPrice, priceChanges, _) := filterTotals fs in
    let len := Num.ofNat (List.length fs) in
    let averageMinPrice := Num.toFixed 0 (Num.div (Num.Fin totalMinPrice) len) in
    let averageMaxPrice := Num.toFixed 0 (Num.div (Num.Fin totalMaxPrice) len) in
    let priceElasticity :=
      Num.toFixed 1
        (Num.mul (Num.div (Num.ofNat priceChanges)
                          (Num.sub len (Num.ofNat 1)))
                 (Num.ofNat 100)) in
    let priceSensitivity :=
      if Num.gt (Num.Number priceElasticity) (Num.ofNat 60) then "High"
      else if Num.gt (Num.Number priceElasticity) (Num.ofNat 30) then "Medium"
      else "Low" in
    {| priceElasticity := Some (Num.showNumstr priceElasticity ++ "%");
       priceSensitivity := Some priceSensitivity;
       averagePriceRange :=
         Some ("$" ++ Num.showNumstr averageMinPrice ++ " - $"
               ++ Num.showNumstr averageMaxPrice) |}.

Definition analyzeMicroInteractions (i : option interactions)
  : microInteractions :=
  match i with
  | None =>
      {| hoverTimeReport := None; scrollBehavior := None;
         imageEngagementReport := None; priceElasticityReport := None |}
  | Some x =>
      {| hoverTimeReport :=
           Some (calculateAverageHoverTime (Some (orEmpty (hovers x))));
         scrollBehavior :=
           Some (analyzeScrollPatterns (Some (orEmpty (scrolls x))));
         imageEngagementReport :=
           Some (calculateImageViewTime (Some (orEmpty (imageViews x))));
         priceElasticityReport :=
           Some (analyzePriceSensitivity (Some (orEmpty (priceFilters x)))) |}
  end.

End MicroInteractions.

(* ================================================================== *)
(** ** Decision-pattern extractor *)

Module DecisionPatterns.

Import Dates Events.
Local Open Scope nat_scope.

Record viewedProperty : Type := {
  viewDate : dateField;
  viewPrice : field Q;
  viewRating : field Q
}.

Record userChoices : Type := {
  bookings : option (list booking);
  searches : option (list search);
  viewedProperties : option (list viewedProperty)
}.

Record impulsivity : Type := {
  score : option Num.numstr;
  category : option string;
  averageDecisionTimeHours : option Num.numstr;
  quickDecisionPercentage : option Num.numstr
}.

Record priceQuality : Type := {
  preference : option string;
  pqScore : option Num.numstr;
  qualityChoices : option nat;
  priceChoices : option nat
}.

Record uniqueness : Type := {
  uniquenessScore : option Num.numstr;
  uniquenessCategory : option string;
  unusualPropertyPercentage : option Num.numstr;
  propertyTypeDiversity : option nat
}.

Record riskTolerance : Type := {
  riskScore : option Num.numstr;
  riskCategory : option string;
  newDestinationPercentage : option Num.numstr;
  lowRatingBookingPercentage : option Num.numstr;
  lastMinuteBookingPercentage : option Num.numstr
}.

Record decisionPatterns : Type := {
  impulsiveVsPlanned : option impulsivity;
  priceVsQuality : option priceQuality;
  uniquenessPreference : option uniqueness;
  riskToleranceReport : option riskTolerance
}.

(** The number a numeric field gives in arithmetic and comparisons:
    [undefined] gives [NaN] and [null] gives [0]. *)
Definition fieldNum (x : field Q) : Num.num :=
  match x with
  | Given q => Num.Fin q
  | Null => Num.Fin 0
  | Absent => Num.NaN
  end.

(** [a === b] on an identifier: [undefined] and [null] equal themselves
    only. *)
Definition strictEqId (a b : field string) : bool :=
  match a, b with
  | Absent, Absent | Null, Null => true
  | Given x, Given y => String.eqb x y
  | _, _ => false
  end.

Definition dateOf (f : dateField) : Num.num := valueOf (newDate f).

(** The filter of [calculateImpulsivityScore]: a search of the same
    property, or one less than 24 hours away from the booking. *)
Definition isRelated (b : booking) (s : search) : bool :=
  strictEqId (searchPropertyId s) (bookingPropertyId b)
  || Num.lt (Num.abs (Num.sub (dateOf (searchDate s)) (dateOf (bookingDate b))))
            (Num.ofZ (24 * 60 * 60 * 1000)).

Definition relatedSearches (ss : list search) (b : booking) : list search :=
  filter (isRelated b) ss.

(** [relatedSearches.reduce((earliest, search) => ..., relatedSearches[0])]. *)
Definition earliestSearch (first : search) (related : list search) : search :=
  fold_left
    (fun earliest s =>
       if Num.lt (dateOf (searchDate s)) (dateOf (searchDate earliest))
       then s else earliest)
    related first.

(** The decision time of a booking, in hours, when it has a related
    search. *)
Definition decisionTime (ss : list search) (b : booking) : option Num.num :=
  match relatedSearches ss b with
  | [] => None
  | first :: rest =>
      let earliest := earliestSearch first (first :: rest) in
      Some (Num.div (Num.sub (dateOf (bookingDate b))
                             (dateOf (searchDate earliest)))
                    (Num.ofZ (1000 * 60 * 60)))
  end.

(** One iteration of the loop over the bookings; the state is
    [totalDecisionTime] and [quickDecisions]. *)
Definition countDecision (ss : list search) (st : Num.num * nat) (b : booking)
  : Num.num * nat :=
  let '(totalDecisionTime, quickDecisions) := st in
  match decisionTime ss b with
  | Some t =>
      (Num.add totalDecisionTime t,
       if Num.lt t (Num.ofNat 1) then S quickDecisions else quickDecisions)
  | None => st
  end.

Definition decisionTotals (bs : list booking) (ss : list search)
  : Num.num * nat :=
  fold_left (countDecision ss) bs (Num.Fin 0, 0).

(** [Math.min(100, Math.max(0, x))]. *)
Definition clamp100 (x : Num.num) : Num.num :=
  Num.min (Num.ofNat 100) (Num.max (Num.ofNat 0) x).

(** [(100 - (averageDecisionTime / 24) * 20) + (quickDecisionRate / 2)]. *)
Definition impulsivityFormula (averageDecisionTime quickDecisionRate : Num.num)
  : Num.num :=
  Num.add
    (Num.sub (Num.ofNat 100)
             (Num.mul (Num.div averageDecisionTime (Num.ofNat 24))
                      (Num.ofNat 20)))
    (Num.div quickDecisionRate (Num.ofNat 2)).

(** The three-way labels on a score: above 70, above 40, otherwise. *)
Definition threeWay (s : Num.num) (hi mid lo : string) : string :=
  if Num.gt s (Num.ofNat 70) then hi
  else if Num.gt s (Num.ofNat 40) then mid
  else lo.

Definition calculateImpulsivityScore (uc : userChoices) : impulsivity :=
  let bs := orEmpty (bookings uc) in
  let ss := orEmpty (searches uc) in
  match bs with
  | [] =>
      {| score := None; category := None; averageDecisionTimeHours := None;
         quickDecisionPercentage := None |}
  | _ :: _ =>
      let '(totalDecisionTime, quickDecisions) := decisionTotals bs ss in
      let len := Num.ofNat (List.length bs) in
      let averageDecisionTime := Num.div totalDecisionTime len in
      let quickDecisionRate :=
        Num.mul (Num.div (Num.ofNat quickDecisions) len) (Num.ofNat 100) in
      let impulsivityScore :=
        Num.toFixed 0
          (clamp100 (impulsivityFormula averageDecisionTime quickDecisionRate)) in
      {| score := Some impulsivityScore;
         category :=
           Some (threeWay (Num.Number impulsivityScore)
                   "Highly Impulsive" "Moderately Impulsive"
                   "Planned Decision Maker");
         averageDecisionTimeHours := Some (Num.toFixed 1 averageDecisionTime);
         quickDecisionPercentage := Some (Num.toFixed 1 quickDecisionRate) |}
  end.

(** One iteration of the loop of [analyzePriceQualityTradeoff]; the state is
    [qualityOverPrice] and [priceOverQuality]. *)
Definition countTradeoff (views : list viewedProperty) (st : nat * nat)
  (b : booking) : nat * nat :=
  let '(qualityOverPrice, priceOverQuality) := st in
  let contemporaryViews :=
    filter (fun v =>
              Num.lt (Num.abs (Num.sub (dateOf (viewDate v))
                                       (dateOf (bookingDate b))))
                     (Num.ofZ (7 * 24 * 60 * 60 * 1000)))
           views in
  match contemporaryViews with
  | [] => st
  | _ :: _ =>
      let n := Num.ofNat (List.length contemporaryViews) in
      let avgPrice :=
        Num.div (fold_left (fun sum v => Num.add sum (fieldNum (viewPrice v)))
                           contemporaryViews (Num.Fin 0)) n in
      let avgRating :=
        Num.div (fold_left (fun sum v => Num.add sum (fieldNum (viewRating v)))
                           contemporaryViews (Num.Fin 0)) n in
      let price := fieldNum (bookingPrice b) in
      let rating := fieldNum (bookingRating b) in
      if Num.gt price avgPrice && Num.gt rating avgRating
      then (S qualityOverPrice, priceOverQuality)
      else if Num.lt price avgPrice && Num.lt rating avgRating
           then (qualityOverPrice, S priceOverQuality)
           else st
  end.

Definition analyzePriceQualityTradeoff (uc : userChoices) : priceQuality :=
  let views := orEmpty (viewedProperties uc) in
  let bs := orEmpty (bookings uc) in
  if Nat.eqb (List.length bs) 0 || Nat.eqb (List.length views) 0 then
    {| preference := None; pqScore := None; qualityChoices := None;
       priceChoices := None |}
  else
    let '(qualityOverPrice, priceOverQuality) :=
      fold_left (countTradeoff views) bs (0, 0) in
    let totalComparisons := qualityOverPrice + priceOverQuality in
    let s :=
      if Nat.ltb 0 totalComparisons
      then Num.mul
             (Num.div (Num.sub (Num.ofNat qualityOverPrice)
                               (Num.ofNat priceOverQuality))
                      (Num.ofNat totalComparisons))
             (Num.ofNat 100)
      else Num.Fin 0 in
    {| preference :=
         Some (if Num.gt s (Num.ofNat 50) then "Strongly Quality-Focused"
               else if Num.gt s (Num.ofNat 20) then "Quality-Focused"
               else if Num.lt s (Num.ofZ (-50)) then "Strongly Price-Focused"
               else if Num.lt s (Num.ofZ (-20)) then "Price-Focused"
               else "Balanced Price-Quality");
       pqScore := Some (Num.toFixed 0 s);
       qualityChoices := Some qualityOverPrice;
       priceChoices := Some priceOverQuality |}.

(** [toLowerCase] on the letters A to Z, and [includes]. *)
Definition lowerAscii (c : ascii) : ascii :=
  let n := nat_of_ascii c in
  if Nat.leb 65 n && Nat.leb n 90 then ascii_of_nat (n + 32) else c.

Fixpoint toLowerCase (s : string) : string :=
  match s with
  | EmptyString => EmptyString
  | String c rest => String (lowerAscii c) (toLowerCase rest)
  end.

Fixpoint includes (s sub : string) : bool :=
  prefix sub s
  || match s with
     | EmptyString => false
     | String _ rest => includes rest sub
     end.

(** [set.add(x)] on a set kept as the list of its members. *)
Definition setAdd (set : list string) (x : string) : list string :=
  if existsb (String.eqb x) set then set else (set ++ [x])%list.

Definition unusualPropertyTypes : list string :=
  ["treehouse"; "castle"; "cave"; "igloo"; "lighthouse"; "container";
   "boat"; "dome"].

(** One iteration of the loop over the bookings of
    [calculateUniquenessSeeking]; the state is [propertyTypes],
    [destinations] and [unusualPropertyCount]. *)
Definition countUnique (st : list string * list string * nat) (b : booking)
  : list string * list string * nat :=
  let '(propertyTypes, destinations, unusualPropertyCount) := st in
  let '(propertyTypes', unusualPropertyCount') :=
    match truthyString (propertyType b) with
    | Some t =>
        (setAdd propertyTypes (toLowerCase t),
         if existsb (includes (toLowerCase t)) unusualPropertyTypes
         then S unusualPropertyCount else unusualPropertyCount)
    | None => (propertyTypes, unusualPropertyCount)
    end in
  let destinations' :=
    match truthyString (destination b) with
    | Some d => setAdd destinations d
    | None => destinations
    end in
  (propertyTypes', destinations', unusualPropertyCount').

Definition countTerm (searchTerms : list string) (s : search) : list string :=
  match truthyString (searchTerm s) with
  | Some t => setAdd searchTerms (toLowerCase t)
  | None => searchTerms
  end.

(** [size / total * 100]. *)
Definition rate (size total : nat) : Num.num :=
  Num.mul (Num.div (Num.ofNat size) (Num.ofNat total)) (Num.ofNat 100).

Definition calculateUniquenessSeeking (uc : userChoices) : uniqueness :=
  let bs := orEmpty (bookings uc) in
  let ss := orEmpty (searches uc) in
  match bs with
  | [] =>
      {| uniquenessScore := None; uniquenessCategory := None;
         unusualPropertyPercentage := None; propertyTypeDiversity := None |}
  | _ :: _ =>
      let '(propertyTypes, destinations, unusualPropertyCount) :=
        fold_left countUnique bs ([], [], 0) in
      let searchTerms := fold_left countTerm ss [] in
      let n := List.length bs in
      let hundred := Num.ofNat 100 in
      let typeUniqueness := Num.min hundred (rate (List.length propertyTypes) n) in
      let unusualRatio := rate unusualPropertyCount n in
      let destinationDiversity :=
        Num.min hundred (rate (List.length destinations) n) in
      let searchDiversity :=
        Num.min hundred (rate (List.length searchTerms) (List.length ss)) in
      let s :=
        Num.toFixed 0
          (Num.add
             (Num.add
                (Num.add (Num.mul typeUniqueness (Num.Fin (3 # 10)))
                         (Num.mul unusualRatio (Num.Fin (4 # 10))))
                (Num.mul destinationDiversity (Num.Fin (2 # 10))))
             (Num.mul searchDiversity (Num.Fin (1 # 10)))) in
      {| uniquenessScore := Some s;
         uniquenessCategory :=
           Some (threeWay (Num.Number s)
                   "Novelty Seeker" "Moderate Explorer" "Comfort Seeker");
         unusualPropertyPercentage := Some (Num.toFixed 1 unusualRatio);
         propertyTypeDiversity := Some (List.length propertyTypes) |}
  end.

(** [a && b ? Math.round((new Date(a) - new Date(b)) / msPerDay) : null],
    a text that does not parse being truthy all the same, and [null] and
    [undefined] falsy. *)
Definition daysBetween (later earlier : dateField) : option Num.num :=
  match later, earlier with
  | Given l, Given e =>
      Some (Num.round (Num.div (Num.sub (valueOf l) (valueOf e))
                               (Num.ofZ msPerDay)))
  | _, _ => None
  end.

(** One iteration of the loop of [assessRiskTolerance]; the state is
    [visitedDestinations] and the four counters. *)
Definition countRisk (st : list string * nat * nat * nat * nat) (b : booking)
  : list string * nat * nat * nat * nat :=
  let '(visitedDestinations, newDestinationCount, lowRatingCount,
        lastMinuteCount, longStayCount) := st in
  let '(visitedDestinations', newDestinationCount') :=
    match truthyString (destination b) with
    | Some d =>
        if existsb (String.eqb d) visitedDestinations
        then (visitedDestinations, newDestinationCount)
        else ((visitedDestinations ++ [d])%list, S newDestinationCount)
    | None => (visitedDestinations, newDestinationCount)
    end in
  let lowRatingCount' :=
    if truthyQ (bookingRating b)
       && Num.lt (fieldNum (bookingRating b)) (Num.Fin 4)
    then S lowRatingCount else lowRatingCount in
  let lastMinuteCount' :=
    match daysBetween (checkIn b) (bookingDate b) with
    | Some daysBefore =>
        if Num.le daysBefore (Num.ofNat 7)
        then S lastMinuteCount else lastMinuteCount
    | None => lastMinuteCount
    end in
  let longStayCount' :=
    match daysBetween (checkOut b) (checkIn b) with
    | Some stayLength =>
        if Num.ge stayLength (Num.ofNat 14)
        then S longStayCount else longStayCount
    | None => longStayCount
    end in
  (visitedDestinations', newDestinationCount', lowRatingCount',
   lastMinuteCount', longStayCount').

Definition assessRiskTolerance (uc : userChoices) : riskTolerance :=
  let bs := orEmpty (bookings uc) in
  match bs with
  | [] =>
      {| riskScore := None; riskCategory := None;
         newDestinationPercentage := None;
         lowRatingBookingPercentage := None;
         lastMinuteBookingPercentage := None |}
  | _ :: _ =>
      let '(_, newDestinationCount, lowRatingCount, lastMinuteCount,
            longStayCount) := fold_left countRisk bs ([], 0, 0, 0, 0) in
      let n := List.length bs in
      let newDestinationRate := rate newDestinationCount n in
      let lowRatingRate := rate lowRatingCount n in
      let lastMinuteRate := rate lastMinuteCount n in
      let longStayRate := rate longStayCount n in
      let s :=
        Num.toFixed 0
          (Num.add
             (Num.add
                (Num.add (Num.mul newDestinationRate (Num.Fin (4 # 10)))
                         (Num.mul lowRatingRate (Num.Fin (3 # 10))))
                (Num.mul lastMinuteRate (Num.Fin (2 # 10))))
             (Num.mul longStayRate (Num.Fin (1 # 10)))) in
      {| riskScore := Some s;
         riskCategory :=
           Some (threeWay (Num.Number s)
                   "High Risk Tolerance" "Moderate Risk Tolerance"
                   "Low Risk Tolerance");
         newDestinationPercentage := Some (Num.toFixed 1 newDestinationRate);
         lowRatingBookingPercentage := Some (Num.toFixed 1 lowRatingRate);
         lastMinuteBookingPercentage := Some (Num.toFixed 1 lastMinuteRate) |}
  end.

Definition analyzeDecisionPatterns (choices : option userChoices)
  : decisionPatterns :=
  match choices with
  | None =>
      {| impulsiveVsPlanned := None; priceVsQuality := None;
         uniquenessPreference := None; riskToleranceReport := None |}
  | Some uc =>
      {| impulsiveVsPlanned := Some (calculateImpulsivityScore uc);
         priceVsQuality := Some (analyzePriceQualityTradeoff uc);
         uniquenessPreference := Some (calculateUniquenessSeeking uc);
         riskToleranceReport := Some (assessRiskTolerance uc) |}
  end.

End DecisionPatterns.

(* ================================================================== *)
(** ** Archetype classifier *)

Module Archetypes.

Local Open Scope nat_scope.

Inductive level : Type := low | moderate | high.

Inductive trait : Type :=
| openness
| conscientiousness
| extraversion
| agreeableness
| neuroticism.

Definition levelName (l : level) : string :=
  match l with
  | low => "low"
  | moderate => "moderate"
  | high => "high"
  end.

Definition traitName (t : trait) : string :=
  match t with
  | openness => "openness"
  | conscientiousness => "conscientiousness"
  | extraversion => "extraversion"
  | agreeableness => "agreeableness"
  | neuroticism => "neuroticism"
  end.

Definition level_eqb (a b : level) : bool :=
  match a, b with
  | low, low | moderate, moderate | high, high => true
  | _, _ => false
  end.

(** A catalog entry: its name, the trait levels it declares (in the order
    of the source), its description and its recommended properties. *)
Record archetype : Type := {
  archetypeName : string;
  requirements : list (trait * level);
  description : string;
  recommendedProperties : list string
}.

Definition archetypes : list archetype :=
  [ {| archetypeName := "The Explorer";
       requirements := [(openness, high); (neuroticism, low)];
       description :=
         "Seeks new experiences and destinations, values authenticity and adventure";
       recommendedProperties :=
         ["Treehouse"; "Remote Cabin"; "Eco Lodge"; "Wilderness Retreat"] |};
    {| archetypeName := "The Comfort Seeker";
       requirements := [(neuroticism, high); (conscientiousness, high)];
       description :=
         "Prioritizes comfort, security and predictability in travel experiences";
       recommendedProperties :=
         ["Luxury Resort"; "Villa"; "High-end Hotel"; "Serviced Apartment"] |};
    {| archetypeName := "The Social Butterfly";
       requirements := [(extraversion, high); (agreeableness, high)];
       description :=
         "Travels to meet people and make connections, enjoys shared experiences";
       recommendedProperties :=
         ["Hostel"; "Co-living Space"; "Resort"; "Urban Apartment"] |};
    {| archetypeName := "The Digital Nomad";
       requirements := [(openness, high); (conscientiousness, moderate)];
       description :=
         "Seeks balance between work and exploration, values good connectivity";
       recommendedProperties :=
         ["Co-working Hotel"; "Long-term Rental"; "Connected Cabin";
          "Urban Loft"] |};
    {| archetypeName := "The Luxury Traveler";
       requirements := [(conscientiousness, high); (openness, moderate)];
       description :=
         "Values premium experiences, service excellence and exclusivity";
       recommendedProperties :=
         ["5-star Resort"; "Private Villa"; "Boutique Hotel"; "Luxury Yacht"] |};
    {| archetypeName := "The Budget Backpacker";
       requirements := [(openness, high); (conscientiousness, low)];
       description :=
         "Prioritizes value and authentic experiences over luxury";
       recommendedProperties :=
         ["Hostel"; "Budget Hotel"; "Shared Apartment"; "Camping"] |};
    {| archetypeName := "The Cultural Enthusiast";
       requirements := [(openness, high); (extraversion, moderate)];
       description :=
         "Travels to experience different cultures, history, and local traditions";
       recommendedProperties :=
         ["Historic Stay"; "City Apartment"; "Local Homestay";
          "Heritage Hotel"] |};
    {| archetypeName := "The Wellness Seeker";
       requirements := [(conscientiousness, high); (neuroticism, moderate)];
       description :=
         "Prioritizes health, wellness and rejuvenation during travel";
       recommendedProperties :=
         ["Spa Resort"; "Yoga Retreat"; "Hot Springs Villa";
          "Wellness Center"] |} ].

(** The personality profile: a score per trait, [None] when the field is
    [undefined], [null] or no number, for which both comparisons of the
    score are false. *)
Definition personalityProfile : Type := trait -> option Q.

(** [v > c], false when there is no score. *)
Definition scoreAbove (v : option Q) (c : Q) : bool :=
  match v with
  | Some q => Num.Qltb c q
  | None => false
  end.

Definition personalityCategories (p : personalityProfile) (t : trait) : level :=
  if scoreAbove (p t) 70 then high
  else if scoreAbove (p t) 40 then moderate
  else low.

(** What the classifier reads of the behaviour data: the categories of the
    uniqueness and risk reports and the price/quality preference, each
    [None] when the report or its field is [undefined] or [null]. *)
Record behaviorData : Type := {
  uniquenessCategory : option string;
  riskCategory : option string;
  priceQualityPreference : option string
}.

Definition isLabel (x : option string) (label : string) : bool :=
  match x with
  | Some s => String.eqb s label
  | None => false
  end.

(** [factors.push(x)]. *)
Definition push (l : list string) (x : string) : list string := (l ++ [x])%list.

(** One iteration of the loop over the declared traits of an archetype;
    the state is [matchScore] and [matchFactors]. *)
Definition matchTrait (p : personalityProfile) (st : nat * list string)
  (req : trait * level) : nat * list string :=
  let '(matchScore, matchFactors) := st in
  let '(t, lvl) := req in
  if level_eqb (personalityCategories p t) lvl then
    (matchScore + 25,
     push matchFactors (traitName t ++ " (" ++ levelName lvl ++ ")"))
  else if (level_eqb (personalityCategories p t) moderate && level_eqb lvl high)
          || (level_eqb (personalityCategories p t) high
              && level_eqb lvl moderate) then
    (matchScore + 15,
     push matchFactors (traitName t ++ " (partial match)"))
  else st.

(** One of the four behaviour checks. *)
Definition bonusIf (cond : bool) (factor : string) (st : nat * list string)
  : nat * list string :=
  if cond then (fst st + 20, push (snd st) factor) else st.

Definition matchBehavior (name : string) (b : option behaviorData)
  (st : nat * list string) : nat * list string :=
  match b with
  | None => st
  | Some bd =>
      let st1 :=
        bonusIf (String.eqb name "The Explorer"
                 && isLabel (uniquenessCategory bd) "Novelty Seeker")
                "novelty seeking behavior" st in
      let st2 :=
        bonusIf (String.eqb name "The Comfort Seeker"
                 && isLabel (riskCategory bd) "Low Risk Tolerance")
                "low risk tolerance" st1 in
      let st3 :=
        bonusIf (String.eqb name "The Luxury Traveler"
                 && isLabel (priceQualityPreference bd) "Strongly Quality-Focused")
                "quality-focused decisions" st2 in
      bonusIf (String.eqb name "The Budget Backpacker"
               && isLabel (priceQualityPreference bd) "Strongly Price-Focused")
              "price-focused decisions" st3
  end.

(** An entry of [archetypeScores], with its key. *)
Record scored : Type := {
  scoredArchetype : string;
  scoredScore : nat;
  factors : list string;
  scoredDescription : string;
  scoredProperties : list string
}.

Definition scoreArchetype (p : personalityProfile) (b : option behaviorData)
  (a : archetype) : scored :=
  let st := fold_left (matchTrait p) (requirements a) (0, []) in
  let '(matchScore, matchFactors) := matchBehavior (archetypeName a) b st in
  {| scoredArchetype := archetypeName a;
     scoredScore := matchScore;
     factors := matchFactors;
     scoredDescription := description a;
     scoredProperties := recommendedProperties a |}.

(** [Object.entries(archetypeScores)]: the names are distinct and none is an
    array index, so the entries come in the order of the catalog. *)
Definition archetypeScoresOf (catalog : list archetype)
  (p : personalityProfile) (b : option behaviorData) : list scored :=
  map (scoreArchetype p b) catalog.

Definition archetypeScores : personalityProfile -> option behaviorData -> list scored :=
  archetypeScoresOf archetypes.

(** The [reduce] that looks for the best match, from the seed
    [{ archetype: '', score: 0 }]. *)
Definition bestMatch (entries : list scored) : string * nat :=
  fold_left
    (fun best e =>
       if Nat.ltb (snd best) (scoredScore e)
       then (scoredArchetype e, scoredScore e) else best)
    entries ("", 0).

(** [sort((a, b) => b[1].score - a[1].score)].  The sort of an array is
    stable: entries of equal score keep their order.  Any stable sort gives
    the same array; this one inserts each entry, last first, after the
    entries of greater score. *)
Fixpoint insertByScore (e : scored) (sorted : list scored) : list scored :=
  match sorted with
  | [] => [e]
  | x :: rest =>
      if Nat.ltb (scoredScore e) (scoredScore x)
      then x :: insertByScore e rest
      else e :: sorted
  end.

Definition sortByScore (entries : list scored) : list scored :=
  fold_right insertByScore [] entries.

Record classification : Type := {
  primaryArchetype : string;
  matchScore : nat;
  primaryDescription : option string;
  primaryProperties : option (list string);
  topArchetypes : list scored
}.

(** [archetypes[name]]. *)
Definition lookupArchetype (catalog : list archetype) (name : string)
  : option archetype :=
  find (fun a => String.eqb (archetypeName a) name) catalog.

Definition classifyWith (catalog : list archetype) (p : personalityProfile)
  (b : option behaviorData) : classification :=
  let scores := archetypeScoresOf catalog p b in
  let best := bestMatch scores in
  {| primaryArchetype := fst best;
     matchScore := snd best;
     primaryDescription :=
       option_map description (lookupArchetype catalog (fst best));
     primaryProperties :=
       option_map recommendedProperties (lookupArchetype catalog (fst best));
     topArchetypes := firstn 3 (sortByScore scores) |}.

Definition classifyTravelArchetype
  : personalityProfile -> option behaviorData -> classification :=
  classifyWith archetypes.

(** The position of an archetype in the catalog. *)
Fixpoint declarationIndexIn (catalog : list archetype) (name : string) : nat :=
  match catalog with
  | [] => 0
  | a :: rest =>
      if String.eqb (archetypeName a) name then 0
      else S (declarationIndexIn rest name)
  end.

Definition declarationIndex : string -> nat := declarationIndexIn archetypes.

End Archetypes.


(* ================================================================== *)
(** ** Contextual factors *)

Module Context.

Import Dates Events.
Local Open Scope nat_scope.

Record seasonalFactors : Type := {
  season : string;
  characteristics : list string;
  travelConsiderations : list string
}.

Section Host.

Variable tz : Z.

(** The season of the start date; an invalid date fails every comparison
    of its month. *)
Definition seasonOf (start : dateField) : string :=
  let inRange lo hi :=
    match getMonth tz (newDate start) with
    | Some m => Nat.leb lo m && Nat.leb m hi
    | None => false
    end in
  if inRange 2 4 then "Spring"
  else if inRange 5 7 then "Summer"
  else if inRange 8 10 then "Fall"
  else "Winter".

(** [getSeasonalFactors(dates)], of which [dates.start] is read. *)
Definition getSeasonalFactors (start : dateField) : seasonalFactors :=
  let season := seasonOf start in
  if String.eqb season "Spring" then
    {| season := season;
       characteristics :=
         ["Mild temperatures"; "Blooming flowers"; "Occasional rain"];
       travelConsiderations :=
         ["Shoulder season prices"; "Less crowded attractions";
          "Pack layers for changing weather"] |}
  else if String.eqb season "Summer" then
    {| season := season;
       characteristics :=
         ["Warm temperatures"; "Long daylight hours"; "Peak tourism"];
       travelConsiderations :=
         ["Higher prices"; "Advanced booking recommended"; "Heat management"] |}
  else if String.eqb season "Fall" then
    {| season := season;
       characteristics :=
         ["Cooling temperatures"; "Fall foliage"; "Harvest season"];
       travelConsiderations :=
         ["Shoulder season prices"; "Less crowded attractions";
          "Pack layers for changing weather"] |}
  else if String.eqb season "Winter" then
    {| season := season;
       characteristics :=
         ["Cold temperatures"; "Possible snow"; "Holiday season"];
       travelConsiderations :=
         ["Winter activities"; "Holiday pricing variations";
          "Weather-appropriate clothing"] |}
  else
    {| season := season; characteristics := []; travelConsiderations := [] |}.

End Host.

End Context.

(* ================================================================== *)
(** ** Text preferences *)

Module Preferences.

Import Events DecisionPatterns.
Local Open Scope nat_scope.

Record preferences : Type := {
  destinationTypes : list string;
  accommodationStyles : list string;
  activities : list string;
  travelPersonality : list string
}.

(** [text.match(/w1|w2|.../i)] for words of lower-case letters and hyphens:
    some word occurs in the text, whatever the case of its letters. *)
Definition mentions (text : string) (words : list string) : bool :=
  existsb (includes (toLowerCase text)) words.

(** [list.push(x)] when the condition holds. *)
Definition pushIf (cond : bool) (x : string) (l : list string) : list string :=
  if cond then (l ++ [x])%list else l.

Definition extractPreferencesFromText (text : string) : preferences :=
  let adventure := mentions text ["adventure"; "extreme"; "outdoor"; "thrill"] in
  let relax :=
    mentions text ["relax"; "peaceful"; "calm"; "serene"; "tranquil"] in
  {| destinationTypes :=
       pushIf (mentions text ["city"; "urban"; "metropolitan"; "skyline"])
              "Urban"
         (pushIf (mentions text ["mountain"; "hiking"; "alpine"; "hill"; "trek"])
                 "Mountains"
            (pushIf (mentions text ["beach"; "ocean"; "sea"; "coast"; "water"])
                    "Beach" []));
     accommodationStyles :=
       pushIf (mentions text
                 ["luxury"; "high-end"; "premium"; "exclusive"; "elegant"])
              "Luxury" [];
     activities := pushIf relax "Relaxation" (pushIf adventure "Adventure" []);
     travelPersonality :=
       pushIf relax "Relaxed" (pushIf adventure "Adventurous" []) |}.

End Preferences.

(* ================================================================== *)
(** ** Travel intent signals *)

Module Intent.

Import Dates Events DecisionPatterns.
Local Open Scope nat_scope.

(** A social connection; [interests] is [None] when the field is
    [undefined] or [null], which [&&] does not tell apart. *)
Record connection : Type := {
  interests : option (list string)
}.

Record socialAnalysis : Type := {
  travelInterestScore : Num.numstr;
  travelRelatedConnections : nat;
  totalConnections : nat
}.

(** [array.includes(x)] on an array of strings. *)
Definition member (x : string) (l : list string) : bool :=
  existsb (String.eqb x) l.

Definition travelRelated (c : connection) : bool :=
  match interests c with
  | Some l =>
      existsb (fun i => member (toLowerCase i)
                          ["travel"; "vacation"; "holiday"; "trip"]) l
  | None => false
  end.

Definition analyzeSocialMedia (socialConnections : list connection)
  : socialAnalysis :=
  let travelRelatedCount := List.length (filter travelRelated socialConnections) in
  let travelScore :=
    if Nat.ltb 0 (List.length socialConnections)
    then Num.mul (Num.div (Num.ofNat travelRelatedCount)
                          (Num.ofNat (List.length socialConnections)))
                 (Num.ofNat 100)
    else Num.ofNat 0 in
  {| travelInterestScore := Num.toFixed 1 travelScore;
     travelRelatedConnections := travelRelatedCount;
     totalConnections := List.length socialConnections |}.

(** A calendar event. *)
Record calendarEvent : Type := {
  title : field string;
  eventDescription : field string;
  eventDate : dateField
}.

Record personalEvents : Type := {
  potentialTravelEventCount : nat;
  peakTravelMonth : option string;
  peakEventCount : nat;
  eventsByMonth : Obj.obj (list calendarEvent)
}.

Definition travelTriggerKeywords : list string :=
  ["vacation"; "holiday"; "trip"; "travel"; "flight"; "hotel";
   "wedding"; "anniversary"; "birthday"; "graduation"; "reunion";
   "conference"; "business trip"; "offsite"; "retreat"].

(** [x?.toLowerCase().includes(keyword)]: [undefined], which [?.] gives
    for [undefined] and for [null], is falsy. *)
Definition fieldIncludes (x : field string) (keyword : string) : bool :=
  match x with
  | Given s => includes (toLowerCase s) keyword
  | Absent | Null => false
  end.

Definition mayTriggerTravel (e : calendarEvent) : bool :=
  existsb (fun keyword =>
             fieldIncludes (title e) keyword
             || fieldIncludes (eventDescription e) keyword)
          travelTriggerKeywords.

(** The year a day count falls in. *)
Definition yearFromDays (days : Z) : Z :=
  let z := (days + 719468)%Z in
  let era := (z / 146097)%Z in
  let doe := (z - era * 146097)%Z in
  let yoe := ((doe - doe / 1460 + doe / 36524 - doe / 146096) / 365)%Z in
  let doy := (doe - (365 * yoe + yoe / 4 - yoe / 100))%Z in
  let mp := ((5 * doy + 2) / 153)%Z in
  let m := (if mp <? 10 then mp + 3 else mp - 9)%Z in
  (yoe + era * 400 + (if m <=? 2 then 1 else 0))%Z.

(** The numeral of an integer. *)
Definition showZ (z : Z) : string :=
  match z with
  | Zneg p => "-" ++ Num.digitsOfN (Npos p)
  | _ => Num.digitsOfN (Z.to_N z)
  end.

Section Host.

Variable tz : Z.

(** [`${date.getMonth() + 1}-${date.getFullYear()}`]. *)
Definition monthYear (d : jsdate) : string :=
  match d with
  | InvalidDate => "NaN-NaN"
  | DateAt t =>
      showZ (monthFromDays ((t + tz) / msPerDay))
      ++ "-" ++ showZ (yearFromDays ((t + tz) / msPerDay))
  end.

(** One iteration of the grouping loop: the array of the month is created
    when the key is new, and the event is pushed on it. *)
Definition groupEvent (eventsByMonth : Obj.obj (list calendarEvent))
  (e : calendarEvent) : Obj.obj (list calendarEvent) :=
  let key := monthYear (newDate (eventDate e)) in
  let existing :=
    match Obj.get eventsByMonth key with
    | Some l => l
    | None => []
    end in
  Obj.set eventsByMonth key (existing ++ [e])%list.

(** One iteration of the search for the peak month; the state is
    [peakTravelMonth] and [peakEventCount]. *)
Definition peakStep (st : option string * nat)
  (entry : string * list calendarEvent) : option string * nat :=
  if Nat.ltb (snd st) (List.length (snd entry))
  then (Some (fst entry), List.length (snd entry))
  else st.

Definition detectPersonalEvents (calendarEvents : list calendarEvent)
  : personalEvents :=
  let potentialTravelEvents := filter mayTriggerTravel calendarEvents in
  let eventsByMonth := fold_left groupEvent potentialTravelEvents [] in
  let peak := fold_left peakStep (Obj.entries eventsByMonth) (None, 0) in
  {| potentialTravelEventCount := List.length potentialTravelEvents;
     peakTravelMonth := fst peak;
     peakEventCount := snd peak;
     eventsByMonth := eventsByMonth |}.

End Host.

End Intent.

(* ================================================================== *)
(** ** Vocabulary of the properties *)

Local Open Scope string_scope.
Local Open Scope list_scope.

Module Stated.

Import Dates Events Archetypes.
Local Open Scope nat_scope.

(** A record whose date parses. *)
Definition parses (f : dateField) : Prop := newDate f <> InvalidDate.

(** *** Classifier *)

(** Points the classifier awards for one declared trait, by computed and
    required level. *)
Definition traitPoints (computed required : level) : nat :=
  match computed, required with
  | low, low | moderate, moderate | high, high => 25
  | moderate, high | high, moderate => 15
  | _, _ => 0
  end.

Definition traitScore (p : personalityProfile) (a : archetype) : nat :=
  list_sum (map (fun req => traitPoints (personalityCategories p (fst req))
                                        (snd req))
                (requirements a)).

Definition behaviorBonus (name : string) (b : option behaviorData) : nat :=
  fst (matchBehavior name b (0, [])).

(** The points as the specification words them: a partial match whenever
    the two levels are adjacent, [low] next to [moderate] included. *)
Definition statedTraitPoints (computed required : level) : nat :=
  match computed, required with
  | low, low | moderate, moderate | high, high => 25
  | moderate, high | high, moderate | moderate, low | low, moderate => 15
  | _, _ => 0
  end.

Definition statedTraitScore (p : personalityProfile) (a : archetype) : nat :=
  list_sum (map (fun req => statedTraitPoints (personalityCategories p (fst req))
                                              (snd req))
                (requirements a)).

(** An entry ranks before another: a greater score, or the same score and
    an earlier declaration in the catalog. *)
Definition ranksBefore (x y : scored) : Prop :=
  scoredScore y < scoredScore x
  \/ (scoredScore x = scoredScore y
      /\ declarationIndex (scoredArchetype x)
         < declarationIndex (scoredArchetype y)).

Definition declaredBefore (x y : scored) : Prop :=
  declarationIndex (scoredArchetype x) < declarationIndex (scoredArchetype y).

(** Openness, extraversion and agreeableness low, conscientiousness high,
    neuroticism moderate. *)
Definition conscientiousProfile : personalityProfile :=
  fun t =>
    match t with
    | openness => Some 20%Q
    | conscientiousness => Some 80%Q
    | extraversion => Some 20%Q
    | agreeableness => Some 20%Q
    | neuroticism => Some 50%Q
    end.

(** *** Percentages *)


Definition Qsum (xs : list Q) : Q := fold_right Qplus 0%Q xs.








(** The total hover time of a list of hovers. *)
Definition totalHoverTime (hs : list hover) : Q :=
  Qsum (map (fun h => orZero (hoverDuration h)) hs).

(** *** Counts of the time patterns *)

(** The number of bookings counted by time of day, and of searches
    counted by season. *)
Definition timeTotal (t : TimePatterns.timeOfDayCounts) : nat :=
  TimePatterns.morning t + TimePatterns.afternoon t
  + TimePatterns.evening t + TimePatterns.night t.

Definition seasonTotal (c : TimePatterns.seasonCounts) : nat :=
  TimePatterns.spring c + TimePatterns.summer c
  + TimePatterns.fall c + TimePatterns.winter c.

(** The time-of-day counters with one more booking at night. *)
Definition oneMoreAtNight (t : TimePatterns.timeOfDayCounts)
  : TimePatterns.timeOfDayCounts :=
  {| TimePatterns.morning := TimePatterns.morning t;
     TimePatterns.afternoon := TimePatterns.afternoon t;
     TimePatterns.evening := TimePatterns.evening t;
     TimePatterns.night := S (TimePatterns.night t) |}.

(** The entries of the two distributions of [detectBookingPatterns] for
    given counts and a given denominator. *)
Definition dayEntriesFor (counts : list nat) (total : nat)
  : list TimePatterns.dayEntry :=
  map (fun nc =>
         {| TimePatterns.day := fst nc;
            TimePatterns.dayCount := snd nc;
            TimePatterns.dayPercentage := percentageOf (snd nc) total |})
      (combine TimePatterns.days counts).

Definition timeEntriesFor (t : TimePatterns.timeOfDayCounts) (total : nat)
  : list TimePatterns.timeEntry :=
  map (fun nc =>
         {| TimePatterns.timeOfDay := fst nc;
            TimePatterns.timeCount := snd nc;
            TimePatterns.timePercentage := percentageOf (snd nc) total |})
      (TimePatterns.timeEntries t).

(** The same for the hours of [analyzeBrowsingHours] and the seasons of
    [detectSeasonalTrends]. *)
Definition hourEntriesFor (counts : list nat) (total : nat)
  : list TimePatterns.hourEntry :=
  map (fun hc =>
         {| TimePatterns.hour := (showNat (fst hc) ++ ":00")%string;
            TimePatterns.hourCount := snd hc;
            TimePatterns.hourPercentage := percentageOf (snd hc) total |})
      (combine (seq 0 24) counts).


Definition seasonEntriesFor (c : TimePatterns.seasonCounts) (total : nat)
  : list (string * TimePatterns.seasonEntry) :=
  map (fun sc =>
         (fst sc,
          {| TimePatterns.seasonCount := snd sc;
             TimePatterns.seasonPercentage := percentageOf (snd sc) total |}))
      (TimePatterns.seasonEntries c).




(** *** Scrolls *)






(** The magnitudes for which [toFixed] prints plain digits. *)
Definition plainDigits (x : Q) : Prop := (Qabs x < 1000000000000000000000)%Q.





(** *** Decisions *)

(** Two bookings: the first was searched for two days before, the second
    has no related search. *)
Definition twoBookingsOneSearch : DecisionPatterns.userChoices :=
  {| DecisionPatterns.bookings :=
       Some [ {| bookingDate := Given (DateAt (10 * msPerDay));
                 checkIn := Absent; checkOut := Absent;
                 bookingPropertyId := Given "p1"%string;
                 bookingPrice := Absent; bookingRating := Absent;
                 propertyType := Absent; destination := Absent |};
              {| bookingDate := Given (DateAt (100 * msPerDay));
                 checkIn := Absent; checkOut := Absent;
                 bookingPropertyId := Given "p2"%string;
                 bookingPrice := Absent; bookingRating := Absent;
                 propertyType := Absent; destination := Absent |} ];
     DecisionPatterns.searches :=
       Some [ {| searchDate := Given (DateAt (8 * msPerDay));
                 searchPropertyId := Given "p1"%string;
                 searchTerm := Absent |} ];
     DecisionPatterns.viewedProperties := None |}.

(** *** Planning *)

(** The integer nearest to [a / b], a half going up, for [b > 0]. *)
Definition roundDiv (a b : Z) : Z := ((2 * a + b) / (2 * b))%Z.

(** The planning days of a booking whose two dates parse. *)
Definition wholeDays (b : booking) : option Z :=
  match newDate (checkIn b), newDate (bookingDate b) with
  | DateAt c, DateAt d => Some (roundDiv (c - d) msPerDay)
  | _, _ => None
  end.

Definition dayCounts (bs : list booking) : list Z :=
  flat_map (fun b => match wholeDays b with Some z => [z] | None => [] end) bs.

Definition planningStyleFor (averageDays : Z) : string :=
  if (averageDays <? 14)%Z then "Spontaneous"%string
  else if (averageDays <? 60)%Z then "Moderate Planner"%string
  else "Advance Planner"%string.

Definition sumZ (l : list Z) : Z := fold_right Z.add 0%Z l.

Definition minimumZ (l : list Z) : Z :=
  match l with
  | [] => 0%Z
  | first :: rest => fold_left Z.min rest first
  end.

Definition maximumZ (l : list Z) : Z :=
  match l with
  | [] => 0%Z
  | first :: rest => fold_left Z.max rest first
  end.

Definition meanZ (l : list Z) : Z := roundDiv (sumZ l) (Z.of_nat (List.length l)).

(** The booking of scenario A: booked on ["2024-01-01T09:00"], a local
    time, for a check-in on ["2024-01-10"], a UTC date. *)
Definition scenarioA (tz : Z) : booking :=
  {| bookingDate := Given (dateTimeLocal tz 2024 1 1 9 0);
     checkIn := Given (dateOnly 2024 1 10);
     checkOut := Given (dateOnly 2024 1 12);
     bookingPropertyId := Absent; bookingPrice := Absent; bookingRating := Absent;
     propertyType := Absent; destination := Absent |}.

(** A booking without check-in date. *)
Definition withoutCheckIn : booking :=
  {| bookingDate := Given (dateOnly 2024 1 1);
     checkIn := Absent; checkOut := Absent;
     bookingPropertyId := Absent; bookingPrice := Absent; bookingRating := Absent;
     propertyType := Absent; destination := Absent |}.

(** *** The impulsivity score, in hours *)












End Stated.

(** Case analysis on every condition of the goal. *)
Ltac split_ifs :=
  repeat match goal with
         | |- context [if ?c then _ else _] => destruct c
         end.

(* ================================================================== *)
(** ** Further vocabulary *)

Module Derived.

Import Dates Events Archetypes.
Local Open Scope nat_scope.

(** The archetypes that no behaviour check names. *)
Definition withoutBehaviorCheck : list string :=
  ["The Social Butterfly"; "The Digital Nomad"; "The Cultural Enthusiast";
   "The Wellness Seeker"]%string.

(** A running score and its factors, each factor worth 15 to 25 points. *)
Definition creditsFactors (st : nat * list string) : Prop :=
  15 * List.length (snd st) <= fst st <= 25 * List.length (snd st).

(** Whether [new Date(f)] is a valid date. *)
Definition parsesb (f : dateField) : bool :=
  match newDate f with
  | InvalidDate => false
  | DateAt _ => true
  end.

(** A number between 0 and 100. *)
Definition isPercentage (x : Num.num) : Prop :=
  exists q, x = Num.Fin q /\ (0 <= q <= 100)%Q.

(** A single booking, without price and rating, and one property viewed
    on the same day. *)
Definition bookingWithView : DecisionPatterns.userChoices :=
  {| DecisionPatterns.bookings :=
       Some [ {| bookingDate := Given (DateAt (10 * msPerDay));
                 checkIn := Absent; checkOut := Absent;
                 bookingPropertyId := Given "p1"%string;
                 bookingPrice := Absent; bookingRating := Absent;
                 propertyType := Given "Treehouse"%string;
                 destination := Given "Oslo"%string |} ];
     DecisionPatterns.searches := None;
     DecisionPatterns.viewedProperties :=
       Some [ {| DecisionPatterns.viewDate := Given (DateAt (10 * msPerDay));
                 DecisionPatterns.viewPrice := Given 100%Q;
                 DecisionPatterns.viewRating := Given 4%Q |} ] |}.

(** The element type a hover is counted under, and the time hovered on an
    element type. *)
Definition hoverType (h : hover) : string :=
  match truthyString (elementType h) with
  | Some t => t
  | None => "unknown"%string
  end.

Definition hoverTimeOn (type : string) (hs : list hover) : Q :=
  Stated.Qsum (map (fun h => orZero (hoverDuration h))
                   (filter (fun h => String.eqb (hoverType h) type) hs)).



(** Three hovers: two on images and one on an element of no type. *)
Definition threeHovers : list hover :=
  [ {| hoverDuration := Given 3%Q; elementType := Given "image"%string |};
    {| hoverDuration := Given 5%Q; elementType := Absent |};
    {| hoverDuration := Given 2%Q; elementType := Given "image"%string |} ].

(** The object of the totals by element type after the hovers [done]:
    one key for each element type hovered, holding the time hovered on
    it. *)
Definition groupsHovers (o : Obj.obj Q) (done : list hover) : Prop :=
  NoDup (map fst o)
  /\ (forall t, In t (map fst o) <-> exists x, In x done /\ hoverType x = t)
  /\ (forall t, (valueOrZero (Obj.get o t) == hoverTimeOn t done)%Q).

(** The key a calendar event is grouped under, and the events of a key. *)
Definition eventKey (tz : Z) (e : Intent.calendarEvent) : string :=
  Intent.monthYear tz (newDate (Intent.eventDate e)).

Definition eventsOf (tz : Z) (key : string) (es : list Intent.calendarEvent)
  : list Intent.calendarEvent :=
  filter (fun e => String.eqb (eventKey tz e) key) es.

(** The object of the events by month after the events [done]: a key
    holds the events of its month, in their order, and exists only when
    there is one. *)
Definition groupsEvents (tz : Z) (o : Obj.obj (list Intent.calendarEvent))
  (done : list Intent.calendarEvent) : Prop :=
  NoDup (map fst o)
  /\ (forall key,
        match Obj.get o key with
        | Some group => group = eventsOf tz key done /\ group <> []
        | None => eventsOf tz key done = []
        end).

End Derived.

(* ================================================================== *)
(** * Properties *)

(* ------------------------------------------------------------------ *)
(** ** The classifier *)

Section ClassifierFacts.

Import Archetypes Stated.
Local Open Scope nat_scope.

Lemma matchTrait_score (p : personalityProfile) (st : nat * list string) (req : trait * level) :
  fst (matchTrait p st req)
  = fst st + traitPoints (personalityCategories p (fst req)) (snd req).
Proof.
  destruct st as [s f], req as [t l]; unfold matchTrait; simpl fst; simpl snd.
  destruct (personalityCategories p t), l; simpl; lia.
Qed.

Lemma fold_matchTrait_score (p : personalityProfile) (reqs : list (trait * level)) :
  forall st,
    fst (fold_left (matchTrait p) reqs st)
    = fst st + list_sum (map (fun req => traitPoints (personalityCategories p (fst req)) (snd req)) reqs).
Proof.
  induction reqs as [|r reqs IH]; intros st; simpl.
  - lia.
  - rewrite IH, matchTrait_score. lia.
Qed.

Lemma bonusIf_score (c : bool) (f : string) (st : nat * list string) :
  fst (bonusIf c f st) = fst st + (if c then 20 else 0).
Proof. unfold bonusIf; destruct c; simpl; lia. Qed.

Lemma matchBehavior_score (name : string) (b : option behaviorData) (st : nat * list string) :
  fst (matchBehavior name b st) = fst st + behaviorBonus name b.
Proof.
  unfold behaviorBonus, matchBehavior. destruct b as [bd|]; [|simpl; lia].
  rewrite !bonusIf_score. simpl. lia.
Qed.

Lemma scoredScore_scoreArchetype p b a :
  scoredScore (scoreArchetype p b a) = traitScore p a + behaviorBonus (archetypeName a) b.
Proof.
  unfold scoreArchetype.
  pose proof (matchBehavior_score (archetypeName a) b
                (fold_left (matchTrait p) (requirements a) (0, []))) as H.
  destruct (matchBehavior _ _ _) as [s f]; simpl in *.
  rewrite H, fold_matchTrait_score. reflexivity.
Qed.

Lemma scoredArchetype_scoreArchetype p b a :
  scoredArchetype (scoreArchetype p b a) = archetypeName a.
Proof.
  unfold scoreArchetype. destruct (matchBehavior _ _ _); reflexivity.
Qed.

(** C1 (amended).  For every profile, behaviour data and archetype of the
    catalog, the score is the sum over the declared traits of 25 points for
    an equal level and 15 points when one of the computed and required
    levels is moderate and the other high, plus the behaviour bonus; a
    moderate level against a low one (either way) and low against high
    earn nothing. *)
Theorem trait_points_awarded (p : personalityProfile) (b : option behaviorData) :
  Forall2 (fun a e =>
             scoredArchetype e = archetypeName a /\
             scoredScore e = traitScore p a + behaviorBonus (archetypeName a) b)
          archetypes (archetypeScores p b)
  /\ (forall computed required,
        (traitPoints computed required = 25 <-> computed = required)
        /\ (traitPoints computed required = 15
            <-> (computed = moderate /\ required = high)
                \/ (computed = high /\ required = moderate))
        /\ (traitPoints computed required = 0
            <-> (computed = moderate /\ required = low)
                \/ (computed = low /\ required = moderate)
                \/ (computed = low /\ required = high)
                \/ (computed = high /\ required = low))).
Proof.
  split.
  - unfold archetypeScores, archetypeScoresOf.
    induction archetypes as [|a l IH]; simpl; constructor; auto.
    split; [apply scoredArchetype_scoreArchetype | apply scoredScore_scoreArchetype].
  - intros [] []; simpl; repeat split; intros H;
      try discriminate; try reflexivity; try tauto;
      repeat match goal with
             | H : _ \/ _ |- _ => destruct H
             | H : _ /\ _ |- _ => destruct H
             end; discriminate.
Qed.

Lemma insertByScore_perm e l : Permutation (insertByScore e l) (e :: l).
Proof.
  induction l as [|x l IH]; simpl; [reflexivity|].
  destruct (Nat.ltb_spec (scoredScore e) (scoredScore x)); [|reflexivity].
  rewrite IH. apply perm_swap.
Qed.

Lemma sortByScore_perm l : Permutation (sortByScore l) l.
Proof.
  induction l as [|e l IH]; simpl; [reflexivity|].
  rewrite insertByScore_perm. now constructor.
Qed.

Lemma ranksBefore_trans x y z : ranksBefore x y -> ranksBefore y z -> ranksBefore x z.
Proof. unfold ranksBefore; lia. Qed.

Lemma insertByScore_sorted e l :
  Forall (declaredBefore e) l ->
  StronglySorted ranksBefore l ->
  StronglySorted ranksBefore (insertByScore e l).
Proof.
  intros Hdecl Hs. induction Hs as [|x l Hs IH Hx]; simpl.
  - repeat constructor.
  - inversion Hdecl as [|? ? Hex Hel]; subst.
    destruct (Nat.ltb_spec (scoredScore e) (scoredScore x)) as [Hlt|Hge].
    + constructor; [now apply IH|].
      eapply Permutation_Forall; [symmetry; apply insertByScore_perm|].
      constructor; [left; exact Hlt | exact Hx].
    + assert (Hr : ranksBefore e x) by (unfold ranksBefore, declaredBefore in *; lia).
      constructor; [constructor; assumption|].
      constructor; [exact Hr|].
      eapply Forall_impl; [|exact Hx]. intros z Hz. eapply ranksBefore_trans; eauto.
Qed.

Lemma sortByScore_sorted l :
  StronglySorted declaredBefore l -> StronglySorted ranksBefore (sortByScore l).
Proof.
  induction 1 as [|e l Hs IH He]; simpl; [constructor|].
  apply insertByScore_sorted; [|exact IH].
  eapply Permutation_Forall; [symmetry; apply sortByScore_perm | exact He].
Qed.

Lemma archetypeScores_declared p b :
  map (fun e => declarationIndex (scoredArchetype e)) (archetypeScores p b)
  = seq 0 8.
Proof.
  unfold archetypeScores, archetypeScoresOf. rewrite map_map.
  erewrite map_ext; [|intros a; rewrite scoredArchetype_scoreArchetype; reflexivity].
  reflexivity.
Qed.

Lemma sorted_by_index {A} (f : A -> nat) (l : list A) :
  StronglySorted lt (map f l) -> StronglySorted (fun x y => f x < f y) l.
Proof.
  induction l as [|x l IH]; simpl; intros H; [constructor|].
  inversion H as [|? ? Hs Hx]; subst. constructor; [auto|].
  rewrite Forall_map in Hx. exact Hx.
Qed.

Lemma archetypeScores_in_order p b :
  StronglySorted declaredBefore (archetypeScores p b).
Proof.
  apply (sorted_by_index (fun e => declarationIndex (scoredArchetype e))).
  rewrite archetypeScores_declared.
  repeat (constructor; [|repeat (constructor; try lia)]). constructor.
Qed.

(** The [reduce] keeps the first entry of greatest score, once a positive
    score occurs. *)
Lemma bestMatch_from (l : list scored) :
  forall n s,
    let r := fold_left (fun best e => if Nat.ltb (snd best) (scoredScore e)
                                      then (scoredArchetype e, scoredScore e) else best)
                       l (n, s) in
    (r = (n, s) /\ Forall (fun x => scoredScore x <= s) l)
    \/ (exists before e after,
          l = before ++ e :: after
          /\ r = (scoredArchetype e, scoredScore e)
          /\ s < scoredScore e
          /\ Forall (fun x => scoredScore x < scoredScore e) before
          /\ Forall (fun x => scoredScore x <= scoredScore e) after).
Proof.
  induction l as [|x l IH]; intros n s; simpl.
  - left. split; [reflexivity | constructor].
  - destruct (Nat.ltb_spec s (scoredScore x)) as [Hlt|Hge].
    + destruct (IH (scoredArchetype x) (scoredScore x)) as [[Hr Hall]|(bf & e & af & Hl & Hr & Hs & Hb & Ha)].
      * right. exists [], x, l. simpl. repeat split; auto.
      * right. exists (x :: bf), e, af. subst l. simpl.
        repeat split; auto; try lia.
    + destruct (IH n s) as [[Hr Hall]|(bf & e & af & Hl & Hr & Hs & Hb & Ha)].
      * left. split; auto.
      * right. exists (x :: bf), e, af. subst l. simpl.
        repeat split; auto. constructor; auto. lia.
Qed.

(** Whatever the profile, the level of neuroticism is declared by some
    archetype: the table of scores never is all zero. *)
Lemma some_archetype_matches p b :
  Exists (fun e => 25 <= scoredScore e) (archetypeScores p b).
Proof.
  unfold archetypeScores, archetypeScoresOf. rewrite Exists_map.
  destruct (personalityCategories p neuroticism) eqn:Hn.
  - apply Exists_cons_hd.
    rewrite scoredScore_scoreArchetype. unfold traitScore; simpl. rewrite Hn. simpl. lia.
  - do 7 apply Exists_cons_tl. apply Exists_cons_hd.
    rewrite scoredScore_scoreArchetype. unfold traitScore; simpl. rewrite Hn. simpl. lia.
  - apply Exists_cons_tl, Exists_cons_hd.
    rewrite scoredScore_scoreArchetype. unfold traitScore; simpl. rewrite Hn. simpl. lia.
Qed.

Lemma topArchetypes_unfold p b :
  topArchetypes (classifyTravelArchetype p b)
  = firstn 3 (sortByScore (archetypeScores p b)).
Proof. reflexivity. Qed.

Lemma primary_unfold p b :
  (primaryArchetype (classifyTravelArchetype p b),
   matchScore (classifyTravelArchetype p b))
  = bestMatch (archetypeScores p b).
Proof.
  unfold classifyTravelArchetype, classifyWith; simpl.
  destruct (bestMatch _); reflexivity.
Qed.

(** C3.  The three top archetypes are the head of the ranking of all the
    scored entries: sorted by descending score, entries of equal score in
    the order of the catalog; and the primary archetype is the first entry
    of the catalog that reaches the greatest score. *)
Theorem top_archetypes_ranked (p : personalityProfile) (b : option behaviorData) :
  let r := classifyTravelArchetype p b in
  List.length (topArchetypes r) = 3
  /\ (exists rest,
        StronglySorted ranksBefore (topArchetypes r ++ rest)
        /\ Permutation (topArchetypes r ++ rest) (archetypeScores p b))
  /\ (exists before e after,
        archetypeScores p b = before ++ e :: after
        /\ primaryArchetype r = scoredArchetype e
        /\ matchScore r = scoredScore e
        /\ Forall (fun x => scoredScore x < scoredScore e) before
        /\ Forall (fun x => scoredScore x <= scoredScore e) after).
Proof.
  intros r; subst r. split; [|split].
  - rewrite topArchetypes_unfold, length_firstn.
    rewrite (Permutation_length (sortByScore_perm _)). reflexivity.
  - exists (skipn 3 (sortByScore (archetypeScores p b))).
    rewrite topArchetypes_unfold, firstn_skipn. split.
    + apply sortByScore_sorted, archetypeScores_in_order.
    + apply sortByScore_perm.
  - pose proof (primary_unfold p b) as Hp. unfold bestMatch in Hp.
    destruct (bestMatch_from (archetypeScores p b) "" 0)
      as [[_ Hall]|(bf & e & af & Hl & Hr & _ & Hb & Ha)].
    + exfalso. pose proof (some_archetype_matches p b) as Hex.
      rewrite Exists_exists in Hex. destruct Hex as (e & Hin & He).
      rewrite Forall_forall in Hall. specialize (Hall e Hin). lia.
    + exists bf, e, af. rewrite Hr in Hp.
      pose proof (f_equal fst Hp) as Hname. pose proof (f_equal snd Hp) as Hscore.
      cbn [fst snd] in Hname, Hscore. repeat split; assumption.
Qed.

(** C1 (counterexample).  With openness low and conscientiousness high, the
    Luxury Traveler (conscientiousness high, openness moderate) scores 25:
    the low openness earns nothing, where the stated rule gives 15 more;
    likewise for the Explorer and the Cultural Enthusiast. *)
Lemma low_against_moderate_earns_nothing :
  personalityCategories conscientiousProfile openness = low
  /\ map (fun e => (scoredArchetype e, scoredScore e, factors e))
         (topArchetypes (classifyTravelArchetype conscientiousProfile None))
     = [("The Wellness Seeker", 50,
         ["conscientiousness (high)"; "neuroticism (moderate)"]);
        ("The Comfort Seeker", 40,
         ["neuroticism (partial match)"; "conscientiousness (high)"]);
        ("The Luxury Traveler", 25, ["conscientiousness (high)"])]%string
  /\ map (fun e => (scoredArchetype e, scoredScore e))
         (archetypeScores conscientiousProfile None)
     = [("The Explorer", 0); ("The Comfort Seeker", 40);
        ("The Social Butterfly", 0); ("The Digital Nomad", 15);
        ("The Luxury Traveler", 25); ("The Budget Backpacker", 0);
        ("The Cultural Enthusiast", 0); ("The Wellness Seeker", 50)]%string
  /\ map (fun a => (archetypeName a, statedTraitScore conscientiousProfile a))
         archetypes
     = [("The Explorer", 15); ("The Comfort Seeker", 40);
        ("The Social Butterfly", 0); ("The Digital Nomad", 15);
        ("The Luxury Traveler", 40); ("The Budget Backpacker", 0);
        ("The Cultural Enthusiast", 15); ("The Wellness Seeker", 50)]%string.
Proof. repeat split. Qed.

(** The search for the best match keeps its seed, the empty name, on a
    table without positive score. *)
Lemma bestMatch_without_positive_score (l : list scored) :
  Forall (fun e => scoredScore e = 0) l -> bestMatch l = (""%string, 0).
Proof.
  unfold bestMatch. induction 1 as [|e l He _ IH]; simpl; [reflexivity|].
  rewrite He. exact IH.
Qed.

End ClassifierFacts.

(* ------------------------------------------------------------------ *)
(** ** Numbers and rounding *)

Section NumFacts.

Import Stated.
Local Open Scope Q_scope.

Lemma Qltb_true x y : Num.Qltb x y = true <-> x < y.
Proof.
  unfold Num.Qltb. rewrite negb_true_iff, <- not_true_iff_false, Qle_bool_iff.
  split; [apply Qnot_le_lt | apply Qlt_not_le].
Qed.

Lemma Qltb_false x y : Num.Qltb x y = false <-> y <= x.
Proof.
  unfold Num.Qltb. rewrite negb_false_iff, Qle_bool_iff. tauto.
Qed.






Lemma ofNat_nonzero (n : nat) :
  (0 < n)%nat -> Qeq_bool (inject_Z (Z.of_nat n)) 0 = false.
Proof.
  intros Hn. apply not_true_iff_false. intros H. apply Qeq_bool_iff in H.
  unfold Qeq in H; simpl in H. lia.
Qed.







End NumFacts.

(* ------------------------------------------------------------------ *)
(** ** Counting loops of the time-pattern extractor *)

Section CountingFacts.

Import Dates Events TimePatterns Stated.
Local Open Scope nat_scope.

Lemma incrAt_length (i : nat) (l : list nat) :
  List.length (incrAt i l) = List.length l.
Proof.
  revert i; induction l as [|c l IH]; intros [|i]; simpl; auto.
Qed.

Lemma incrAt_sum (i : nat) (l : list nat) :
  i < List.length l -> list_sum (incrAt i l) = S (list_sum l).
Proof.
  revert i; induction l as [|c l IH]; intros [|i] Hi; simpl in *; try lia.
  rewrite IH; lia.
Qed.

Lemma map_snd_combine {A B : Type} (l1 : list A) (l2 : list B) :
  List.length l1 = List.length l2 -> map snd (combine l1 l2) = l2.
Proof.
  revert l2; induction l1 as [|a l1 IH]; intros [|b l2] H; simpl in *;
    try discriminate; auto.
  f_equal. apply IH. lia.
Qed.

Variable tz : Z.

Lemma getDay_lt (d : jsdate) (i : nat) : getDay tz d = Some i -> i < 7.
Proof.
  destruct d as [|t]; simpl; [discriminate|]. intros H; injection H as <-.
  pose proof (Z.mod_pos_bound ((t + tz) / msPerDay + 4) 7 ltac:(lia)). lia.
Qed.

Lemma getHours_lt (d : jsdate) (h : nat) : getHours tz d = Some h -> h < 24.
Proof.
  destruct d as [|t]; simpl; [discriminate|]. intros H; injection H as <-.
  pose proof (Z.mod_pos_bound (t + tz) msPerDay ltac:(reflexivity)) as Hm.
  assert (((t + tz) mod msPerDay) / msPerHour < 24)%Z.
  { apply Z.div_lt_upper_bound; [reflexivity|]. exact (proj2 Hm). }
  assert (0 <= ((t + tz) mod msPerDay) / msPerHour)%Z.
  { apply Z.div_pos; [exact (proj1 Hm) | reflexivity]. }
  lia.
Qed.

Lemma getDay_parses (f : dateField) :
  parses f -> exists i, getDay tz (newDate f) = Some i.
Proof.
  unfold parses. destruct (newDate f); [congruence|]. eexists; reflexivity.
Qed.

Lemma getHours_parses (f : dateField) :
  parses f -> exists h, getHours tz (newDate f) = Some h.
Proof.
  unfold parses. destruct (newDate f); [congruence|]. eexists; reflexivity.
Qed.

(** *** Bookings *)

Lemma countBooking_length (st : list nat * timeOfDayCounts) (b : booking) :
  List.length (fst (countBooking tz st b)) = List.length (fst st).
Proof.
  destruct st as [d t]; unfold countBooking; simpl.
  destruct (getDay tz _); [apply incrAt_length | reflexivity].
Qed.

Lemma countBooking_time (st : list nat * timeOfDayCounts) (b : booking) :
  timeTotal (snd (countBooking tz st b)) = S (timeTotal (snd st)).
Proof.
  destruct st as [d t]; unfold countBooking; cbn [snd].
  split_ifs; unfold timeTotal; simpl; lia.
Qed.

Lemma countBooking_days (st : list nat * timeOfDayCounts) (b : booking) :
  List.length (fst st) = 7 ->
  parses (bookingDate b) ->
  list_sum (fst (countBooking tz st b)) = S (list_sum (fst st)).
Proof.
  intros Hlen Hp. destruct st as [d t]; unfold countBooking; cbn [fst] in *.
  destruct (getDay_parses _ Hp) as [i Hi]. rewrite Hi.
  apply incrAt_sum. rewrite Hlen. exact (getDay_lt _ _ Hi).
Qed.

Lemma fold_countBooking (bs : list booking) :
  forall st,
    let r := fold_left (countBooking tz) bs st in
    List.length (fst r) = List.length (fst st)
    /\ timeTotal (snd r) = timeTotal (snd st) + List.length bs
    /\ (List.length (fst st) = 7 ->
        Forall (fun b => parses (bookingDate b)) bs ->
        list_sum (fst r) = list_sum (fst st) + List.length bs).
Proof.
  induction bs as [|b bs IH]; intros st; cbn [fold_left List.length].
  - repeat split; intros; lia.
  - destruct (IH (countBooking tz st b)) as (Hl & Ht & Hd).
    rewrite countBooking_length in Hl, Hd. rewrite countBooking_time in Ht.
    repeat split; try lia.
    intros H7 Hall. inversion Hall as [|? ? Hb Hbs]; subst.
    rewrite (Hd H7 Hbs), (countBooking_days st b H7 Hb). lia.
Qed.

Lemma bookingCounts_facts (bs : list booking) :
  List.length (fst (bookingCounts tz bs)) = 7
  /\ timeTotal (snd (bookingCounts tz bs)) = List.length bs
  /\ (Forall (fun b => parses (bookingDate b)) bs ->
      list_sum (fst (bookingCounts tz bs)) = List.length bs).
Proof.
  unfold bookingCounts.
  destruct (fold_countBooking bs
              ([0; 0; 0; 0; 0; 0; 0],
               {| morning := 0; afternoon := 0; evening := 0; night := 0 |}))
    as (Hl & Ht & Hd).
  split; [exact Hl|]. split; [exact Ht|].
  intros Hall. rewrite (Hd eq_refl Hall). reflexivity.
Qed.



(** *** Sessions *)

Lemma countSession_length (st : list nat * Num.num) (s : session) :
  List.length (fst (countSession tz st s)) = List.length (fst st).
Proof.
  destruct st as [h d]; unfold countSession; simpl.
  destruct (getHours tz _); [apply incrAt_length | reflexivity].
Qed.

Lemma countSession_hours (st : list nat * Num.num) (s : session) :
  List.length (fst st) = 24 ->
  parses (startTime s) ->
  list_sum (fst (countSession tz st s)) = S (list_sum (fst st)).
Proof.
  intros Hlen Hp. destruct st as [h d]; unfold countSession; cbn [fst] in *.
  destruct (getHours_parses _ Hp) as [i Hi]. rewrite Hi.
  apply incrAt_sum. rewrite Hlen. exact (getHours_lt _ _ Hi).
Qed.

Lemma fold_countSession (ss : list session) :
  forall st,
    let r := fold_left (countSession tz) ss st in
    List.length (fst r) = List.length (fst st)
    /\ (List.length (fst st) = 24 ->
        Forall (fun s => parses (startTime s)) ss ->
        list_sum (fst r) = list_sum (fst st) + List.length ss).
Proof.
  induction ss as [|s ss IH]; intros st; cbn [fold_left List.length].
  - split; intros; lia.
  - destruct (IH (countSession tz st s)) as (Hl & Hd).
    rewrite countSession_length in Hl, Hd.
    split; [exact Hl|].
    intros H24 Hall. inversion Hall as [|? ? Hs Hss]; subst.
    rewrite (Hd H24 Hss), (countSession_hours st s H24 Hs). lia.
Qed.

Lemma sessionCounts_facts (ss : list session) :
  List.length (fst (sessionCounts tz ss)) = 24
  /\ (Forall (fun s => parses (startTime s)) ss ->
      list_sum (fst (sessionCounts tz ss)) = List.length ss).
Proof.
  unfold sessionCounts.
  destruct (fold_countSession ss (repeat 0 24, Num.Fin 0)) as (Hl & Hd).
  split; [exact Hl|].
  intros Hall. rewrite (Hd eq_refl Hall). reflexivity.
Qed.


(** *** Searches *)

Lemma countSearch_total (c : seasonCounts) (s : search) :
  seasonTotal (countSearch tz c s) = S (seasonTotal c).
Proof.
  unfold countSearch.
  split_ifs; unfold seasonTotal; simpl; lia.
Qed.

Lemma fold_countSearch (ss : list search) :
  forall c,
    seasonTotal (fold_left (countSearch tz) ss c)
    = seasonTotal c + List.length ss.
Proof.
  induction ss as [|s ss IH]; intros c; cbn [fold_left List.length].
  - lia.
  - rewrite IH, countSearch_total. lia.
Qed.


(** *** The distributions of the time-pattern extractor *)





(** *** A booking whose date does not parse *)

Lemma countBooking_unparseable (d : list nat) (t : timeOfDayCounts) (b : booking) :
  newDate (bookingDate b) = InvalidDate ->
  countBooking tz (d, t) b = (d, oneMoreAtNight t).
Proof. intros H. unfold countBooking. rewrite H. reflexivity. Qed.




Lemma detect_distributions (b : booking) (bs : list booking) :
  let r := detectBookingPatterns tz (Some (b :: bs)) in
  dayDistribution r
  = Some (dayEntriesFor (fst (bookingCounts tz (b :: bs))) (List.length (b :: bs)))
  /\ timeDistribution r
     = Some (timeEntriesFor (snd (bookingCounts tz (b :: bs))) (List.length (b :: bs))).
Proof.
  unfold detectBookingPatterns. cbn [missingOrEmpty orEmpty].
  destruct (bookingCounts tz (b :: bs)) as [d t]. cbn [fst snd].
  split; cbn; f_equal; apply map_ext; intros [name count]; reflexivity.
Qed.

(** *** A session or a search whose date does not parse *)



Lemma analyze_distribution (s : session) (ss : list session) :
  hourlyDistribution (analyzeBrowsingHours tz (Some (s :: ss)))
  = Some (hourEntriesFor (fst (sessionCounts tz (s :: ss)))
                         (List.length (s :: ss))).
Proof.
  unfold analyzeBrowsingHours. cbn [missingOrEmpty orEmpty].
  destruct (sessionCounts tz (s :: ss)) as [h d]. cbn.
  f_equal. apply map_ext. intros [i count]. reflexivity.
Qed.





Lemma detect_seasonalDistribution (s : search) (ss : list search) :
  seasonalDistribution (detectSeasonalTrends tz (Some (s :: ss)))
  = seasonEntriesFor (searchCounts tz (s :: ss)) (List.length (s :: ss)).
Proof.
  unfold detectSeasonalTrends, seasonEntriesFor. cbn [missingOrEmpty orEmpty].
  cbn [seasonalDistribution]. apply map_ext. intros [season count]. reflexivity.
Qed.


End CountingFacts.

Section SkippedFacts.

Import Dates Events DecisionPatterns.







End SkippedFacts.




(* ------------------------------------------------------------------ *)
(** ** Objects and the hover breakdown *)

Section HoverFacts.

Import Events MicroInteractions Stated.

Lemma insertIndexed_perm {V : Type} (e : N * (string * V)) l :
  Permutation (Obj.insertIndexed e l) (e :: l).
Proof.
  induction l as [|x l IH]; simpl; [reflexivity|].
  destruct (N.ltb (fst e) (fst x)); [reflexivity|].
  rewrite IH. apply perm_swap.
Qed.

(** [Object.entries] lists every entry once. *)
Lemma entries_perm {V : Type} (o : Obj.obj V) : Permutation (Obj.entries o) o.
Proof.
  unfold Obj.entries. induction o as [|e o IH]; simpl; [reflexivity|].
  destruct (Obj.arrayIndex (fst e)) as [n|]; simpl.
  - rewrite insertIndexed_perm. simpl. now constructor.
  - rewrite <- Permutation_middle. now constructor.
Qed.







End HoverFacts.

(* ------------------------------------------------------------------ *)
(** ** Sums of percentages *)



(* ------------------------------------------------------------------ *)
(** ** Price sensitivity *)

Section PriceFacts.
Import Events MicroInteractions Stated.

Lemma toFixed_Qeq (d : nat) (x y : Q) :
  (x == y)%Q -> Num.toFixed d (Num.Fin x) = Num.toFixed d (Num.Fin y).
Proof.
  intros H. unfold Num.toFixed, Num.Qltb. rewrite H. reflexivity.
Qed.

End PriceFacts.

(** C10.  For a single price filter the elasticity divides zero changes by
    zero: it is reported as "NaN%" and the sensitivity is "Low".  The
    average price range is still reported, from that filter: each bound is
    the price given, or 0 when the price is absent or null, and it is
    printed without decimals when its magnitude is below 10^21. *)
Theorem single_price_filter_gives_NaN (f : Events.priceFilter) :
  let lowest :=
    match Events.minPrice f with
    | Events.Given q => q
    | Events.Absent | Events.Null => 0%Q
    end in
  let highest :=
    match Events.maxPrice f with
    | Events.Given q => q
    | Events.Absent | Events.Null => 0%Q
    end in
  let r := MicroInteractions.analyzePriceSensitivity (Some [f]) in
  MicroInteractions.priceElasticity r = Some "NaN%"%string
  /\ MicroInteractions.priceSensitivity r = Some "Low"%string
  /\ (Stated.plainDigits lowest ->
      Stated.plainDigits highest ->
      MicroInteractions.averagePriceRange r
      = Some ("$" ++ Num.showNumstr (Num.toFixed 0 (Num.Fin lowest))
                  ++ " - $"
                  ++ Num.showNumstr (Num.toFixed 0 (Num.Fin highest)))%string).
Proof.
  intros lowest highest r.
  assert (Hr : r = {| MicroInteractions.priceElasticity := Some "NaN%"%string;
                      MicroInteractions.priceSensitivity := Some "Low"%string;
                      MicroInteractions.averagePriceRange :=
                        Some ("$" ++ Num.showNumstr (Num.toFixed 0 (Num.Fin lowest))
                                  ++ " - $"
                                  ++ Num.showNumstr
                                       (Num.toFixed 0 (Num.Fin highest)))%string |}).
  { subst r.
    unfold MicroInteractions.analyzePriceSensitivity, MicroInteractions.filterTotals.
    cbn [Events.missingOrEmpty Events.orEmpty fold_left
         MicroInteractions.countFilter List.length].
    change (Num.ofNat 1) with (Num.Fin 1).
    change (Num.div (Num.ofNat 0) (Num.sub (Num.Fin 1) (Num.Fin 1))) with Num.NaN.
    cbn [Num.mul Num.toFixed Num.Number Num.gt Num.lt Num.showNumstr].
    assert (Hlo : Events.orZero (Events.minPrice f) = lowest)
      by (subst lowest; destruct (Events.minPrice f); reflexivity).
    assert (Hhi : Events.orZero (Events.maxPrice f) = highest)
      by (subst highest; destruct (Events.maxPrice f); reflexivity).
    rewrite Hlo, Hhi.
    change (Num.div (Num.Fin (0 + lowest)) (Num.Fin 1))
      with (Num.Fin ((0 + lowest) / 1)).
    change (Num.div (Num.Fin (0 + highest)) (Num.Fin 1))
      with (Num.Fin ((0 + highest) / 1)).
    rewrite (toFixed_Qeq 0 ((0 + lowest) / 1) lowest) by field.
    rewrite (toFixed_Qeq 0 ((0 + highest) / 1) highest) by field.
    reflexivity. }
  rewrite Hr. cbn [MicroInteractions.priceElasticity
                   MicroInteractions.priceSensitivity
                   MicroInteractions.averagePriceRange].
  split; [reflexivity|]. split; [reflexivity|]. intros _ _. reflexivity.
Qed.

(** C10 (witness): a single filter from 100 to 200, and one whose upper
    bound is null. *)
Lemma single_price_filter_gives_NaN_witness :
  MicroInteractions.averagePriceRange
    (MicroInteractions.analyzePriceSensitivity
       (Some [ {| Events.minPrice := Events.Given 100%Q;
                  Events.maxPrice := Events.Given 200%Q |} ]))
  = Some "$100 - $200"%string
  /\ MicroInteractions.averagePriceRange
       (MicroInteractions.analyzePriceSensitivity
          (Some [ {| Events.minPrice := Events.Given 100%Q;
                     Events.maxPrice := Events.Null |} ]))
     = Some "$100 - $0"%string.
Proof.
  split.
  - rewrite (proj2 (proj2 (single_price_filter_gives_NaN
                             {| Events.minPrice := Events.Given 100%Q;
                                Events.maxPrice := Events.Given 200%Q |})));
      [reflexivity | vm_compute; reflexivity ..].
  - rewrite (proj2 (proj2 (single_price_filter_gives_NaN
                             {| Events.minPrice := Events.Given 100%Q;
                                Events.maxPrice := Events.Null |})));
      [reflexivity | vm_compute; reflexivity ..].
Defined.
(* ------------------------------------------------------------------ *)
(** ** Scroll patterns *)

Section ScrollFacts.

Import Events MicroInteractions Stated.
Local Open Scope nat_scope.






End ScrollFacts.




(* ------------------------------------------------------------------ *)
(** ** Empty and missing inputs *)

(** C5.  On a missing or empty sequence every extractor returns its empty
    report, and on a missing bundle each of the three analyses returns its
    four sub-reports as null; no case of the embedding stands for an
    exception here. *)
Theorem empty_inputs_give_empty_reports (tz : Z) :
  (MicroInteractions.calculateAverageHoverTime (Some [])
   = {| MicroInteractions.averageTime := None;
        MicroInteractions.mostViewedElementType := None;
        MicroInteractions.elementBreakdown := None |}
   /\ MicroInteractions.calculateAverageHoverTime None
      = MicroInteractions.calculateAverageHoverTime (Some []))
  /\ (TimePatterns.analyzeTimePatterns tz None
      = {| TimePatterns.bookingTime := None;
           TimePatterns.browsingTime := None;
           TimePatterns.seasonalPreference := None;
           TimePatterns.planningHorizon := None |})
  /\ (TimePatterns.detectBookingPatterns tz (Some [])
      = {| TimePatterns.preferredDayOfWeek := None;
           TimePatterns.preferredTimeOfDay := None;
           TimePatterns.dayDistribution := None;
           TimePatterns.timeDistribution := None |}
      /\ TimePatterns.detectBookingPatterns tz None
         = TimePatterns.detectBookingPatterns tz (Some []))
  /\ (TimePatterns.analyzeBrowsingHours tz (Some [])
      = {| TimePatterns.preferredBrowsingTime := None;
           TimePatterns.averageSessionDuration := None;
           TimePatterns.hourlyDistribution := None |}
      /\ TimePatterns.analyzeBrowsingHours tz None
         = TimePatterns.analyzeBrowsingHours tz (Some []))
  /\ (TimePatterns.detectSeasonalTrends tz (Some [])
      = {| TimePatterns.preferredSeason := None;
           TimePatterns.seasonalDistribution := [] |}
      /\ TimePatterns.detectSeasonalTrends tz None
         = TimePatterns.detectSeasonalTrends tz (Some []))
  /\ (TimePatterns.calculatePlanningWindow (Some [])
      = {| TimePatterns.averagePlanningDays := None;
           TimePatterns.planningStyle := None;
           TimePatterns.shortestPlanningDays := None;
           TimePatterns.longestPlanningDays := None |}
      /\ TimePatterns.calculatePlanningWindow None
         = TimePatterns.calculatePlanningWindow (Some []))
  /\ (TimePatterns.analyzeTimePatterns tz
        (Some {| TimePatterns.bookings := None;
                 TimePatterns.sessions := None;
                 TimePatterns.searches := None |})
      = {| TimePatterns.bookingTime :=
             Some (TimePatterns.detectBookingPatterns tz (Some []));
           TimePatterns.browsingTime :=
             Some (TimePatterns.analyzeBrowsingHours tz (Some []));
           TimePatterns.seasonalPreference :=
             Some (TimePatterns.detectSeasonalTrends tz (Some []));
           TimePatterns.planningHorizon :=
             Some (TimePatterns.calculatePlanningWindow (Some [])) |})
  /\ (MicroInteractions.analyzeScrollPatterns (Some [])
      = {| MicroInteractions.scrollDepth := None;
           MicroInteractions.scrollSpeed := None;
           MicroInteractions.scrollBehaviorLabel := None |}
      /\ MicroInteractions.analyzeScrollPatterns None
         = MicroInteractions.analyzeScrollPatterns (Some []))
  /\ (MicroInteractions.calculateImageViewTime (Some [])
      = {| MicroInteractions.averageViewTime := None;
           MicroInteractions.totalImagesViewed := 0;
           MicroInteractions.visualEngagementLevel := None |}
      /\ MicroInteractions.calculateImageViewTime None
         = MicroInteractions.calculateImageViewTime (Some []))
  /\ (MicroInteractions.analyzePriceSensitivity (Some [])
      = {| MicroInteractions.priceElasticity := None;
           MicroInteractions.priceSensitivity := None;
           MicroInteractions.averagePriceRange := None |}
      /\ MicroInteractions.analyzePriceSensitivity None
         = MicroInteractions.analyzePriceSensitivity (Some []))
  /\ (MicroInteractions.analyzeMicroInteractions None
      = {| MicroInteractions.hoverTimeReport := None;
           MicroInteractions.scrollBehavior := None;
           MicroInteractions.imageEngagementReport := None;
           MicroInteractions.priceElasticityReport := None |}
      /\ MicroInteractions.analyzeMicroInteractions
           (Some {| MicroInteractions.hovers := None;
                    MicroInteractions.scrolls := None;
                    MicroInteractions.imageViews := None;
                    MicroInteractions.priceFilters := None |})
         = {| MicroInteractions.hoverTimeReport :=
                Some (MicroInteractions.calculateAverageHoverTime (Some []));
              MicroInteractions.scrollBehavior :=
                Some (MicroInteractions.analyzeScrollPatterns (Some []));
              MicroInteractions.imageEngagementReport :=
                Some (MicroInteractions.calculateImageViewTime (Some []));
              MicroInteractions.priceElasticityReport :=
                Some (MicroInteractions.analyzePriceSensitivity (Some [])) |})
  /\ (DecisionPatterns.analyzeDecisionPatterns None
      = {| DecisionPatterns.impulsiveVsPlanned := None;
           DecisionPatterns.priceVsQuality := None;
           DecisionPatterns.uniquenessPreference := None;
           DecisionPatterns.riskToleranceReport := None |})
  /\ (forall bookings searches views,
        Events.orEmpty bookings = [] ->
        let uc := {| DecisionPatterns.bookings := bookings;
                     DecisionPatterns.searches := searches;
                     DecisionPatterns.viewedProperties := views |} in
        DecisionPatterns.calculateImpulsivityScore uc
        = {| DecisionPatterns.score := None;
             DecisionPatterns.category := None;
             DecisionPatterns.averageDecisionTimeHours := None;
             DecisionPatterns.quickDecisionPercentage := None |}
        /\ DecisionPatterns.analyzePriceQualityTradeoff uc
           = {| DecisionPatterns.preference := None;
                DecisionPatterns.pqScore := None;
                DecisionPatterns.qualityChoices := None;
                DecisionPatterns.priceChoices := None |}
        /\ DecisionPatterns.calculateUniquenessSeeking uc
           = {| DecisionPatterns.uniquenessScore := None;
                DecisionPatterns.uniquenessCategory := None;
                DecisionPatterns.unusualPropertyPercentage := None;
                DecisionPatterns.propertyTypeDiversity := None |}
        /\ DecisionPatterns.assessRiskTolerance uc
           = {| DecisionPatterns.riskScore := None;
                DecisionPatterns.riskCategory := None;
                DecisionPatterns.newDestinationPercentage := None;
                DecisionPatterns.lowRatingBookingPercentage := None;
                DecisionPatterns.lastMinuteBookingPercentage := None |}).
Proof.
  repeat (split; [first [reflexivity | split; reflexivity]|]).
  intros bookings searches views Hb uc; subst uc.
  unfold DecisionPatterns.calculateImpulsivityScore,
    DecisionPatterns.analyzePriceQualityTradeoff,
    DecisionPatterns.calculateUniquenessSeeking,
    DecisionPatterns.assessRiskTolerance.
  cbn [DecisionPatterns.bookings]. rewrite Hb. repeat split.
Qed.

(** C5 (witness): a bundle of choices without bookings. *)
Lemma empty_inputs_give_empty_reports_witness :
  DecisionPatterns.calculateImpulsivityScore
    {| DecisionPatterns.bookings := None;
       DecisionPatterns.searches := Some [];
       DecisionPatterns.viewedProperties := None |}
  = {| DecisionPatterns.score := None;
       DecisionPatterns.category := None;
       DecisionPatterns.averageDecisionTimeHours := None;
       DecisionPatterns.quickDecisionPercentage := None |}.
Proof.
  pose proof (empty_inputs_give_empty_reports 0) as H.
  do 12 apply proj2 in H.
  exact (proj1 (H None (Some []) None eq_refl)).
Defined.

(* ------------------------------------------------------------------ *)
(** ** Planning window *)

Section PlanningFacts.

Import Dates Events TimePatterns Stated.

Lemma Qltb_inject_Z (a b : Z) :
  Num.Qltb (inject_Z a) (inject_Z b) = (a <? b)%Z.
Proof.
  unfold Num.Qltb, Qle_bool. cbn [Qnum Qden inject_Z].
  rewrite !Z.mul_1_r, Z.leb_antisym, negb_involutive. reflexivity.
Qed.

Lemma Qfloor_roundDiv (q : Q) (a b : Z) :
  (0 < b)%Z ->
  (q == inject_Z a)%Q ->
  Qfloor (q / inject_Z b + (1 # 2)) = roundDiv a b.
Proof.
  intros Hb Hq. unfold roundDiv.
  assert (H : (q / inject_Z b + (1 # 2) == (2 * a + b) # (Z.to_pos (2 * b)))%Q).
  { rewrite (Qmake_Qdiv (2 * a + b)), Z2Pos.id by lia.
    rewrite Hq, inject_Z_plus, !inject_Z_mult.
    change (inject_Z 2) with 2%Q. field.
    intros H0. unfold Qeq in H0; simpl in H0. lia. }
  rewrite H. unfold Qfloor. rewrite Z2Pos.id by lia. reflexivity.
Qed.

Lemma planningDays_wholeDays (b : booking) (z : Z) :
  wholeDays b = Some z -> planningDays b = Num.ofZ z.
Proof.
  unfold wholeDays, planningDays.
  destruct (newDate (checkIn b)) as [|c]; [discriminate|].
  destruct (newDate (bookingDate b)) as [|d]; [discriminate|].
  intros H; injection H as <-.
  cbn [valueOf Num.ofZ Num.sub Num.neg Num.add Num.div].
  change (Qeq_bool (inject_Z msPerDay) 0) with false.
  cbn [Num.round]. unfold Num.ofZ. do 2 f_equal.
  apply Qfloor_roundDiv; [reflexivity|].
  rewrite <- inject_Z_opp, <- inject_Z_plus. reflexivity.
Qed.

Lemma planningWindows_wholeDays (bs : list booking) :
  forall ds, map wholeDays bs = map Some ds ->
             planningWindows bs = map Num.ofZ ds.
Proof.
  unfold planningWindows.
  induction bs as [|b bs IH]; intros [|d ds] H; try discriminate; [reflexivity|].
  cbn [map] in *. injection H as Hb Hbs.
  rewrite (planningDays_wholeDays b d Hb), (IH ds Hbs). reflexivity.
Qed.

Lemma fold_add_ofZ (ds : list Z) :
  forall acc z,
    (acc == inject_Z z)%Q ->
    exists q,
      fold_left Num.add (map Num.ofZ ds) (Num.Fin acc) = Num.Fin q
      /\ (q == inject_Z (z + sumZ ds))%Q.
Proof.
  induction ds as [|d ds IH]; intros acc z Hacc; cbn [map fold_left sumZ fold_right].
  - exists acc. split; [reflexivity|]. rewrite Z.add_0_r. exact Hacc.
  - fold (sumZ ds). cbn [Num.ofZ Num.add].
    destruct (IH (acc + inject_Z d)%Q (z + d)%Z) as (q & Hq & Hs).
    { rewrite Hacc, inject_Z_plus. reflexivity. }
    exists q. split; [exact Hq|]. rewrite Hs, Z.add_assoc. reflexivity.
Qed.

Lemma min_ofZ (x y : Z) : Num.min (Num.ofZ x) (Num.ofZ y) = Num.ofZ (Z.min x y).
Proof.
  unfold Num.min, Num.ofZ, Num.lt. rewrite Qltb_inject_Z.
  destruct (Z.ltb_spec y x).
  - rewrite Z.min_r by lia. reflexivity.
  - rewrite Z.min_l by lia. reflexivity.
Qed.

Lemma max_ofZ (x y : Z) : Num.max (Num.ofZ x) (Num.ofZ y) = Num.ofZ (Z.max x y).
Proof.
  unfold Num.max, Num.ofZ, Num.lt. rewrite Qltb_inject_Z.
  destruct (Z.ltb_spec x y).
  - rewrite Z.max_r by lia. reflexivity.
  - rewrite Z.max_l by lia. reflexivity.
Qed.

Lemma fold_min_ofZ (ds : list Z) :
  forall m, fold_left Num.min (map Num.ofZ ds) (Num.ofZ m)
            = Num.ofZ (fold_left Z.min ds m).
Proof.
  induction ds as [|d ds IH]; intros m; cbn [map fold_left]; [reflexivity|].
  rewrite min_ofZ. apply IH.
Qed.

Lemma fold_max_ofZ (ds : list Z) :
  forall m, fold_left Num.max (map Num.ofZ ds) (Num.ofZ m)
            = Num.ofZ (fold_left Z.max ds m).
Proof.
  induction ds as [|d ds IH]; intros m; cbn [map fold_left]; [reflexivity|].
  rewrite max_ofZ. apply IH.
Qed.

Lemma styleOf_ofZ (z : Z) : styleOf (Num.ofZ z) = planningStyleFor z.
Proof.
  unfold styleOf, planningStyleFor, Num.lt, Num.ofZ, Num.ofNat.
  rewrite !Qltb_inject_Z. reflexivity.
Qed.

Lemma dayCounts_parse (bs : list booking) :
  Forall (fun x => parses (bookingDate x) /\ parses (checkIn x)) bs ->
  map wholeDays bs = map Some (dayCounts bs)
  /\ List.length (dayCounts bs) = List.length bs.
Proof.
  unfold dayCounts.
  induction 1 as [|b bs [Hb Hc] _ [IH IHlen]]; [split; reflexivity|].
  cbn [map flat_map].
  assert (Hw : exists z, wholeDays b = Some z).
  { unfold wholeDays, parses in *.
    destruct (newDate (checkIn b)); [congruence|].
    destruct (newDate (bookingDate b)); [congruence|]. eexists; reflexivity. }
  destruct Hw as [z Hz]. rewrite Hz. cbn [app map List.length].
  rewrite IH, IHlen. split; reflexivity.
Qed.

Lemma planning_window_of_whole_days (b : booking) (bs : list booking) :
  Forall (fun x => parses (bookingDate x) /\ parses (checkIn x)) (b :: bs) ->
  let days := dayCounts (b :: bs) in
  calculatePlanningWindow (Some (b :: bs))
  = {| averagePlanningDays := Some (Num.ofZ (meanZ days));
       planningStyle := Some (planningStyleFor (meanZ days));
       shortestPlanningDays := Some (Num.ofZ (minimumZ days));
       longestPlanningDays := Some (Num.ofZ (maximumZ days)) |}.
Proof.
  intros Hall days. destruct (dayCounts_parse _ Hall) as [H Hlen].
  fold days in H, Hlen.
  unfold calculatePlanningWindow. cbn [missingOrEmpty orEmpty].
  rewrite (planningWindows_wholeDays _ _ H).
  destruct days as [|d ds]; [discriminate|].
  destruct (fold_add_ofZ (d :: ds) 0%Q 0%Z ltac:(reflexivity)) as (q & Hq & Hs).
  rewrite Hq, length_map.
  assert (Hn : (0 < Z.of_nat (List.length (d :: ds)))%Z) by (simpl; lia).
  assert (Havg : Num.round (Num.div (Num.Fin q) (Num.ofNat (List.length (d :: ds))))
                 = Num.ofZ (meanZ (d :: ds))).
  { unfold Num.div, Num.ofNat. rewrite ofNat_nonzero by (simpl; lia).
    cbn [Num.round]. unfold Num.ofZ, meanZ. do 2 f_equal.
    apply Qfloor_roundDiv; [exact Hn | exact Hs]. }
  rewrite Havg, styleOf_ofZ.
  cbn [map fold_left]. change (Num.min Num.PInf (Num.ofZ d)) with (Num.ofZ d).
  change (Num.max Num.NInf (Num.ofZ d)) with (Num.ofZ d).
  rewrite fold_min_ofZ, fold_max_ofZ. reflexivity.
Qed.

End PlanningFacts.




(* ------------------------------------------------------------------ *)
(** ** More on the classifier *)

Section ClassifierMore.

Import Archetypes Stated Derived.
Local Open Scope nat_scope.

Lemma traitPoints_le (c r : level) : traitPoints c r <= 25.
Proof. destruct c, r; simpl; lia. Qed.

Lemma traitScore_le (p : personalityProfile) (a : archetype) :
  traitScore p a <= 25 * List.length (requirements a).
Proof.
  unfold traitScore. induction (requirements a) as [|r l IH]; simpl; [lia|].
  pose proof (traitPoints_le (personalityCategories p (fst r)) (snd r)). lia.
Qed.

Lemma behaviorBonus_none (name : string) : behaviorBonus name None = 0.
Proof. reflexivity. Qed.

Lemma behaviorBonus_le (name : string) (b : option behaviorData) :
  behaviorBonus name b <= 20.
Proof.
  unfold behaviorBonus, matchBehavior. destruct b as [bd|]; [|simpl; lia].
  rewrite !bonusIf_score. cbn [fst].
  destruct (String.eqb_spec name "The Explorer") as [->|_];
    [cbn; split_ifs; lia|].
  destruct (String.eqb_spec name "The Comfort Seeker") as [->|_];
    [cbn; split_ifs; lia|].
  destruct (String.eqb_spec name "The Luxury Traveler") as [->|_];
    [cbn; split_ifs; lia|].
  cbn. split_ifs; lia.
Qed.

Lemma matchBehavior_unchecked (name : string) (b : option behaviorData)
  (st : nat * list string) :
  In name withoutBehaviorCheck -> matchBehavior name b st = st.
Proof.
  intros H. destruct b as [bd|]; [|reflexivity].
  unfold withoutBehaviorCheck in H. simpl in H.
  destruct H as [<-|[<-|[<-|[<-|[]]]]]; reflexivity.
Qed.

Lemma Forall2_map_same {A B : Type} (R : B -> B -> Prop) (f g : A -> B) (l : list A) :
  (forall a, R (f a) (g a)) -> Forall2 R (map f l) (map g l).
Proof. intros H. induction l; simpl; constructor; auto. Qed.

Lemma Forall_firstn {A : Type} (P : A -> Prop) (n : nat) (l : list A) :
  Forall P l -> Forall P (firstn n l).
Proof.
  intros H. revert n. induction H as [|x l Hx _ IH]; intros [|n]; simpl;
    constructor; auto.
Qed.

(** X1.  The primary archetype always is an entry of the catalog, so its
    description and recommended properties are defined, and its score lies
    between 25 and 70. *)
Theorem primary_archetype_is_catalog_entry
  (p : personalityProfile) (b : option behaviorData) :
  let r := classifyTravelArchetype p b in
  exists a,
    In a archetypes
    /\ primaryArchetype r = archetypeName a
    /\ primaryDescription r = Some (description a)
    /\ primaryProperties r = Some (recommendedProperties a)
    /\ 25 <= matchScore r <= 70.
Proof.
  intros r; subst r.
  pose proof (primary_unfold p b) as Hp. unfold bestMatch in Hp.
  destruct (bestMatch_from (archetypeScores p b) "" 0)
    as [[_ Hall]|(bf & e & af & Hl & Hr & _ & Hb & Ha)].
  { exfalso. pose proof (some_archetype_matches p b) as Hex.
    rewrite Exists_exists in Hex. destruct Hex as (e & Hin & He).
    rewrite Forall_forall in Hall. specialize (Hall e Hin). lia. }
  rewrite Hr in Hp.
  pose proof (f_equal fst Hp) as Hname. pose proof (f_equal snd Hp) as Hscore.
  cbn [fst snd] in Hname, Hscore.
  assert (Hin : In e (archetypeScores p b)) by (rewrite Hl; apply in_elt).
  unfold archetypeScores, archetypeScoresOf in Hin.
  apply in_map_iff in Hin. destruct Hin as (a0 & He & Ha0).
  assert (Hn0 : scoredArchetype e = archetypeName a0)
    by (rewrite <- He; apply scoredArchetype_scoreArchetype).
  destruct (lookupArchetype archetypes (archetypeName a0)) as [a|] eqn:Hfind.
  2:{ exfalso. unfold lookupArchetype in Hfind.
      apply (find_none _ _ Hfind) in Ha0. rewrite String.eqb_refl in Ha0.
      discriminate. }
  unfold lookupArchetype in Hfind. apply find_some in Hfind.
  destruct Hfind as [Hina Heq]. apply String.eqb_eq in Heq.
  exists a. split; [exact Hina|]. split; [congruence|].
  assert (Hlook : lookupArchetype archetypes
                    (primaryArchetype (classifyTravelArchetype p b)) = Some a).
  { rewrite Hname, Hn0. unfold lookupArchetype.
    destruct (find _ archetypes) as [a'|] eqn:Hf.
    - (* the names of the catalog are distinct *)
      apply find_some in Hf. destruct Hf as [Hin' Heq'].
      apply String.eqb_eq in Heq'.
      clear - Hina Hin' Heq Heq'. rewrite <- Heq in Heq'.
      unfold archetypes in Hina, Hin'. simpl in Hina, Hin'.
      repeat match goal with
             | H : _ \/ _ |- _ => destruct H
             | H : False |- _ => destruct H
             end; subst; try reflexivity; discriminate.
    - exfalso. apply (find_none _ _ Hf) in Ha0. rewrite String.eqb_refl in Ha0.
      discriminate. }
  split; [|split].
  - change (primaryDescription (classifyTravelArchetype p b))
      with (option_map description
              (lookupArchetype archetypes
                 (primaryArchetype (classifyTravelArchetype p b)))).
    rewrite Hlook. reflexivity.
  - change (primaryProperties (classifyTravelArchetype p b))
      with (option_map recommendedProperties
              (lookupArchetype archetypes
                 (primaryArchetype (classifyTravelArchetype p b)))).
    rewrite Hlook. reflexivity.
  - rewrite Hscore. split.
    + pose proof (some_archetype_matches p b) as Hex.
      rewrite Exists_exists in Hex. destruct Hex as (x & Hinx & Hx).
      rewrite Hl in Hinx. apply in_app_or in Hinx.
      rewrite Forall_forall in Hb, Ha.
      destruct Hinx as [Hi|[->|Hi]]; [specialize (Hb x Hi) | | specialize (Ha x Hi)]; lia.
    + rewrite <- He, scoredScore_scoreArchetype.
      pose proof (traitScore_le p a0) as Ht.
      pose proof (behaviorBonus_le (archetypeName a0) b) as Hbo.
      assert (List.length (requirements a0) = 2).
      { clear - Ha0. unfold archetypes in Ha0. simpl in Ha0.
        repeat match goal with
               | H : _ \/ _ |- _ => destruct H
               | H : False |- _ => destruct H
               end; subst; reflexivity. }
      lia.
Qed.

(** X2.  Behaviour data never lowers a score and adds at most 20 points to it;
    the entries of the four archetypes that no behaviour check names are
    the same with and without behaviour data. *)
Theorem behaviour_data_only_adds_bonus
  (p : personalityProfile) (b : option behaviorData) :
  Forall2 (fun e0 e =>
             scoredArchetype e = scoredArchetype e0
             /\ scoredScore e0 <= scoredScore e <= scoredScore e0 + 20
             /\ (In (scoredArchetype e0) withoutBehaviorCheck -> e = e0))
          (archetypeScores p None) (archetypeScores p b).
Proof.
  unfold archetypeScores, archetypeScoresOf. apply Forall2_map_same.
  intros a. rewrite !scoredArchetype_scoreArchetype, !scoredScore_scoreArchetype.
  rewrite behaviorBonus_none.
  pose proof (behaviorBonus_le (archetypeName a) b).
  split; [reflexivity|]. split; [lia|].
  intros Hin. unfold scoreArchetype.
  rewrite (matchBehavior_unchecked _ b _ Hin). reflexivity.
Qed.

Lemma push_length (l : list string) (x : string) :
  List.length (push l x) = S (List.length l).
Proof. unfold push. rewrite length_app. simpl. lia. Qed.

Lemma matchTrait_credits p st req :
  creditsFactors st -> creditsFactors (matchTrait p st req).
Proof.
  unfold creditsFactors, matchTrait. destruct st as [s f], req as [t l].
  split_ifs; cbn [fst snd]; rewrite ?push_length; lia.
Qed.

Lemma bonusIf_credits c x st :
  creditsFactors st -> creditsFactors (bonusIf c x st).
Proof.
  unfold creditsFactors, bonusIf. destruct c; cbn [fst snd];
    rewrite ?push_length; lia.
Qed.

Lemma scoreArchetype_credits p b a :
  15 * List.length (factors (scoreArchetype p b a))
  <= scoredScore (scoreArchetype p b a)
  <= 25 * List.length (factors (scoreArchetype p b a)).
Proof.
  unfold scoreArchetype.
  assert (H : creditsFactors
                (matchBehavior (archetypeName a) b
                   (fold_left (matchTrait p) (requirements a) (0, [])))).
  { assert (H0 : creditsFactors (fold_left (matchTrait p) (requirements a) (0, []))).
    { assert (Hg : forall l st, creditsFactors st ->
                                creditsFactors (fold_left (matchTrait p) l st)).
      { induction l as [|r l IH]; intros st Hst; simpl; auto.
        apply IH, matchTrait_credits, Hst. }
      apply Hg. unfold creditsFactors; simpl; lia. }
    unfold matchBehavior. destruct b; [|exact H0].
    repeat apply bonusIf_credits. exact H0. }
  destruct (matchBehavior _ _ _) as [s f]. exact H.
Qed.

(** X3.  Every factor listed for a top archetype stands for 15 to 25 points of
    its score: the list is empty exactly when the score is 0. *)
Theorem factors_account_for_score
  (p : personalityProfile) (b : option behaviorData) :
  Forall (fun e =>
            15 * List.length (factors e) <= scoredScore e
            <= 25 * List.length (factors e))
         (topArchetypes (classifyTravelArchetype p b)).
Proof.
  rewrite topArchetypes_unfold. apply Forall_firstn.
  eapply Permutation_Forall; [symmetry; apply sortByScore_perm|].
  unfold archetypeScores, archetypeScoresOf. apply Forall_map.
  apply Forall_forall. intros a _. apply scoreArchetype_credits.
Qed.

End ClassifierMore.

(* ------------------------------------------------------------------ *)
(** ** Ties of the preferred categories *)

Section ReduceFacts.

Import Events.

Variable K : Type.
Variable gt : K -> K -> bool.
Variables le lt : K -> K -> Prop.
Hypothesis gt_true : forall a b, gt a b = true -> lt b a.
Hypothesis gt_false : forall a b, gt a b = false -> le a b.
Hypothesis le_trans : forall a b c, le a b -> le b c -> le a c.
Hypothesis lt_le : forall a b, lt a b -> le a b.

Lemma fold_greater_last (rest : list K) :
  forall pre a mid,
    Forall (fun x => le x a) pre ->
    Forall (fun x => lt x a) mid ->
    exists before e after,
      pre ++ a :: mid ++ rest = before ++ e :: after
      /\ fold_left (fun a b => if gt a b then a else b) rest a = e
      /\ Forall (fun x => le x e) before
      /\ Forall (fun x => lt x e) after.
Proof.
  induction rest as [|b rest IH]; intros pre a mid Hpre Hmid; cbn [fold_left].
  - exists pre, a, mid. rewrite app_nil_r. auto.
  - destruct (gt a b) eqn:Hg.
    + assert (Hmid' : Forall (fun x => lt x a) (mid ++ [b])).
      { apply Forall_app. split; [exact Hmid|]. constructor; auto. }
      destruct (IH pre a (mid ++ [b]) Hpre Hmid') as (bf & e & af & Hl & He & Hb & Ha).
      exists bf, e, af. rewrite <- Hl, <- app_assoc. auto.
    + apply gt_false in Hg.
      assert (Hpre' : Forall (fun x => le x b) (pre ++ a :: mid)).
      { apply Forall_app. split.
        - eapply Forall_impl; [|exact Hpre]. intros x Hx.
          eapply le_trans; [exact Hx | exact Hg].
        - constructor; [exact Hg|].
          eapply Forall_impl; [|exact Hmid]. intros x Hx.
          eapply le_trans; [apply lt_le; exact Hx | exact Hg]. }
      destruct (IH (pre ++ a :: mid) b [] Hpre' (Forall_nil _))
        as (bf & e & af & Hl & He & Hb & Ha).
      exists bf, e, af. rewrite <- Hl, <- app_assoc. auto.
Qed.

(** The [reduce] with [a[1] > b[1] ? a : b] keeps the last of the entries
    of greatest value. *)
Lemma reduceGreater_last (a : K) (rest : list K) :
  exists before e after,
    a :: rest = before ++ e :: after
    /\ reduceGreater gt (a :: rest) = Some e
    /\ Forall (fun x => le x e) before
    /\ Forall (fun x => lt x e) after.
Proof.
  destruct (fold_greater_last rest [] a [] (Forall_nil _) (Forall_nil _))
    as (bf & e & af & Hl & He & Hb & Ha).
  exists bf, e, af. cbn [reduceGreater]. rewrite He. auto.
Qed.

End ReduceFacts.

Section PreferredFacts.

Import Dates Events TimePatterns Stated.
Local Open Scope nat_scope.

Lemma entries_last_max (a : string * nat) (rest : list (string * nat)) :
  exists before e after,
    a :: rest = before ++ e :: after
    /\ reduceGreater entryGt (a :: rest) = Some e
    /\ Forall (fun x => snd x <= snd e) before
    /\ Forall (fun x => snd x < snd e) after.
Proof.
  apply (reduceGreater_last _ entryGt (fun x y => snd x <= snd y)
                            (fun x y => snd x < snd y)).
  - intros x y H. unfold entryGt in H. apply Nat.ltb_lt in H. exact H.
  - intros x y H. unfold entryGt in H. apply Nat.ltb_ge in H. exact H.
  - intros x y z; lia.
  - intros x y; lia.
Qed.

Lemma maxCount_from (l : list nat) :
  forall m,
    m <= fold_left Nat.max l m
    /\ Forall (fun x => x <= fold_left Nat.max l m) l
    /\ (fold_left Nat.max l m = m \/ In (fold_left Nat.max l m) l).
Proof.
  induction l as [|x l IH]; intros m; cbn [fold_left].
  - repeat split; auto.
  - destruct (IH (Nat.max m x)) as (Hm & Hall & Hin).
    split; [lia|]. split; [constructor; [lia | exact Hall]|].
    destruct Hin as [Heq|Hin]; [|right; right; exact Hin].
    rewrite Heq. destruct (Nat.max_spec m x) as [[_ ->]|[_ ->]]; [right; left|left];
      reflexivity.
Qed.

Lemma indexOf_first (v : nat) (l : list nat) :
  In v l ->
  exists before after,
    l = before ++ v :: after
    /\ indexOf v l = Some (List.length before)
    /\ Forall (fun x => x <> v) before.
Proof.
  induction l as [|c l IH]; intros Hin; [destruct Hin|].
  cbn [indexOf]. destruct (Nat.eqb_spec c v) as [->|Hne].
  - exists [], l. repeat split; auto.
  - destruct Hin as [Heq|Hin]; [contradiction|].
    destruct (IH Hin) as (bf & af & Hl & Hi & Hb).
    exists (c :: bf), af. rewrite Hl at 1. rewrite Hi. repeat split; auto.
Qed.

(** [indexOf(Math.max(...counts))] is the first index of the greatest
    count. *)
Lemma indexOf_maxCount (c : nat) (l : list nat) :
  exists before m after,
    c :: l = before ++ m :: after
    /\ indexOf (maxCount (c :: l)) (c :: l) = Some (List.length before)
    /\ Forall (fun x => x < m) before
    /\ Forall (fun x => x <= m) after.
Proof.
  destruct (maxCount_from (c :: l) 0) as (_ & Hall & Hin).
  fold (maxCount (c :: l)) in Hall, Hin.
  assert (Hin' : In (maxCount (c :: l)) (c :: l)).
  { destruct Hin as [Hz|Hin]; [|exact Hin].
    inversion Hall; subst. left. lia. }
  destruct (indexOf_first _ _ Hin') as (bf & af & Hl & Hi & Hb).
  exists bf, (maxCount (c :: l)), af. split; [exact Hl|]. split; [exact Hi|].
  rewrite Hl in Hall at 1. apply Forall_app in Hall. destruct Hall as [H1 H2].
  inversion H2; subst. split; [|assumption].
  rewrite Forall_forall in *. intros x Hx.
  specialize (H1 x Hx). specialize (Hb x Hx). lia.
Qed.

Lemma combine_split_at {A B : Type} (l1 : list A) (before : list B) (m : B)
  (after : list B) :
  List.length l1 = List.length (before ++ m :: after) ->
  exists d1 d d2,
    l1 = d1 ++ d :: d2
    /\ nth_error l1 (List.length before) = Some d
    /\ combine l1 (before ++ m :: after)
       = combine d1 before ++ (d, m) :: combine d2 after.
Proof.
  revert l1. induction before as [|b before IH]; intros [|x l1] H;
    simpl in H; try discriminate.
  - exists [], x, l1. repeat split.
  - destruct (IH l1) as (d1 & d & d2 & Hl & Hn & Hc); [simpl; lia|].
    exists (x :: d1), d, d2. rewrite Hl at 1. simpl. rewrite Hn, Hc. repeat split.
Qed.

Variable tz : Z.

Lemma detect_preferred (b : booking) (bs : list booking) :
  let r := detectBookingPatterns tz (Some (b :: bs)) in
  let counts := bookingCounts tz (b :: bs) in
  preferredDayOfWeek r
  = match indexOf (maxCount (fst counts)) (fst counts) with
    | Some i => nth_error days i
    | None => None
    end
  /\ preferredTimeOfDay r
     = option_map fst (reduceGreater entryGt (timeEntries (snd counts))).
Proof.
  unfold detectBookingPatterns. cbn [missingOrEmpty orEmpty].
  destruct (bookingCounts tz (b :: bs)) as [d t]. split; reflexivity.
Qed.

End PreferredFacts.

(** X4.  The preferred day of the week is the first day, from Sunday on, of the
    greatest count: a tie goes to the earlier day, and to Sunday when no
    booking date parses. *)
Theorem preferred_day_is_first_of_greatest_count
  (tz : Z) (b : Events.booking) (bs : list Events.booking) :
  let r := TimePatterns.detectBookingPatterns tz (Some (b :: bs)) in
  exists before e after,
    TimePatterns.dayDistribution r = Some (before ++ e :: after)
    /\ TimePatterns.preferredDayOfWeek r = Some (TimePatterns.day e)
    /\ Forall (fun x => (TimePatterns.dayCount x < TimePatterns.dayCount e)%nat)
              before
    /\ Forall (fun x => (TimePatterns.dayCount x <= TimePatterns.dayCount e)%nat)
              after.
Proof.
  intros r; subst r.
  destruct (detect_distributions tz b bs) as [Hd _].
  destruct (detect_preferred tz b bs) as [Hp _]. cbn zeta in Hd, Hp.
  destruct (bookingCounts_facts tz (b :: bs)) as (Hlen & _ & _).
  destruct (fst (TimePatterns.bookingCounts tz (b :: bs))) as [|c l] eqn:Hc;
    [discriminate|].
  destruct (indexOf_maxCount c l) as (bf & m & af & Hl & Hi & Hb & Ha).
  rewrite Hi in Hp.
  destruct (combine_split_at TimePatterns.days bf m af) as (d1 & d & d2 & Hdays & Hn & Hcomb).
  { rewrite <- Hl, Hlen. reflexivity. }
  rewrite Hn in Hp. unfold Stated.dayEntriesFor in Hd.
  rewrite Hl, Hcomb, map_app in Hd. cbn [map] in Hd.
  eexists _, _, _. split; [exact Hd|]. split; [exact Hp|].
  split; apply Forall_map; cbn [TimePatterns.dayCount].
  - apply Forall_forall. intros [x y] Hin. apply in_combine_r in Hin.
    rewrite Forall_forall in Hb. exact (Hb y Hin).
  - apply Forall_forall. intros [x y] Hin. apply in_combine_r in Hin.
    rewrite Forall_forall in Ha. exact (Ha y Hin).
Qed.

(** X5.  The preferred time of day and the preferred season are the last, in
    the order morning, afternoon, evening, night and spring, summer, fall,
    winter, of the greatest count: a tie goes to the later category. *)
Theorem preferred_band_is_last_of_greatest_count (tz : Z) :
  (forall (b : Events.booking) (bs : list Events.booking),
      let r := TimePatterns.detectBookingPatterns tz (Some (b :: bs)) in
      exists before e after,
        TimePatterns.timeDistribution r = Some (before ++ e :: after)
        /\ TimePatterns.preferredTimeOfDay r = Some (TimePatterns.timeOfDay e)
        /\ Forall (fun x => (TimePatterns.timeCount x <= TimePatterns.timeCount e)%nat)
                  before
        /\ Forall (fun x => (TimePatterns.timeCount x < TimePatterns.timeCount e)%nat)
                  after)
  /\ (forall (s : Events.search) (ss : list Events.search),
        let r := TimePatterns.detectSeasonalTrends tz (Some (s :: ss)) in
        exists before e after,
          TimePatterns.seasonalDistribution r = before ++ e :: after
          /\ TimePatterns.preferredSeason r = Some (fst e)
          /\ Forall (fun x => (TimePatterns.seasonCount (snd x)
                               <= TimePatterns.seasonCount (snd e))%nat) before
          /\ Forall (fun x => (TimePatterns.seasonCount (snd x)
                               < TimePatterns.seasonCount (snd e))%nat) after).
Proof.
  split.
  - intros b bs r; subst r.
    destruct (detect_distributions tz b bs) as [_ Hd].
    destruct (detect_preferred tz b bs) as [_ Hp]. cbn zeta in Hd, Hp.
    set (t := snd (TimePatterns.bookingCounts tz (b :: bs))) in *.
    destruct (entries_last_max ("morning"%string, TimePatterns.morning t)
                [("afternoon"%string, TimePatterns.afternoon t);
                 ("evening"%string, TimePatterns.evening t);
                 ("night"%string, TimePatterns.night t)])
      as (bf & e & af & Hl & He & Hb & Ha).
    change (TimePatterns.timeEntries t = bf ++ e :: af) in Hl.
    change (Events.reduceGreater TimePatterns.entryGt (TimePatterns.timeEntries t)
            = Some e) in He.
    rewrite He in Hp. unfold Stated.timeEntriesFor in Hd.
    rewrite Hl, map_app in Hd. cbn [map] in Hd.
    eexists _, _, _. split; [exact Hd|]. split; [exact Hp|].
    split; apply Forall_map; cbn [TimePatterns.timeCount]; assumption.
  - intros s ss r; subst r.
    rewrite detect_seasonalDistribution.
    unfold TimePatterns.detectSeasonalTrends.
    cbn [Events.missingOrEmpty Events.orEmpty TimePatterns.preferredSeason].
    set (c := TimePatterns.searchCounts tz (s :: ss)).
    destruct (entries_last_max ("spring"%string, TimePatterns.spring c)
                [("summer"%string, TimePatterns.summer c);
                 ("fall"%string, TimePatterns.fall c);
                 ("winter"%string, TimePatterns.winter c)])
      as (bf & e & af & Hl & He & Hb & Ha).
    change (TimePatterns.seasonEntries c = bf ++ e :: af) in Hl.
    change (Events.reduceGreater TimePatterns.entryGt (TimePatterns.seasonEntries c)
            = Some e) in He.
    rewrite He. unfold Stated.seasonEntriesFor. rewrite Hl, map_app. cbn [map].
    eexists _, _, _. split; [reflexivity|]. split; [reflexivity|].
    split; apply Forall_map; cbn [TimePatterns.seasonCount snd]; assumption.
Qed.

(* ------------------------------------------------------------------ *)
(** ** Totals of the counts, and planning windows *)

Section CountFacts.

Import Dates Events TimePatterns Stated Derived.
Local Open Scope nat_scope.

Variable tz : Z.

Lemma parsesb_true (f : dateField) : parsesb f = true <-> parses f.
Proof.
  unfold parsesb, parses. destruct (newDate f); split; intros H;
    try discriminate; try reflexivity; contradiction.
Qed.

Lemma parsesb_false (f : dateField) : parsesb f = false <-> newDate f = InvalidDate.
Proof.
  unfold parsesb. destruct (newDate f); split; intros H;
    try discriminate; reflexivity.
Qed.

Lemma fold_countBooking_days (bs : list booking) :
  forall st,
    List.length (fst st) = 7 ->
    list_sum (fst (fold_left (countBooking tz) bs st))
    = list_sum (fst st)
      + List.length (filter (fun b => parsesb (bookingDate b)) bs).
Proof.
  induction bs as [|b bs IH]; intros st Hst; cbn [fold_left filter].
  - simpl. lia.
  - rewrite IH by (rewrite countBooking_length; exact Hst).
    destruct (parsesb (bookingDate b)) eqn:Hp.
    + apply parsesb_true in Hp. rewrite (countBooking_days tz st b Hst Hp).
      simpl. lia.
    + apply parsesb_false in Hp. destruct st as [d t].
      rewrite (countBooking_unparseable tz d t b Hp). simpl. lia.
Qed.

Lemma countSession_unparseable (st : list nat * Num.num) (s : session) :
  newDate (startTime s) = InvalidDate ->
  fst (countSession tz st s) = fst st.
Proof.
  intros H. destruct st as [h d]. unfold countSession. rewrite H. reflexivity.
Qed.

Lemma fold_countSession_sum (ss : list session) :
  forall st,
    List.length (fst st) = 24 ->
    list_sum (fst (fold_left (countSession tz) ss st))
    = list_sum (fst st)
      + List.length (filter (fun s => parsesb (startTime s)) ss).
Proof.
  induction ss as [|s ss IH]; intros st Hst; cbn [fold_left filter].
  - simpl. lia.
  - rewrite IH by (rewrite countSession_length; exact Hst).
    destruct (parsesb (startTime s)) eqn:Hp.
    + apply parsesb_true in Hp. rewrite (countSession_hours tz st s Hst Hp).
      simpl. lia.
    + apply parsesb_false in Hp.
      rewrite (countSession_unparseable st s Hp). simpl. lia.
Qed.

End CountFacts.

(** X6.  The counts of a distribution add up to the records counted: the
    time bands to all the bookings and the seasons to all the searches,
    the days of the week to the bookings whose date parses and the hours
    to the sessions whose start parses; a null date parses, as the epoch,
    and an absent one does not. *)
Theorem distribution_counts_add_up (tz : Z) :
  (forall (b : Events.booking) (bs : list Events.booking),
      let r := TimePatterns.detectBookingPatterns tz (Some (b :: bs)) in
      exists byDay byTime,
        TimePatterns.dayDistribution r = Some byDay
        /\ TimePatterns.timeDistribution r = Some byTime
        /\ list_sum (map TimePatterns.dayCount byDay)
           = List.length
               (filter (fun x => Derived.parsesb (Events.bookingDate x)) (b :: bs))
        /\ list_sum (map TimePatterns.timeCount byTime) = List.length (b :: bs))
  /\ (forall (s : Events.session) (ss : list Events.session),
        exists byHour,
          TimePatterns.hourlyDistribution
            (TimePatterns.analyzeBrowsingHours tz (Some (s :: ss))) = Some byHour
          /\ list_sum (map TimePatterns.hourCount byHour)
             = List.length
                 (filter (fun x => Derived.parsesb (Events.startTime x)) (s :: ss)))
  /\ (forall (s : Events.search) (ss : list Events.search),
        list_sum (map (fun e => TimePatterns.seasonCount (snd e))
                      (TimePatterns.seasonalDistribution
                         (TimePatterns.detectSeasonalTrends tz (Some (s :: ss)))))
        = List.length (s :: ss)).
Proof.
  split; [|split].
  - intros b bs r; subst r.
    destruct (detect_distributions tz b bs) as [Hd Ht]. cbn zeta in Hd, Ht.
    destruct (bookingCounts_facts tz (b :: bs)) as (Hlen & Htime & _).
    eexists _, _. split; [exact Hd|]. split; [exact Ht|]. split.
    + unfold Stated.dayEntriesFor. rewrite map_map. cbn [TimePatterns.dayCount].
      change (fun x : string * nat => snd x) with (@snd string nat).
      rewrite map_snd_combine by (rewrite Hlen; reflexivity).
      unfold TimePatterns.bookingCounts.
      rewrite fold_countBooking_days by reflexivity. reflexivity.
    + unfold Stated.timeEntriesFor. rewrite map_map. cbn [TimePatterns.timeCount].
      rewrite <- Htime. unfold Stated.timeTotal, TimePatterns.timeEntries.
      destruct (snd (TimePatterns.bookingCounts tz (b :: bs))).
      cbn [map list_sum fold_right snd TimePatterns.morning TimePatterns.afternoon
           TimePatterns.evening TimePatterns.night]. lia.
  - intros s ss. rewrite analyze_distribution.
    destruct (sessionCounts_facts tz (s :: ss)) as (Hlen & _).
    eexists. split; [reflexivity|].
    unfold Stated.hourEntriesFor. rewrite map_map. cbn [TimePatterns.hourCount].
    change (fun x : nat * nat => snd x) with (@snd nat nat).
    rewrite map_snd_combine by (rewrite Hlen; reflexivity).
    unfold TimePatterns.sessionCounts.
    rewrite fold_countSession_sum by reflexivity. reflexivity.
  - intros s ss. rewrite detect_seasonalDistribution.
    unfold Stated.seasonEntriesFor. rewrite map_map.
    cbn [TimePatterns.seasonCount snd].
    pose proof (fold_countSearch tz (s :: ss)
                  {| TimePatterns.spring := 0; TimePatterns.summer := 0;
                     TimePatterns.fall := 0; TimePatterns.winter := 0 |}) as H.
    fold (TimePatterns.searchCounts tz (s :: ss)) in H.
    unfold Stated.seasonTotal in H. cbn [TimePatterns.spring TimePatterns.summer
      TimePatterns.fall TimePatterns.winter] in H.
    unfold TimePatterns.seasonEntries.
    destruct (TimePatterns.searchCounts tz (s :: ss)).
    cbn [map list_sum fold_right snd TimePatterns.spring TimePatterns.summer
         TimePatterns.fall TimePatterns.winter] in *.
    cbn [List.length] in *. lia.
Qed.

Section PlanningFacts.

Import Dates Events TimePatterns Stated.
Local Open Scope Z_scope.

Lemma fold_min_bounds (l : list Z) :
  forall m, fold_left Z.min l m <= m
            /\ Forall (fun x => fold_left Z.min l m <= x) l.
Proof.
  induction l as [|x l IH]; intros m; cbn [fold_left]; [split; [lia|constructor]|].
  destruct (IH (Z.min m x)) as [H1 H2]. split; [lia|].
  constructor; [lia|exact H2].
Qed.

Lemma fold_max_bounds (l : list Z) :
  forall m, m <= fold_left Z.max l m
            /\ Forall (fun x => x <= fold_left Z.max l m) l.
Proof.
  induction l as [|x l IH]; intros m; cbn [fold_left]; [split; [lia|constructor]|].
  destruct (IH (Z.max m x)) as [H1 H2]. split; [lia|].
  constructor; [lia|exact H2].
Qed.

Lemma sumZ_bounds (lo hi : Z) (l : list Z) :
  Forall (fun x => lo <= x <= hi) l ->
  Z.of_nat (List.length l) * lo <= sumZ l <= Z.of_nat (List.length l) * hi.
Proof.
  induction 1 as [|x l Hx _ IH]; [simpl; lia|].
  change (sumZ (x :: l)) with (x + sumZ l).
  rewrite length_cons, Nat2Z.inj_succ. lia.
Qed.

(** The rounded mean of a non-empty list of integers lies between its
    least and its greatest element. *)
Lemma meanZ_between (x : Z) (l : list Z) :
  minimumZ (x :: l) <= meanZ (x :: l) <= maximumZ (x :: l).
Proof.
  unfold minimumZ, maximumZ, meanZ, roundDiv.
  destruct (fold_min_bounds l x) as [Hm1 Hm2].
  destruct (fold_max_bounds l x) as [HM1 HM2].
  set (lo := fold_left Z.min l x) in *. set (hi := fold_left Z.max l x) in *.
  assert (Hall : Forall (fun y => lo <= y <= hi) (x :: l)).
  { constructor; [lia|]. rewrite Forall_forall in *. intros y Hy.
    specialize (Hm2 y Hy). specialize (HM2 y Hy). lia. }
  apply sumZ_bounds in Hall. set (n := Z.of_nat (List.length (x :: l))) in *.
  assert (Hn : 0 < n) by (unfold n; rewrite length_cons; lia).
  split.
  - apply Z.div_le_lower_bound; nia.
  - apply Z.lt_succ_r. apply Z.div_lt_upper_bound; nia.
Qed.

Lemma planningDays_unparseable (b : booking) :
  newDate (checkIn b) = InvalidDate \/ newDate (bookingDate b) = InvalidDate ->
  planningDays b = Num.NaN.
Proof.
  unfold planningDays. intros [H|H]; rewrite H; cbn [valueOf].
  - reflexivity.
  - destruct (valueOf (newDate (checkIn b))); reflexivity.
Qed.

Lemma add_NaN_r (a : Num.num) : Num.add a Num.NaN = Num.NaN.
Proof. destruct a; reflexivity. Qed.

Lemma min_NaN_r (a : Num.num) : Num.min a Num.NaN = Num.NaN.
Proof. destruct a; reflexivity. Qed.

Lemma max_NaN_r (a : Num.num) : Num.max a Num.NaN = Num.NaN.
Proof. destruct a; reflexivity. Qed.

(** A [NaN] among the operands is the result of the folds with [+],
    [Math.min] and [Math.max]. *)
Lemma fold_NaN (f : Num.num -> Num.num -> Num.num) (l1 l2 : list Num.num)
  (acc : Num.num) :
  (forall a, f a Num.NaN = Num.NaN) ->
  (forall a, f Num.NaN a = Num.NaN) ->
  fold_left f (l1 ++ Num.NaN :: l2) acc = Num.NaN.
Proof.
  intros Hr Hl. rewrite fold_left_app. cbn [fold_left]. rewrite Hr.
  induction l2 as [|x l2 IH]; cbn [fold_left]; [reflexivity|].
  rewrite Hl. exact IH.
Qed.

End PlanningFacts.

(** X7.  When every booking and check-in date parses, the three planning
    figures are whole numbers of days and the average lies between the
    shortest and the longest window. *)
Theorem average_planning_days_between_extremes
  (b : Events.booking) (bs : list Events.booking) :
  Forall (fun x => Stated.parses (Events.bookingDate x)
                   /\ Stated.parses (Events.checkIn x)) (b :: bs) ->
  let r := TimePatterns.calculatePlanningWindow (Some (b :: bs)) in
  exists shortest average longest : Z,
    TimePatterns.shortestPlanningDays r = Some (Num.ofZ shortest)
    /\ TimePatterns.averagePlanningDays r = Some (Num.ofZ average)
    /\ TimePatterns.longestPlanningDays r = Some (Num.ofZ longest)
    /\ (shortest <= average <= longest)%Z.
Proof.
  intros Hall r; subst r.
  rewrite (planning_window_of_whole_days b bs Hall). cbn zeta.
  destruct (dayCounts_parse (b :: bs) Hall) as [_ Hlen].
  destruct (Stated.dayCounts (b :: bs)) as [|x l] eqn:Hd; [discriminate|].
  eexists _, _, _. cbn [TimePatterns.shortestPlanningDays
    TimePatterns.averagePlanningDays TimePatterns.longestPlanningDays].
  repeat split; apply meanZ_between.
Qed.

(** X7 (witness): scenario A alone. *)
Lemma average_planning_days_between_extremes_witness :
  exists shortest average longest : Z,
    TimePatterns.shortestPlanningDays
      (TimePatterns.calculatePlanningWindow (Some [Stated.scenarioA 0]))
    = Some (Num.ofZ shortest)
    /\ TimePatterns.averagePlanningDays
         (TimePatterns.calculatePlanningWindow (Some [Stated.scenarioA 0]))
       = Some (Num.ofZ average)
    /\ TimePatterns.longestPlanningDays
         (TimePatterns.calculatePlanningWindow (Some [Stated.scenarioA 0]))
       = Some (Num.ofZ longest)
    /\ (shortest <= average <= longest)%Z.
Proof.
  apply (average_planning_days_between_extremes (Stated.scenarioA 0) []).
  repeat constructor; discriminate.
Defined.

(** X8.  One booking whose booking date or check-in date is absent, or is a
    text that does not parse, turns the whole planning report into NaN:
    the average, the shortest and the longest window, whatever the other
    bookings are; the style then reads "Advance Planner".  (A null date
    parses: it is the epoch.) *)
Theorem unparseable_date_spoils_planning_window
  (bs1 bs2 : list Events.booking) (bad : Events.booking) :
  Events.newDate (Events.checkIn bad) = Dates.InvalidDate
  \/ Events.newDate (Events.bookingDate bad) = Dates.InvalidDate ->
  TimePatterns.calculatePlanningWindow (Some (bs1 ++ bad :: bs2))
  = {| TimePatterns.averagePlanningDays := Some Num.NaN;
       TimePatterns.planningStyle := Some "Advance Planner"%string;
       TimePatterns.shortestPlanningDays := Some Num.NaN;
       TimePatterns.longestPlanningDays := Some Num.NaN |}.
Proof.
  intros Hbad. unfold TimePatterns.calculatePlanningWindow.
  assert (Hne : Events.missingOrEmpty (Some (bs1 ++ bad :: bs2)) = false)
    by (destruct bs1; reflexivity).
  rewrite Hne. cbn [Events.orEmpty]. unfold TimePatterns.planningWindows.
  rewrite map_app. cbn [map]. rewrite (planningDays_unparseable bad Hbad).
  rewrite !fold_NaN; try reflexivity; try (intros a; destruct a; reflexivity).
Qed.

(** X8 (witness): a booking without check-in date after scenario A. *)
Lemma unparseable_date_spoils_planning_window_witness :
  TimePatterns.calculatePlanningWindow
    (Some ([Stated.scenarioA 0] ++ Stated.withoutCheckIn :: []))
  = {| TimePatterns.averagePlanningDays := Some Num.NaN;
       TimePatterns.planningStyle := Some "Advance Planner"%string;
       TimePatterns.shortestPlanningDays := Some Num.NaN;
       TimePatterns.longestPlanningDays := Some Num.NaN |}.
Proof.
  apply (unparseable_date_spoils_planning_window
           [Stated.scenarioA 0] [] Stated.withoutCheckIn).
  left. reflexivity.
Defined.

(* ------------------------------------------------------------------ *)
(** ** Ranges of the decision scores *)

Section ScoreFacts.

Import Dates Events DecisionPatterns Stated Derived.
Local Open Scope Q_scope.

Lemma pow10_pos (d : nat) : (0 < Num.pow10 d)%Z.
Proof. unfold Num.pow10. apply Z.pow_pos_nonneg; lia. Qed.

(** [toFixed] of a number of magnitude at most [m] has at most the digits
    of [m]. *)
Lemma toFixed_magnitude (d : nat) (q : Q) (m : Z) :
  Qabs q <= inject_Z m ->
  exists sg k,
    Num.toFixed d (Num.Fin q) = Num.NSDec sg k d
    /\ (Z.of_N k <= m * Num.pow10 d)%Z.
Proof.
  intros Hq. unfold Num.toFixed. eexists _, _. split; [reflexivity|].
  pose proof (pow10_pos d) as HP.
  pose proof (Qabs_nonneg q) as Ha.
  assert (Hm : (0 <= m)%Z).
  { rewrite Zle_Qle. change (inject_Z 0) with 0. eapply Qle_trans; eauto. }
  set (x := Qabs q * inject_Z (Num.pow10 d) + (1 # 2)).
  assert (HPq : 0 < inject_Z (Num.pow10 d)).
  { change 0 with (inject_Z 0). rewrite <- Zlt_Qlt. exact HP. }
  assert (Hx : x < inject_Z (m * Num.pow10 d + 1)).
  { unfold x. rewrite inject_Z_plus, inject_Z_mult.
    change (inject_Z 1) with 1.
    assert (H : Qabs q * inject_Z (Num.pow10 d) <= inject_Z m * inject_Z (Num.pow10 d)).
    { apply Qmult_le_compat_r; [exact Hq | apply Qlt_le_weak, HPq]. }
    revert H. generalize (Qabs q * inject_Z (Num.pow10 d)).
    generalize (inject_Z m * inject_Z (Num.pow10 d)). intros; lra. }
  assert (Hf : (Qfloor x < m * Num.pow10 d + 1)%Z).
  { rewrite Zlt_Qlt. eapply Qle_lt_trans; [apply Qfloor_le | exact Hx]. }
  assert (0 <= m * Num.pow10 d)%Z by nia.
  destruct (Z.le_gt_cases 0 (Qfloor x)) as [H0|H0].
  - rewrite Z2N.id by exact H0. lia.
  - destruct (Qfloor x); simpl; lia.
Qed.

Lemma toFixed_range (d : nat) (q : Q) (m : Z) :
  0 <= q <= inject_Z m ->
  exists k,
    Num.toFixed d (Num.Fin q) = Num.NSDec false k d
    /\ (Z.of_N k <= m * Num.pow10 d)%Z.
Proof.
  intros [H0 Hm].
  destruct (toFixed_magnitude d q m) as (sg & k & Hk & Hle).
  { rewrite Qabs_pos by exact H0. exact Hm. }
  exists k. split; [|exact Hle].
  rewrite Hk. unfold Num.toFixed in Hk. inversion Hk as [[Hs Hn]].
  apply Qltb_false in H0. rewrite H0. reflexivity.
Qed.

Lemma toFixed0_percentage (x : Num.num) :
  isPercentage x ->
  exists k, Num.toFixed 0 x = Num.NSDec false k 0 /\ (k <= 100)%N.
Proof.
  intros (q & -> & Hq).
  destruct (toFixed_range 0 q 100 Hq) as (k & Hk & Hle).
  exists k. split; [exact Hk|]. change (Num.pow10 0) with 1%Z in Hle. lia.
Qed.

Lemma clamp100_cases (x : Num.num) :
  clamp100 x = Num.NaN \/ isPercentage (clamp100 x).
Proof.
  unfold clamp100, isPercentage, Num.ofNat.
  destruct x as [q| | |]; [| right | right | left; reflexivity].
  - right. cbn [Num.max Num.lt].
    change (inject_Z (Z.of_nat 0)) with 0. change (inject_Z (Z.of_nat 100)) with 100.
    destruct (Num.Qltb 0 q) eqn:H0; cbn [Num.min Num.lt].
    + apply Qltb_true in H0.
      destruct (Num.Qltb q 100) eqn:H1.
      * apply Qltb_true in H1. exists q. split; [reflexivity|lra].
      * exists 100. split; [reflexivity|lra].
    + apply Qltb_false in H0.
      change (Num.Qltb 0 100) with true. cbn. exists 0. split; [reflexivity|lra].
  - exists 100. split; [reflexivity|lra].
  - exists 0. split; [reflexivity|lra].
Qed.

Lemma threeWay_NaN (hi mid lo : string) : threeWay Num.NaN hi mid lo = lo.
Proof. reflexivity. Qed.

Lemma inject_nat_nonneg (n : nat) : 0 <= inject_Z (Z.of_nat n).
Proof. change 0 with (inject_Z 0). rewrite <- Zle_Qle. lia. Qed.

Lemma inject_nat_pos (n : nat) : (0 < n)%nat -> 0 < inject_Z (Z.of_nat n).
Proof. intros H. change 0 with (inject_Z 0). rewrite <- Zlt_Qlt. lia. Qed.

Lemma inject_nat_le (c n : nat) :
  (c <= n)%nat -> inject_Z (Z.of_nat c) <= inject_Z (Z.of_nat n).
Proof. intros H. rewrite <- Zle_Qle. lia. Qed.

(** [c / n * 100] for [c <= n] and a positive [n]. *)
Lemma rate_percentage (c n : nat) :
  (c <= n)%nat -> (0 < n)%nat -> isPercentage (rate c n).
Proof.
  intros Hc Hn. unfold rate, Num.ofNat, Num.div.
  rewrite (ofNat_nonzero n Hn). cbn [Num.mul].
  eexists. split; [reflexivity|].
  pose proof (inject_nat_nonneg c) as H0. pose proof (inject_nat_pos n Hn) as H1.
  pose proof (inject_nat_le c n Hc) as H2.
  change (inject_Z (Z.of_nat 100)) with 100.
  assert (Hd0 : 0 <= inject_Z (Z.of_nat c) / inject_Z (Z.of_nat n)).
  { apply Qle_shift_div_l; [exact H1|]. lra. }
  assert (Hd1 : inject_Z (Z.of_nat c) / inject_Z (Z.of_nat n) <= 1).
  { apply Qle_shift_div_r; [exact H1|]. lra. }
  revert Hd0 Hd1. generalize (inject_Z (Z.of_nat c) / inject_Z (Z.of_nat n)).
  intros; lra.
Qed.

(** [Math.min(100, c / n * 100)] for a positive [n]. *)
Lemma capped_rate_percentage (c n : nat) :
  (0 < n)%nat -> isPercentage (Num.min (Num.ofNat 100) (rate c n)).
Proof.
  intros Hn. unfold rate, Num.ofNat, Num.div.
  rewrite (ofNat_nonzero n Hn). cbn [Num.mul Num.min Num.lt].
  pose proof (inject_nat_nonneg c) as H0. pose proof (inject_nat_pos n Hn) as H1.
  change (inject_Z (Z.of_nat 100)) with 100.
  assert (Hd0 : 0 <= inject_Z (Z.of_nat c) / inject_Z (Z.of_nat n)).
  { apply Qle_shift_div_l; [exact H1|]. lra. }
  revert Hd0. generalize (inject_Z (Z.of_nat c) / inject_Z (Z.of_nat n)).
  intros r Hr.
  destruct (Num.Qltb (r * 100) 100) eqn:Hlt.
  - apply Qltb_true in Hlt. eexists. split; [reflexivity|]. lra.
  - eexists. split; [reflexivity|]. lra.
Qed.

(** A mean of four percentages with weights that sum to one. *)
Lemma weighted_percentage (a b c d : Num.num) (w1 w2 w3 w4 : Q) :
  0 <= w1 -> 0 <= w2 -> 0 <= w3 -> 0 <= w4 -> w1 + w2 + w3 + w4 == 1 ->
  isPercentage a -> isPercentage b -> isPercentage c -> isPercentage d ->
  isPercentage
    (Num.add (Num.add (Num.add (Num.mul a (Num.Fin w1)) (Num.mul b (Num.Fin w2)))
                      (Num.mul c (Num.Fin w3)))
             (Num.mul d (Num.Fin w4))).
Proof.
  intros H1 H2 H3 H4 Hw (qa & -> & Ha) (qb & -> & Hb) (qc & -> & Hc) (qd & -> & Hd).
  cbn [Num.mul Num.add]. eexists. split; [reflexivity|]. nra.
Qed.

Lemma fold_countTradeoff (views : list viewedProperty) (bs : list booking) :
  forall st,
    let r := fold_left (countTradeoff views) bs st in
    (fst r + snd r <= fst st + snd st + List.length bs)%nat.
Proof.
  induction bs as [|b bs IH]; intros st; cbn [fold_left List.length]; [lia|].
  specialize (IH (countTradeoff views st b)). cbn zeta in IH.
  assert (H : (fst (countTradeoff views st b) + snd (countTradeoff views st b)
               <= S (fst st + snd st))%nat).
  { unfold countTradeoff. destruct st as [q p].
    destruct (filter _ views); [simpl; lia|].
    split_ifs; simpl; lia. }
  lia.
Qed.

Lemma fold_countUnique (bs : list booking) :
  forall st,
    (snd (fold_left countUnique bs st) <= snd st + List.length bs)%nat.
Proof.
  induction bs as [|b bs IH]; intros st; cbn [fold_left List.length]; [lia|].
  specialize (IH (countUnique st b)).
  assert (H : (snd (countUnique st b) <= S (snd st))%nat).
  { unfold countUnique. destruct st as [[t d] u].
    destruct (truthyString (propertyType b)); [|simpl; lia].
    split_ifs; simpl; lia. }
  lia.
Qed.

Lemma fold_countRisk (bs : list booking) :
  forall st,
    let r := fold_left countRisk bs st in
    let '(_, new0, low0, last0, long0) := st in
    let '(_, new, low, last, long) := r in
    (new <= new0 + List.length bs /\ low <= low0 + List.length bs
     /\ last <= last0 + List.length bs /\ long <= long0 + List.length bs)%nat.
Proof.
  induction bs as [|b bs IH]; intros st; cbn [fold_left List.length].
  - destruct st as [[[[v n] l] t] g]. lia.
  - specialize (IH (countRisk st b)). cbn zeta in IH.
    destruct st as [[[[v n] l] t] g].
    destruct (countRisk (v, n, l, t, g) b) as [[[[v1 n1] l1] t1] g1] eqn:Hstep.
    destruct (fold_left countRisk bs (v1, n1, l1, t1, g1)) as [[[[v2 n2] l2] t2] g2].
    assert (H : (n1 <= S n /\ l1 <= S l /\ t1 <= S t /\ g1 <= S g)%nat).
    { unfold countRisk in Hstep.
      destruct (match truthyString (destination b) with
                | Some d =>
                    if existsb (String.eqb d) v then (v, n)
                    else ((v ++ [d])%list, S n)
                | None => (v, n)
                end) as [v' n'] eqn:Hd.
      assert (n' <= S n)%nat.
      { destruct (truthyString (destination b)); [|inversion Hd; lia].
        destruct (existsb _ v); inversion Hd; lia. }
      inversion Hstep; subst. repeat split; try lia.
      - split_ifs; lia.
      - destruct (daysBetween (checkIn b) (bookingDate b)); split_ifs; lia.
      - destruct (daysBetween (checkOut b) (checkIn b)); split_ifs; lia. }
    lia.
Qed.

End ScoreFacts.

(** X9.  The impulsivity score of a bundle with bookings is either NaN,
    and the category then reads "Planned Decision Maker", or a whole
    number from 0 to 100: the clamp bounds every number but lets NaN
    through. *)
Theorem impulsivity_score_range
  (uc : DecisionPatterns.userChoices) (b : Events.booking)
  (bs : list Events.booking) :
  Events.orEmpty (DecisionPatterns.bookings uc) = b :: bs ->
  let r := DecisionPatterns.calculateImpulsivityScore uc in
  (DecisionPatterns.score r = Some Num.NSNaN
   /\ DecisionPatterns.category r = Some "Planned Decision Maker"%string)
  \/ (exists k, (k <= 100)%N
                /\ DecisionPatterns.score r = Some (Num.NSDec false k 0)).
Proof.
  intros Hb r; subst r. unfold DecisionPatterns.calculateImpulsivityScore.
  rewrite Hb.
  destruct (DecisionPatterns.decisionTotals (b :: bs) _) as [t q].
  cbn [DecisionPatterns.score DecisionPatterns.category].
  match goal with
  | |- context [Num.toFixed 0 (DecisionPatterns.clamp100 ?x)] =>
      destruct (clamp100_cases x) as [HN|HP]
  end.
  - left. rewrite HN. split; reflexivity.
  - right. destruct (toFixed0_percentage _ HP) as (k & Hk & Hle).
    exists k. rewrite Hk. split; [exact Hle | reflexivity].
Qed.

(** X9 (witness): two bookings, of which one has a related search. *)
Lemma impulsivity_score_range_witness :
  let r := DecisionPatterns.calculateImpulsivityScore Stated.twoBookingsOneSearch in
  (DecisionPatterns.score r = Some Num.NSNaN
   /\ DecisionPatterns.category r = Some "Planned Decision Maker"%string)
  \/ (exists k, (k <= 100)%N
                /\ DecisionPatterns.score r = Some (Num.NSDec false k 0)).
Proof.
  eapply (impulsivity_score_range Stated.twoBookingsOneSearch). reflexivity.
Defined.

(** X10.  With bookings and viewed properties, the price-quality score is
    a whole number of magnitude at most 100, never NaN even when prices
    or ratings are missing, and the quality and price choices together
    are at most the bookings. *)
Theorem price_quality_score_range
  (uc : DecisionPatterns.userChoices) (b : Events.booking)
  (bs : list Events.booking) (v : DecisionPatterns.viewedProperty)
  (vs : list DecisionPatterns.viewedProperty) :
  Events.orEmpty (DecisionPatterns.bookings uc) = b :: bs ->
  Events.orEmpty (DecisionPatterns.viewedProperties uc) = v :: vs ->
  let r := DecisionPatterns.analyzePriceQualityTradeoff uc in
  exists quality price negative k,
    DecisionPatterns.qualityChoices r = Some quality
    /\ DecisionPatterns.priceChoices r = Some price
    /\ (quality + price
        <= List.length (Events.orEmpty (DecisionPatterns.bookings uc)))%nat
    /\ DecisionPatterns.pqScore r = Some (Num.NSDec negative k 0)
    /\ (k <= 100)%N.
Proof.
  intros Hb Hv r; subst r. unfold DecisionPatterns.analyzePriceQualityTradeoff.
  rewrite Hb, Hv. cbn [List.length Nat.eqb orb].
  pose proof (fold_countTradeoff (v :: vs) (b :: bs) (0, 0)%nat) as Hc.
  cbn zeta in Hc.
  destruct (fold_left (DecisionPatterns.countTradeoff (v :: vs)) (b :: bs) (0, 0)%nat)
    as [q p].
  cbn [fst snd] in Hc.
  cbn [DecisionPatterns.qualityChoices DecisionPatterns.priceChoices
       DecisionPatterns.pqScore].
  assert (Hs : exists sg k,
             Num.toFixed 0
               (if Nat.ltb 0 (q + p)
                then Num.mul
                       (Num.div (Num.sub (Num.ofNat q) (Num.ofNat p))
                                (Num.ofNat (q + p)))
                       (Num.ofNat 100)
                else Num.Fin 0) = Num.NSDec sg k 0
             /\ (Z.of_N k <= 100 * Num.pow10 0)%Z).
  { destruct (Nat.ltb_spec 0 (q + p)) as [Hpos|Hzero].
    - unfold Num.ofNat, Num.sub, Num.neg, Num.add, Num.div.
      rewrite (ofNat_nonzero (q + p) Hpos). cbn [Num.mul].
      apply toFixed_magnitude.
      pose proof (inject_nat_nonneg q) as H0. pose proof (inject_nat_nonneg p) as H1.
      pose proof (inject_nat_pos (q + p) Hpos) as H2.
      rewrite Nat2Z.inj_add, inject_Z_plus in *.
      change (inject_Z (Z.of_nat 100)) with 100%Q. change (inject_Z 100) with 100%Q.
      revert H0 H1 H2.
      generalize (inject_Z (Z.of_nat q)). generalize (inject_Z (Z.of_nat p)).
      intros y x Hx Hy Hxy.
      assert (Hu : ((x + - y) / (x + y) <= 1)%Q)
        by (apply Qle_shift_div_r; [exact Hxy | lra]).
      assert (Hl : (- (1) <= (x + - y) / (x + y))%Q)
        by (apply Qle_shift_div_l; [exact Hxy | lra]).
      apply Qabs_Qle_condition.
      revert Hu Hl. generalize ((x + - y) / (x + y))%Q. intros; lra.
    - apply toFixed_magnitude. vm_compute. discriminate. }
  destruct Hs as (sg & k & Hk & Hle).
  exists q, p, sg, k. rewrite Hk.
  change (Num.pow10 0) with 1%Z in Hle.
  repeat split; try reflexivity; cbn [List.length] in *; lia.
Qed.

(** X10 (witness): one booking without price and one viewed property. *)
Lemma price_quality_score_range_witness :
  let r := DecisionPatterns.analyzePriceQualityTradeoff Derived.bookingWithView in
  exists quality price negative k,
    DecisionPatterns.qualityChoices r = Some quality
    /\ DecisionPatterns.priceChoices r = Some price
    /\ (quality + price
        <= List.length (Events.orEmpty
                          (DecisionPatterns.bookings Derived.bookingWithView)))%nat
    /\ DecisionPatterns.pqScore r = Some (Num.NSDec negative k 0)
    /\ (k <= 100)%N.
Proof.
  eapply (price_quality_score_range Derived.bookingWithView); reflexivity.
Defined.

(** X11.  For a bundle with bookings the uniqueness score needs searches:
    without any search the search diversity divides zero by zero, the
    score is NaN and the category reads "Comfort Seeker", whatever was
    booked; with at least one search the score is a whole number from 0
    to 100. *)
Theorem uniqueness_score_needs_searches
  (uc : DecisionPatterns.userChoices) (b : Events.booking)
  (bs : list Events.booking) :
  Events.orEmpty (DecisionPatterns.bookings uc) = b :: bs ->
  let r := DecisionPatterns.calculateUniquenessSeeking uc in
  (Events.orEmpty (DecisionPatterns.searches uc) = [] ->
   DecisionPatterns.uniquenessScore r = Some Num.NSNaN
   /\ DecisionPatterns.uniquenessCategory r = Some "Comfort Seeker"%string)
  /\ (Events.orEmpty (DecisionPatterns.searches uc) <> [] ->
      exists k, (k <= 100)%N
                /\ DecisionPatterns.uniquenessScore r
                   = Some (Num.NSDec false k 0)).
Proof.
  intros Hb r; subst r. unfold DecisionPatterns.calculateUniquenessSeeking.
  rewrite Hb.
  pose proof (fold_countUnique (b :: bs) ([], [], 0%nat)) as Hu.
  destruct (fold_left DecisionPatterns.countUnique (b :: bs) ([], [], 0%nat))
    as [[types dests] unusual].
  cbn [snd] in Hu.
  cbn [DecisionPatterns.uniquenessScore DecisionPatterns.uniquenessCategory].
  split.
  - intros Hs. rewrite Hs. cbn [fold_left List.length].
    change (DecisionPatterns.rate 0 0) with Num.NaN.
    rewrite min_NaN_r. cbn [Num.mul]. rewrite add_NaN_r. split; reflexivity.
  - intros Hs.
    destruct (Events.orEmpty (DecisionPatterns.searches uc)) as [|s ss];
      [contradiction|].
    assert (Hn : (0 < List.length (b :: bs))%nat) by (simpl; lia).
    assert (Hm : (0 < List.length (s :: ss))%nat) by (simpl; lia).
    match goal with
    | |- context [Num.toFixed 0 ?x] =>
        assert (HP : Derived.isPercentage x)
    end.
    { apply weighted_percentage; try (unfold Qle; simpl; lia);
        try reflexivity.
      - apply capped_rate_percentage, Hn.
      - apply rate_percentage; [simpl in *; lia | exact Hn].
      - apply capped_rate_percentage, Hn.
      - apply capped_rate_percentage, Hm. }
    destruct (toFixed0_percentage _ HP) as (k & Hk & Hle).
    exists k. rewrite Hk. split; [exact Hle | reflexivity].
Qed.

(** X11 (witness): a booking of a treehouse without any search. *)
Lemma uniqueness_score_needs_searches_witness :
  DecisionPatterns.uniquenessScore
    (DecisionPatterns.calculateUniquenessSeeking Derived.bookingWithView)
  = Some Num.NSNaN
  /\ DecisionPatterns.uniquenessCategory
       (DecisionPatterns.calculateUniquenessSeeking Derived.bookingWithView)
     = Some "Comfort Seeker"%string.
Proof.
  eapply (uniqueness_score_needs_searches Derived.bookingWithView);
    reflexivity.
Defined.

(** X12.  The risk score of a bundle with bookings is a whole number from
    0 to 100, never NaN: a missing rating or date leaves its counter
    unchanged. *)
Theorem risk_score_range
  (uc : DecisionPatterns.userChoices) (b : Events.booking)
  (bs : list Events.booking) :
  Events.orEmpty (DecisionPatterns.bookings uc) = b :: bs ->
  exists k, (k <= 100)%N
            /\ DecisionPatterns.riskScore (DecisionPatterns.assessRiskTolerance uc)
               = Some (Num.NSDec false k 0).
Proof.
  intros Hb. unfold DecisionPatterns.assessRiskTolerance. rewrite Hb.
  pose proof (fold_countRisk (b :: bs) ([], 0, 0, 0, 0)%nat) as Hc.
  cbn zeta in Hc.
  destruct (fold_left DecisionPatterns.countRisk (b :: bs) ([], 0, 0, 0, 0)%nat)
    as [[[[visited new] low] last] long].
  cbn [DecisionPatterns.riskScore].
  assert (Hn : (0 < List.length (b :: bs))%nat) by (simpl; lia).
  match goal with
  | |- context [Num.toFixed 0 ?x] =>
      assert (HP : Derived.isPercentage x)
  end.
  { apply weighted_percentage; try (unfold Qle; simpl; lia); try reflexivity;
      (apply rate_percentage; [lia | exact Hn]). }
  destruct (toFixed0_percentage _ HP) as (k & Hk & Hle).
  exists k. rewrite Hk. split; [exact Hle | reflexivity].
Qed.

(** X12 (witness): two bookings without rating, destination and dates of
    stay. *)
Lemma risk_score_range_witness :
  exists k, (k <= 100)%N
            /\ DecisionPatterns.riskScore
                 (DecisionPatterns.assessRiskTolerance Stated.twoBookingsOneSearch)
               = Some (Num.NSDec false k 0).
Proof.
  eapply (risk_score_range Stated.twoBookingsOneSearch). reflexivity.
Defined.

(* ------------------------------------------------------------------ *)
(** ** Impulsivity *)

Section ImpulsivityFacts.

Import Dates Events DecisionPatterns Stated.
Local Open Scope Q_scope.














End ImpulsivityFacts.




(* ------------------------------------------------------------------ *)
(** ** Objects used as maps *)

Section ObjFacts.

Local Open Scope nat_scope.

Variable V : Type.

Lemma get_set_same (o : Obj.obj V) (k : string) (v : V) :
  Obj.get (Obj.set o k v) k = Some v.
Proof.
  induction o as [|[k' v'] o IH]; cbn [Obj.set Obj.get].
  - rewrite String.eqb_refl. reflexivity.
  - destruct (String.eqb k' k) eqn:He; cbn [Obj.get]; rewrite He; auto.
Qed.

Lemma get_set_other (o : Obj.obj V) (k k' : string) (v : V) :
  k <> k' -> Obj.get (Obj.set o k v) k' = Obj.get o k'.
Proof.
  intros Hne. induction o as [|[k0 v0] o IH]; cbn [Obj.set Obj.get].
  - destruct (String.eqb_spec k k'); [contradiction|reflexivity].
  - destruct (String.eqb_spec k0 k) as [->|Hk]; cbn [Obj.get].
    + destruct (String.eqb_spec k k'); [contradiction|reflexivity].
    + rewrite IH. reflexivity.
Qed.

Lemma get_In (o : Obj.obj V) (k : string) (v : V) :
  Obj.get o k = Some v -> In (k, v) o.
Proof.
  induction o as [|[k' v'] o IH]; cbn [Obj.get]; [discriminate|].
  destruct (String.eqb_spec k' k) as [->|Hk]; intros H.
  - inversion H; subst. left. reflexivity.
  - right. apply IH, H.
Qed.

Lemma get_None (o : Obj.obj V) (k : string) :
  Obj.get o k = None <-> ~ In k (map fst o).
Proof.
  induction o as [|[k' v'] o IH]; cbn [Obj.get map fst In]; [tauto|].
  destruct (String.eqb_spec k' k) as [->|Hk].
  - split; [discriminate|]. intros H. exfalso. apply H. left. reflexivity.
  - rewrite IH. tauto.
Qed.

Lemma In_get (o : Obj.obj V) (k : string) (v : V) :
  NoDup (map fst o) -> In (k, v) o -> Obj.get o k = Some v.
Proof.
  induction o as [|[k' v'] o IH]; cbn [Obj.get map fst]; intros Hnd Hin;
    [destruct Hin|].
  inversion Hnd as [|? ? Hnot Hnd']; subst.
  destruct Hin as [Heq|Hin].
  - inversion Heq; subst. rewrite String.eqb_refl. reflexivity.
  - destruct (String.eqb_spec k' k) as [->|Hk]; [|apply IH; assumption].
    exfalso. apply Hnot. apply (in_map fst) in Hin. exact Hin.
Qed.

Lemma keys_set (o : Obj.obj V) (k : string) (v : V) :
  map fst (Obj.set o k v)
  = match Obj.get o k with
    | Some _ => map fst o
    | None => (map fst o ++ [k])%list
    end.
Proof.
  induction o as [|[k' v'] o IH]; cbn [Obj.set Obj.get map fst app];
    [reflexivity|].
  destruct (String.eqb k' k) eqn:He; cbn [map fst]; [reflexivity|].
  rewrite IH. destruct (Obj.get o k); reflexivity.
Qed.

Lemma NoDup_set (o : Obj.obj V) (k : string) (v : V) :
  NoDup (map fst o) -> NoDup (map fst (Obj.set o k v)).
Proof.
  intros H. rewrite keys_set. destruct (Obj.get o k) eqn:Hg; [exact H|].
  apply get_None in Hg.
  apply (Permutation_NoDup (l := k :: map fst o)).
  - apply Permutation_cons_append.
  - constructor; assumption.
Qed.

Lemma set_nonempty (o : Obj.obj V) (k : string) (v : V) : Obj.set o k v <> [].
Proof.
  destruct o as [|[k' v'] o]; cbn [Obj.set]; [discriminate|].
  destruct (String.eqb k' k); discriminate.
Qed.

Lemma entries_nonempty (o : Obj.obj V) : o <> [] -> Obj.entries o <> [].
Proof.
  intros H He. apply H. apply Permutation_nil.
  rewrite <- He. apply entries_perm.
Qed.


End ObjFacts.

(* ------------------------------------------------------------------ *)
(** ** Hovers, image views and price filters *)

Section HoverFacts.

Import Events MicroInteractions Stated Derived.
Local Open Scope Q_scope.

Lemma Qsum_app (l1 l2 : list Q) : Qsum (l1 ++ l2) == Qsum l1 + Qsum l2.
Proof.
  induction l1 as [|x l1 IH].
  - change (Qsum ([] ++ l2)) with (Qsum l2). change (Qsum []) with 0.
    generalize (Qsum l2). intros; ring.
  - change (Qsum ((x :: l1) ++ l2)) with (x + Qsum (l1 ++ l2)).
    change (Qsum (x :: l1)) with (x + Qsum l1). rewrite IH.
    generalize (Qsum l1), (Qsum l2). intros; ring.
Qed.

Lemma hoverTimeOn_snoc (t : string) (done : list hover) (x : hover) :
  hoverTimeOn t (done ++ [x])
  == hoverTimeOn t done
     + (if String.eqb (hoverType x) t then orZero (hoverDuration x) else 0).
Proof.
  unfold hoverTimeOn. rewrite filter_app, map_app, Qsum_app.
  cbn [filter]. destruct (String.eqb (hoverType x) t); cbn; ring.
Qed.

Lemma countHover_fst (o : Obj.obj Q) (total : Q) (x : hover) :
  fst (countHover (o, total) x)
  = Obj.set o (hoverType x)
      (valueOrZero (Obj.get o (hoverType x)) + orZero (hoverDuration x)).
Proof. reflexivity. Qed.

Lemma countHover_groups (o : Obj.obj Q) (total : Q) (done : list hover)
  (x : hover) :
  groupsHovers o done ->
  groupsHovers (fst (countHover (o, total) x)) (done ++ [x]).
Proof.
  intros (Hnd & Hkeys & Hval). rewrite countHover_fst.
  split; [apply NoDup_set, Hnd|]. split.
  - intros t. rewrite keys_set. split.
    + intros Hin.
      assert (Hcase : In t (map fst o) \/ t = hoverType x).
      { destruct (Obj.get o (hoverType x)); [left; exact Hin|].
        apply in_app_or in Hin. destruct Hin as [Hin|[ <- | [] ]]; auto. }
      destruct Hcase as [Hin' | -> ].
      * apply Hkeys in Hin'. destruct Hin' as (y & Hy & Ht).
        exists y. split; [apply in_or_app; left; exact Hy | exact Ht].
      * exists x. split; [apply in_or_app; right; left; reflexivity | reflexivity].
    + intros (y & Hy & Ht). apply in_app_or in Hy.
      destruct Hy as [Hy|[ <- | [] ]].
      * assert (Hin : In t (map fst o)) by (apply Hkeys; eauto).
        destruct (Obj.get o (hoverType x)); [exact Hin|].
        apply in_or_app; left; exact Hin.
      * subst t. destruct (Obj.get o (hoverType x)) eqn:Hg.
        -- apply get_In in Hg. apply (in_map fst) in Hg. exact Hg.
        -- apply in_or_app; right; left; reflexivity.
  - intros t. rewrite hoverTimeOn_snoc.
    destruct (String.eqb_spec (hoverType x) t) as [<-|Hne].
    + rewrite get_set_same. cbn [valueOrZero]. rewrite Hval. reflexivity.
    + rewrite get_set_other by exact Hne. rewrite Hval. ring.
Qed.

Lemma fold_countHover_groups (hs : list hover) :
  forall o total done,
    groupsHovers o done ->
    groupsHovers (fst (fold_left countHover hs (o, total))) (done ++ hs).
Proof.
  induction hs as [|x hs IH]; intros o total done H; cbn [fold_left].
  - rewrite app_nil_r. exact H.
  - replace (done ++ x :: hs)%list with ((done ++ [x]) ++ hs)%list
      by (rewrite <- app_assoc; reflexivity).
    destruct (countHover (o, total) x) as [o' total'] eqn:Hstep.
    apply IH. change o' with (fst (o', total')). rewrite <- Hstep.
    apply countHover_groups, H.
Qed.

Lemma hoverTotals_groups (hs : list hover) :
  groupsHovers (fst (hoverTotals hs)) hs.
Proof.
  apply (fold_countHover_groups hs [] 0 []).
  split; [constructor|]. split.
  - intros t. split; [intros []|intros (x & [] & _)].
  - intros t. reflexivity.
Qed.

Lemma hover_report (h : hover) (hs : list hover) :
  let r := calculateAverageHoverTime (Some (h :: hs)) in
  let o := fst (hoverTotals (h :: hs)) in
  mostViewedElementType r
  = option_map fst (reduceGreater timeGt (Obj.entries o))
  /\ exists f,
       elementBreakdown r = Some (map f (Obj.entries o))
       /\ forall e, breakdownElementType (f e) = fst e /\ totalTime (f e) = snd e.
Proof.
  unfold calculateAverageHoverTime. cbn [missingOrEmpty orEmpty].
  destruct (hoverTotals (h :: hs)) as [o total]. cbn zeta. cbn [fst].
  split; [reflexivity|].
  eexists. cbn [elementBreakdown]. split; [reflexivity|].
  intros [t v]. split; reflexivity.
Qed.

End HoverFacts.

Section SlackFacts.

Import Stated Derived.
Local Open Scope Q_scope.




End SlackFacts.



(** X14.  When no element type names a property that an object inherits
    from [Object.prototype], the most viewed element type is the last
    entry of the breakdown that has the greatest total time: a tie goes to
    the later entry. *)
Theorem most_viewed_type_is_last_of_greatest_time
  (h : Events.hover) (hs : list Events.hover) :
  Forall (fun x => Obj.ownKey (Derived.hoverType x)) (h :: hs) ->
  let r := MicroInteractions.calculateAverageHoverTime (Some (h :: hs)) in
  exists before e after,
    MicroInteractions.elementBreakdown r = Some (before ++ e :: after)
    /\ MicroInteractions.mostViewedElementType r
       = Some (MicroInteractions.breakdownElementType e)
    /\ Forall (fun x => (MicroInteractions.totalTime x
                         <= MicroInteractions.totalTime e)%Q) before
    /\ Forall (fun x => (MicroInteractions.totalTime x
                         < MicroInteractions.totalTime e)%Q) after.
Proof.
  intros _ r; subst r.
  destruct (hover_report h hs) as (Hm & f & Hb & Hf). cbn zeta in Hm, Hb.
  set (o := fst (MicroInteractions.hoverTotals (h :: hs))) in *.
  assert (Hne : Obj.entries o <> []).
  { apply entries_nonempty. intros Ho.
    destruct (hoverTotals_groups (h :: hs)) as (_ & Hkeys & _).
    fold o in Hkeys. rewrite Ho in Hkeys.
    apply (Hkeys (Derived.hoverType h)). exists h. split; [left|]; reflexivity. }
  destruct (Obj.entries o) as [|a rest] eqn:He; [contradiction|].
  destruct (reduceGreater_last _ MicroInteractions.timeGt
              (fun x y => (snd x <= snd y)%Q) (fun x y => (snd x < snd y)%Q))
    with (a := a) (rest := rest)
    as (bf & e & af & Hl & Hr & Hbf & Haf).
  - intros x y H. apply Qltb_true in H. exact H.
  - intros x y H. apply Qltb_false in H. exact H.
  - intros x y z. apply Qle_trans.
  - intros x y. apply Qlt_le_weak.
  - rewrite Hr in Hm. rewrite Hl, map_app in Hb. cbn [map] in Hb.
    exists (map f bf), (f e), (map f af). split; [exact Hb|].
    split; [rewrite Hm; cbn [option_map]; f_equal; symmetry; apply Hf|].
    split; apply Forall_map.
    + eapply Forall_impl; [|exact Hbf]. intros x Hx.
      destruct (Hf x) as [_ ->]. destruct (Hf e) as [_ ->]. exact Hx.
    + eapply Forall_impl; [|exact Haf]. intros x Hx.
      destruct (Hf x) as [_ ->]. destruct (Hf e) as [_ ->]. exact Hx.
Qed.

(** X14 (witness): the same three hovers; both types total 5 seconds. *)
Lemma most_viewed_type_is_last_of_greatest_time_witness :
  let r := MicroInteractions.calculateAverageHoverTime
             (Some Derived.threeHovers) in
  exists before e after,
    MicroInteractions.elementBreakdown r = Some (before ++ e :: after)
    /\ MicroInteractions.mostViewedElementType r
       = Some (MicroInteractions.breakdownElementType e)
    /\ Forall (fun x => (MicroInteractions.totalTime x
                         <= MicroInteractions.totalTime e)%Q) before
    /\ Forall (fun x => (MicroInteractions.totalTime x
                         < MicroInteractions.totalTime e)%Q) after.
Proof.
  apply (most_viewed_type_is_last_of_greatest_time
           {| Events.hoverDuration := Events.Given 3%Q;
              Events.elementType := Events.Given "image"%string |}
           [ {| Events.hoverDuration := Events.Given 5%Q;
                Events.elementType := Events.Absent |};
             {| Events.hoverDuration := Events.Given 2%Q;
                Events.elementType := Events.Given "image"%string |} ]).
  repeat constructor; unfold Obj.ownKey, Obj.inheritedKeys; cbn;
    intuition discriminate.
Defined.

Section ViewFacts.

Import Events MicroInteractions.
Local Open Scope nat_scope.

Lemma existsb_eqb_In (id : string) (ids : list string) :
  existsb (String.eqb id) ids = true <-> In id ids.
Proof.
  rewrite existsb_exists. split.
  - intros (x & Hx & He). apply String.eqb_eq in He. subst. exact Hx.
  - intros H. exists id. split; [exact H | apply String.eqb_refl].
Qed.

Lemma countView_ids (total : Q) (ids : list string) (v : imageView) :
  snd (countView (total, ids) v)
  = match truthyString (imageId v) with
    | Some id =>
        if existsb (String.eqb id) ids then ids else (ids ++ [id])%list
    | None => ids
    end.
Proof. reflexivity. Qed.

Lemma fold_countView (vs : list imageView) :
  forall total ids done,
    NoDup ids ->
    (forall id, In id ids
                <-> exists x, In x done /\ truthyString (imageId x) = Some id) ->
    let ids' := snd (fold_left countView vs (total, ids)) in
    NoDup ids'
    /\ (forall id, In id ids'
                   <-> exists x, In x (done ++ vs)
                                 /\ truthyString (imageId x) = Some id).
Proof.
  induction vs as [|v vs IH]; intros total ids done Hnd Hin; cbn zeta;
    cbn [fold_left].
  - rewrite app_nil_r. split; assumption.
  - replace (done ++ v :: vs) with ((done ++ [v]) ++ vs)
      by (rewrite <- app_assoc; reflexivity).
    destruct (countView (total, ids) v) as [total' ids'] eqn:Hstep.
    apply (f_equal snd) in Hstep. rewrite countView_ids in Hstep.
    cbn [snd] in Hstep. subst ids'.
    destruct (truthyString (imageId v)) as [id0|] eqn:Hid.
    + destruct (existsb (String.eqb id0) ids) eqn:Hex.
      * apply IH; [exact Hnd|]. intros id. rewrite Hin. split.
        -- intros (x & Hx & He). exists x. split; [apply in_or_app; left|]; assumption.
        -- intros (x & Hx & He). apply in_app_or in Hx.
           destruct Hx as [Hx|[ <- | [] ]]; [eauto|].
           apply Hin. apply existsb_eqb_In in Hex. congruence.
      * apply IH.
        -- apply (Permutation_NoDup (l := id0 :: ids));
             [apply Permutation_cons_append|].
           constructor; [|exact Hnd]. intros H. apply existsb_eqb_In in H.
           congruence.
        -- intros id. rewrite in_app_iff, Hin. cbn [In]. split.
           ++ intros [(x & Hx & He)|[ <- | [] ]].
              ** exists x. split; [apply in_or_app; left|]; assumption.
              ** exists v. split; [apply in_or_app; right; left; reflexivity|].
                 exact Hid.
           ++ intros (x & Hx & He). apply in_app_or in Hx.
              destruct Hx as [Hx|[ <- | [] ]]; [left; eauto|].
              right. left. congruence.
    + apply IH; [exact Hnd|]. intros id. rewrite Hin. split.
      * intros (x & Hx & He). exists x. split; [apply in_or_app; left|]; assumption.
      * intros (x & Hx & He). apply in_app_or in Hx.
        destruct Hx as [Hx|[ <- | [] ]]; [eauto|congruence].
Qed.

Lemma countFilter_step (mn mx : Q) (changes : nat) (prev : option priceFilter)
  (f : priceFilter) :
  exists mn' mx' changes',
    countFilter (mn, mx, changes, prev) f = (mn', mx', changes', Some f)
    /\ changes' <= S changes
    /\ (prev = None -> changes' = changes).
Proof.
  unfold countFilter. eexists _, _, _. split; [reflexivity|].
  destruct prev; split; try discriminate; split_ifs; auto; lia.
Qed.

Lemma fold_countFilter (fs : list priceFilter) :
  forall mn mx changes prev,
    snd (fst (fold_left countFilter fs (mn, mx, changes, Some prev)))
    <= changes + List.length fs.
Proof.
  induction fs as [|f fs IH]; intros mn mx changes prev; cbn [fold_left];
    [simpl; lia|].
  destruct (countFilter_step mn mx changes (Some prev) f)
    as (mn' & mx' & c' & -> & Hc & _).
  specialize (IH mn' mx' c' f). cbn [List.length]. lia.
Qed.

End ViewFacts.

(** X15.  The number of images viewed is the number of distinct image
    identifiers among the views; views without identifier, or with an
    empty one, are not counted. *)
Theorem images_viewed_counts_distinct_ids
  (v : Events.imageView) (vs : list Events.imageView) :
  exists ids,
    NoDup ids
    /\ (forall id,
          In id ids
          <-> exists x, In x (v :: vs)
                        /\ Events.truthyString (Events.imageId x) = Some id)
    /\ MicroInteractions.totalImagesViewed
         (MicroInteractions.calculateImageViewTime (Some (v :: vs)))
       = List.length ids.
Proof.
  unfold MicroInteractions.calculateImageViewTime.
  cbn [Events.missingOrEmpty Events.orEmpty].
  destruct (fold_countView (v :: vs) 0%Q [] []) as [Hnd Hin];
    [constructor | intros id; split; [intros [] | intros (x & [] & _)] |].
  cbn zeta in Hnd, Hin. cbn [app] in Hin.
  destruct (fold_left MicroInteractions.countView (v :: vs) (0%Q, []))
    as [total ids].
  cbn [snd] in Hnd, Hin. exists ids. repeat split; try assumption; apply Hin.
Qed.

(** X16.  With two price filters or more, the price elasticity is a
    percentage from 0.0 to 100.0: the changes are counted between
    consecutive filters, of which there are one less than filters. *)
Theorem price_elasticity_range
  (f1 f2 : Events.priceFilter) (fs : list Events.priceFilter) :
  exists k,
    (k <= 1000)%N
    /\ MicroInteractions.priceElasticity
         (MicroInteractions.analyzePriceSensitivity (Some (f1 :: f2 :: fs)))
       = Some (Num.showNumstr (Num.NSDec false k 1) ++ "%")%string.
Proof.
  unfold MicroInteractions.analyzePriceSensitivity.
  cbn [Events.missingOrEmpty Events.orEmpty].
  unfold MicroInteractions.filterTotals. cbn [fold_left].
  destruct (countFilter_step 0%Q 0%Q 0%nat None f1)
    as (mn1 & mx1 & c1 & -> & _ & Hc1).
  rewrite (Hc1 eq_refl).
  pose proof (fold_countFilter (f2 :: fs) mn1 mx1 0%nat f1) as Hc.
  cbn [fold_left] in Hc.
  destruct (fold_left MicroInteractions.countFilter fs
              (MicroInteractions.countFilter (mn1, mx1, 0%nat, Some f1) f2))
    as [[[mn mx] changes] prev].
  cbn [fst snd] in Hc. cbn [MicroInteractions.priceElasticity].
  set (n := List.length (f2 :: fs)) in *.
  assert (Hn : (0 < n)%nat) by (unfold n; simpl; lia).
  assert (Hq : exists k,
             Num.toFixed 1
               (Num.mul (Num.div (Num.ofNat changes)
                                 (Num.sub (Num.ofNat (List.length (f1 :: f2 :: fs)))
                                          (Num.ofNat 1)))
                        (Num.ofNat 100))
             = Num.NSDec false k 1
             /\ (Z.of_N k <= 100 * Num.pow10 1)%Z).
  { change (List.length (f1 :: f2 :: fs)) with (S n). clearbody n.
    unfold Num.ofNat, Num.sub, Num.neg, Num.add, Num.div.
    assert (Hd : (inject_Z (Z.of_nat (S n)) + - inject_Z (Z.of_nat 1)
                  == inject_Z (Z.of_nat n))%Q).
    { rewrite Nat2Z.inj_succ. unfold Z.succ. rewrite inject_Z_plus.
      change (inject_Z (Z.of_nat 1)) with 1%Q. change (inject_Z 1) with 1%Q. ring. }
    assert (Hnz : Qeq_bool (inject_Z (Z.of_nat (S n)) + - inject_Z (Z.of_nat 1)) 0
                  = false).
    { apply not_true_iff_false. intros H. apply Qeq_bool_iff in H.
      rewrite Hd in H. apply Qeq_bool_iff in H.
      rewrite (ofNat_nonzero n Hn) in H. discriminate. }
    rewrite Hnz. cbn [Num.mul].
    apply toFixed_range. rewrite Hd.
    destruct (rate_percentage changes n) as (q & Hr & Hq); [lia | exact Hn |].
    unfold DecisionPatterns.rate, Num.ofNat, Num.div in Hr.
    rewrite (ofNat_nonzero n Hn) in Hr. cbn [Num.mul] in Hr.
    injection Hr as <-. exact Hq. }
  destruct Hq as (k & Hk & Hle). exists k. rewrite Hk.
  split; [|reflexivity]. change (Num.pow10 1) with 10%Z in Hle. lia.
Qed.

(* ------------------------------------------------------------------ *)
(** ** Seasons and social connections *)

(** X17.  The season of the contextual factors of a date is the season
    under which the trend analysis counts a search of that date, a date
    that does not parse falling in winter; and the factors always carry
    three characteristics and three travel considerations. *)
Theorem seasonal_factors_agree_with_trends (tz : Z) (s : Events.search) :
  let f := Context.getSeasonalFactors tz (Events.searchDate s) in
  TimePatterns.preferredSeason (TimePatterns.detectSeasonalTrends tz (Some [s]))
  = Some (DecisionPatterns.toLowerCase (Context.season f))
  /\ (Events.newDate (Events.searchDate s) = Dates.InvalidDate ->
      Context.season f = "Winter"%string)
  /\ List.length (Context.characteristics f) = 3%nat
  /\ List.length (Context.travelConsiderations f) = 3%nat.
Proof.
  unfold Context.getSeasonalFactors, Context.seasonOf,
    TimePatterns.detectSeasonalTrends, TimePatterns.searchCounts.
  cbn [Events.missingOrEmpty Events.orEmpty fold_left].
  unfold TimePatterns.countSearch.
  destruct (Dates.getMonth tz (Events.newDate (Events.searchDate s))) as [m|] eqn:Hm.
  - destruct (Nat.leb 2 m && Nat.leb m 4);
      [|destruct (Nat.leb 5 m && Nat.leb m 7);
        [|destruct (Nat.leb 8 m && Nat.leb m 10)]];
      (split; [reflexivity|]); (split; [|split; reflexivity]);
      intros Hbad; rewrite Hbad in Hm; discriminate.
  - repeat split; reflexivity.
Qed.

(** X18.  The travel interest score of the social connections is a
    percentage from 0.0 to 100.0, "0.0" for no connection at all, and the
    travel-related connections are at most the connections. *)
Theorem social_interest_score_range (cs : list Intent.connection) :
  let r := Intent.analyzeSocialMedia cs in
  (Intent.travelRelatedConnections r <= Intent.totalConnections r)%nat
  /\ Intent.totalConnections r = List.length cs
  /\ (exists k, (k <= 1000)%N
                /\ Intent.travelInterestScore r = Num.NSDec false k 1)
  /\ (cs = [] -> Num.showNumstr (Intent.travelInterestScore r) = "0.0"%string).
Proof.
  unfold Intent.analyzeSocialMedia.
  cbn [Intent.travelRelatedConnections Intent.totalConnections
       Intent.travelInterestScore].
  pose proof (filter_length_le Intent.travelRelated cs) as Hle.
  split; [exact Hle|]. split; [reflexivity|]. split.
  - assert (HP : Derived.isPercentage
                   (if Nat.ltb 0 (List.length cs)
                    then Num.mul
                           (Num.div
                              (Num.ofNat
                                 (List.length (filter Intent.travelRelated cs)))
                              (Num.ofNat (List.length cs)))
                           (Num.ofNat 100)
                    else Num.ofNat 0)).
    { destruct (Nat.ltb_spec 0 (List.length cs)) as [Hn|Hn].
      - apply (rate_percentage _ _ Hle Hn).
      - exists 0%Q. split; [reflexivity|]. split; discriminate. }
    destruct HP as (q & -> & Hq).
    destruct (toFixed_range 1 q 100 Hq) as (k & Hk & Hb).
    exists k. split; [|exact Hk]. change (Num.pow10 1) with 10%Z in Hb. lia.
  - intros ->. reflexivity.
Qed.

(* ------------------------------------------------------------------ *)
(** ** Calendar events *)

Section EventFacts.

Import Events Intent Derived.
Local Open Scope nat_scope.

Variable tz : Z.

Lemma eventsOf_snoc (key : string) (done : list calendarEvent) (e : calendarEvent) :
  eventsOf tz key (done ++ [e])
  = (eventsOf tz key done
     ++ if String.eqb (eventKey tz e) key then [e] else [])%list.
Proof.
  unfold eventsOf. rewrite filter_app. cbn [filter].
  destruct (String.eqb (eventKey tz e) key); reflexivity.
Qed.

Lemma groupEvent_groups (o : Obj.obj (list calendarEvent))
  (done : list calendarEvent) (e : calendarEvent) :
  groupsEvents tz o done ->
  groupsEvents tz (groupEvent tz o e) (done ++ [e]).
Proof.
  intros [Hnd Hget]. unfold groupEvent. fold (eventKey tz e).
  split; [apply NoDup_set, Hnd|].
  intros key. rewrite eventsOf_snoc.
  destruct (String.eqb_spec (eventKey tz e) key) as [<-|Hne].
  - rewrite get_set_same. specialize (Hget (eventKey tz e)).
    destruct (Obj.get o (eventKey tz e)) as [g|].
    + destruct Hget as [-> _]. split; [reflexivity|].
      intros H. apply app_eq_nil in H. destruct H; discriminate.
    + rewrite Hget. split; [reflexivity | discriminate].
  - rewrite get_set_other by exact Hne. rewrite app_nil_r. apply Hget.
Qed.

Lemma fold_groupEvent (es : list calendarEvent) :
  forall o done,
    groupsEvents tz o done ->
    groupsEvents tz (fold_left (groupEvent tz) es o) (done ++ es).
Proof.
  induction es as [|e es IH]; intros o done H; cbn [fold_left].
  - rewrite app_nil_r. exact H.
  - replace (done ++ e :: es)%list with ((done ++ [e]) ++ es)%list
      by (rewrite <- app_assoc; reflexivity).
    apply IH, groupEvent_groups, H.
Qed.

Lemma eventsByMonth_groups (es : list calendarEvent) :
  groupsEvents tz (fold_left (groupEvent tz) es []) es.
Proof.
  apply (fold_groupEvent es [] []). split; [constructor|].
  intros key. reflexivity.
Qed.

Lemma peakStep_more (m : option string) (c : nat)
  (x : string * list calendarEvent) :
  c < List.length (snd x) ->
  peakStep (m, c) x = (Some (fst x), List.length (snd x)).
Proof.
  intros H. unfold peakStep. cbn [snd]. apply Nat.ltb_lt in H. rewrite H.
  reflexivity.
Qed.

Lemma peakStep_same (m : option string) (c : nat)
  (x : string * list calendarEvent) :
  List.length (snd x) <= c -> peakStep (m, c) x = (m, c).
Proof.
  intros H. unfold peakStep. cbn [snd]. apply Nat.ltb_ge in H. rewrite H.
  reflexivity.
Qed.

(** The search for the peak keeps the first entry of the greatest
    length that exceeds the initial count. *)
Lemma peak_from (entries : list (string * list calendarEvent)) :
  forall m c,
    (Forall (fun x => List.length (snd x) <= c) entries
     /\ fold_left peakStep entries (m, c) = (m, c))
    \/ exists before e after,
         entries = (before ++ e :: after)%list
         /\ fold_left peakStep entries (m, c)
            = (Some (fst e), List.length (snd e))
         /\ c < List.length (snd e)
         /\ Forall (fun x => List.length (snd x) < List.length (snd e)) before
         /\ Forall (fun x => List.length (snd x) <= List.length (snd e)) after.
Proof.
  induction entries as [|x rest IH]; intros m c; cbn [fold_left].
  - left. split; [constructor | reflexivity].
  - destruct (Nat.lt_ge_cases c (List.length (snd x))) as [Hlt|Hge].
    + rewrite (peakStep_more m c x Hlt).
      right. destruct (IH (Some (fst x)) (List.length (snd x)))
        as [[Hall Hf]|(bf & e & af & Hl & Hf & Hc & Hb & Ha)].
      * exists [], x, rest.
        split; [reflexivity|]. split; [exact Hf|]. split; [exact Hlt|].
        split; [constructor | exact Hall].
      * exists (x :: bf), e, af. subst rest.
        split; [reflexivity|]. split; [exact Hf|]. split; [lia|].
        split; [constructor; [lia|exact Hb] | exact Ha].
    + rewrite (peakStep_same m c x Hge).
      destruct (IH m c) as [[Hall Hf]|(bf & e & af & Hl & Hf & Hc & Hb & Ha)].
      * left. split; [constructor; [lia|exact Hall] | exact Hf].
      * right. exists (x :: bf), e, af. subst rest.
        split; [reflexivity|]. split; [exact Hf|]. split; [lia|].
        split; [constructor; [lia|exact Hb] | exact Ha].
Qed.

End EventFacts.

(** X19.  The potential travel events are grouped by month: the keys of
    [eventsByMonth] are distinct, and a key holds a group exactly when the
    group is the list, in the order of the calendar, of the potential
    events of that month and there is one; events whose date is absent or
    does not parse share the key "NaN-NaN", and an event whose date is
    null is filed under the month of the epoch. *)
Theorem events_grouped_by_month (tz : Z) (evs : list Intent.calendarEvent) :
  let r := Intent.detectPersonalEvents tz evs in
  let potential := filter Intent.mayTriggerTravel evs in
  Intent.potentialTravelEventCount r = List.length potential
  /\ NoDup (map fst (Intent.eventsByMonth r))
  /\ (forall key group,
        In (key, group) (Intent.eventsByMonth r)
        <-> group = Derived.eventsOf tz key potential /\ group <> [])
  /\ (forall e, In e potential ->
                Events.newDate (Intent.eventDate e) = Dates.InvalidDate ->
                Derived.eventKey tz e = "NaN-NaN"%string)
  /\ (forall e, In e potential ->
                Intent.eventDate e = Events.Null ->
                Derived.eventKey tz e = Intent.monthYear tz (Dates.DateAt 0)).
Proof.
  intros r potential; subst r.
  unfold Intent.detectPersonalEvents.
  cbn [Intent.potentialTravelEventCount Intent.eventsByMonth].
  fold potential.
  destruct (eventsByMonth_groups tz potential) as [Hnd Hget].
  set (o := fold_left (Intent.groupEvent tz) potential []) in *.
  split; [reflexivity|]. split; [exact Hnd|]. split; [|split].
  - intros key group. split.
    + intros Hin. apply (In_get _ o key group Hnd) in Hin.
      specialize (Hget key). rewrite Hin in Hget. exact Hget.
    + intros [Heq Hne]. specialize (Hget key).
      destruct (Obj.get o key) as [g|] eqn:Hg.
      * destruct Hget as [Hg' _]. apply get_In. rewrite Hg. congruence.
      * congruence.
  - intros e _ Hbad. unfold Derived.eventKey. rewrite Hbad. reflexivity.
  - intros e _ Hnull. unfold Derived.eventKey. rewrite Hnull. reflexivity.
Qed.

(** X20.  The peak travel month is the first month, in the order of
    [Object.entries], that holds the greatest number of potential travel
    events, and the peak count is that number; without any potential
    travel event the month is null and the count 0. *)
Theorem peak_month_is_first_of_greatest_count
  (tz : Z) (evs : list Intent.calendarEvent) :
  let r := Intent.detectPersonalEvents tz evs in
  (filter Intent.mayTriggerTravel evs = [] ->
   Intent.peakTravelMonth r = None /\ Intent.peakEventCount r = 0%nat)
  /\ (filter Intent.mayTriggerTravel evs <> [] ->
      exists before e after,
        Obj.entries (Intent.eventsByMonth r) = before ++ e :: after
        /\ Intent.peakTravelMonth r = Some (fst e)
        /\ Intent.peakEventCount r = List.length (snd e)
        /\ (0 < Intent.peakEventCount r <= Intent.potentialTravelEventCount r)%nat
        /\ Forall (fun x => (List.length (snd x) < List.length (snd e))%nat) before
        /\ Forall (fun x => (List.length (snd x) <= List.length (snd e))%nat) after).
Proof.
  intros r; subst r. unfold Intent.detectPersonalEvents.
  cbn [Intent.peakTravelMonth Intent.peakEventCount Intent.eventsByMonth
       Intent.potentialTravelEventCount].
  set (potential := filter Intent.mayTriggerTravel evs).
  split.
  - intros ->. split; reflexivity.
  - intros Hne.
    destruct (eventsByMonth_groups tz potential) as [Hnd Hget].
    set (o := fold_left (Intent.groupEvent tz) potential []) in *.
    destruct (peak_from (Obj.entries o) None 0)
      as [[Hall Hf]|(bf & e & af & Hl & Hf & Hc & Hb & Ha)].
    + exfalso. destruct potential as [|e0 rest] eqn:Hp; [contradiction|].
      specialize (Hget (Derived.eventKey tz e0)).
      destruct (Obj.get o (Derived.eventKey tz e0)) as [g|] eqn:Hg.
      * destruct Hget as [_ Hgne]. apply get_In in Hg.
        apply (Permutation_in _ (Permutation_sym (entries_perm o))) in Hg.
        rewrite Forall_forall in Hall. specialize (Hall _ Hg). cbn [snd] in Hall.
        destruct g; [contradiction | simpl in Hall; lia].
      * unfold Derived.eventsOf in Hget. cbn [filter] in Hget.
        rewrite String.eqb_refl in Hget. discriminate.
    + exists bf, e, af. rewrite Hf. cbn [fst snd].
      repeat split; auto.
      assert (Hin : In e o).
      { apply (Permutation_in _ (entries_perm o)). rewrite Hl. apply in_elt. }
      destruct e as [key g]. apply (In_get _ o key g Hnd) in Hin.
      specialize (Hget key). rewrite Hin in Hget. destruct Hget as [-> _].
      cbn [snd]. apply filter_length_le.
Qed.

(* ------------------------------------------------------------------ *)
(** ** Text preferences *)

Section PreferenceFacts.

Import DecisionPatterns Preferences.
Local Open Scope string_scope.

Lemma lowerAscii_idem (c : ascii) : lowerAscii (lowerAscii c) = lowerAscii c.
Proof. destruct c as [[] [] [] [] [] [] [] []]; reflexivity. Qed.

Lemma toLowerCase_idem (s : string) : toLowerCase (toLowerCase s) = toLowerCase s.
Proof.
  induction s as [|c s IH]; cbn [toLowerCase]; [reflexivity|].
  rewrite lowerAscii_idem, IH. reflexivity.
Qed.

Lemma toLowerCase_app (s t : string) :
  toLowerCase (s ++ t) = toLowerCase s ++ toLowerCase t.
Proof.
  induction s as [|c s IH]; cbn [toLowerCase String.append]; [reflexivity|].
  rewrite IH. reflexivity.
Qed.

Lemma prefix_app (sub s post : string) :
  prefix sub s = true -> prefix sub (s ++ post) = true.
Proof.
  revert s. induction sub as [|c sub IH]; intros s H.
  - destruct (s ++ post); reflexivity.
  - destruct s as [|d s]; cbn [prefix String.append] in *; [discriminate|].
    destruct (ascii_dec c d); [apply IH, H | discriminate].
Qed.

Lemma includes_app_r (s sub post : string) :
  includes s sub = true -> includes (s ++ post) sub = true.
Proof.
  induction s as [|c s IH]; cbn [includes]; intros H.
  - rewrite orb_false_r in H.
    destruct sub; [|discriminate].
    destruct post; reflexivity.
  - apply orb_true_iff in H. cbn [String.append includes].
    apply orb_true_iff. destruct H as [H|H].
    + left. apply (prefix_app sub (String c s) post H).
    + right. apply IH, H.
Qed.

Lemma includes_app_l (pre s sub : string) :
  includes s sub = true -> includes (pre ++ s) sub = true.
Proof.
  intros H. induction pre as [|c pre IH]; cbn [String.append]; [exact H|].
  cbn [includes]. rewrite IH. apply orb_true_r.
Qed.

Lemma mentions_lower (text : string) (words : list string) :
  mentions (toLowerCase text) words = mentions text words.
Proof. unfold mentions. rewrite toLowerCase_idem. reflexivity. Qed.

Lemma mentions_extends (pre text post : string) (words : list string) :
  mentions text words = true -> mentions (pre ++ text ++ post) words = true.
Proof.
  unfold mentions. rewrite !existsb_exists. intros (w & Hw & Hi).
  exists w. split; [exact Hw|]. rewrite !toLowerCase_app.
  apply includes_app_l, includes_app_r, Hi.
Qed.

Lemma In_pushIf (x y : string) (c : bool) (l : list string) :
  In x (pushIf c y l) <-> In x l \/ (c = true /\ x = y).
Proof.
  unfold pushIf. destruct c.
  - rewrite in_app_iff. cbn [In]. intuition congruence.
  - intuition congruence.
Qed.

Lemma pushIf_extends (c c' : bool) (y : string) (l l' : list string) :
  (c = true -> c' = true) -> incl l l' -> incl (pushIf c y l) (pushIf c' y l').
Proof.
  intros Hc Hl x Hx. apply In_pushIf in Hx. apply In_pushIf.
  destruct Hx as [Hx|[Ht ->]]; [left; apply Hl, Hx | right; auto].
Qed.

End PreferenceFacts.

(** X21.  The preferences read from a text do not depend on the case of
    its letters, and text added before or after never removes one: every
    preference of a text is a preference of each text that contains it.
    'Adventure' is among the activities exactly when 'Adventurous' is
    among the personality traits, and likewise 'Relaxation' and
    'Relaxed'. *)
Theorem preferences_ignore_case_and_persist :
  (forall text,
      Preferences.extractPreferencesFromText (DecisionPatterns.toLowerCase text)
      = Preferences.extractPreferencesFromText text)
  /\ (forall pre text post,
        let small := Preferences.extractPreferencesFromText text in
        let large :=
          Preferences.extractPreferencesFromText (pre ++ text ++ post)%string in
        incl (Preferences.destinationTypes small)
             (Preferences.destinationTypes large)
        /\ incl (Preferences.accommodationStyles small)
                (Preferences.accommodationStyles large)
        /\ incl (Preferences.activities small) (Preferences.activities large)
        /\ incl (Preferences.travelPersonality small)
                (Preferences.travelPersonality large))
  /\ (forall text,
        let r := Preferences.extractPreferencesFromText text in
        (In "Adventure"%string (Preferences.activities r)
         <-> In "Adventurous"%string (Preferences.travelPersonality r))
        /\ (In "Relaxation"%string (Preferences.activities r)
            <-> In "Relaxed"%string (Preferences.travelPersonality r))).
Proof.
  split; [|split].
  - intros text. unfold Preferences.extractPreferencesFromText.
    rewrite !mentions_lower. reflexivity.
  - intros pre text post small large; subst small large.
    unfold Preferences.extractPreferencesFromText.
    cbn [Preferences.destinationTypes Preferences.accommodationStyles
         Preferences.activities Preferences.travelPersonality].
    repeat split;
      repeat (apply pushIf_extends; [apply mentions_extends|]);
      apply incl_refl.
  - intros text r; subst r. unfold Preferences.extractPreferencesFromText.
    cbn [Preferences.activities Preferences.travelPersonality].
    rewrite !In_pushIf. cbn [In].
    split; split; intros H; intuition (try discriminate; auto).
Qed.

(* ------------------------------------------------------------------ *)
(** ** Sessions without end *)

Section SessionFacts.

Import Dates Events TimePatterns.

Variable tz : Z.

Lemma fold_countSession_open (ss : list session) :
  forall hours total,
    Forall (fun x => endTime x = Absent \/ endTime x = Null) ss ->
    snd (fold_left (countSession tz) ss (hours, total)) = total.
Proof.
  induction ss as [|s ss IH]; intros hours total H; cbn [fold_left];
    [reflexivity|].
  inversion H as [|? ? Hs Hss]; subst.
  unfold countSession at 2. destruct Hs as [Hs|Hs]; rewrite Hs; apply IH, Hss.
Qed.

End SessionFacts.

(** X22.  Sessions without end time add nothing to the total duration but
    are counted in the number of sessions: when the end time of every
    session is absent or null the average session duration reads
    "0.0 minutes". *)
Theorem sessions_without_end_average_zero
  (tz : Z) (s : Events.session) (ss : list Events.session) :
  Forall (fun x => Events.endTime x = Events.Absent
                   \/ Events.endTime x = Events.Null) (s :: ss) ->
  TimePatterns.averageSessionDuration
    (TimePatterns.analyzeBrowsingHours tz (Some (s :: ss)))
  = Some "0.0 minutes"%string.
Proof.
  intros H. unfold TimePatterns.analyzeBrowsingHours.
  cbn [Events.missingOrEmpty Events.orEmpty].
  pose proof (fold_countSession_open tz (s :: ss) (repeat 0%nat 24) (Num.Fin 0) H)
    as Ht.
  fold (TimePatterns.sessionCounts tz (s :: ss)) in Ht.
  destruct (TimePatterns.sessionCounts tz (s :: ss)) as [hours total].
  cbn [snd] in Ht. subst total.
  cbn [TimePatterns.averageSessionDuration].
  unfold Num.ofNat, Num.div.
  rewrite (ofNat_nonzero (List.length (s :: ss))) by (simpl; lia).
  rewrite (toFixed_Qeq 1 _ 0) by (unfold Qdiv; ring).
  reflexivity.
Qed.

(** X22 (witness): a single session without end time. *)
Lemma sessions_without_end_average_zero_witness :
  TimePatterns.averageSessionDuration
    (TimePatterns.analyzeBrowsingHours 0
       (Some [ {| Events.startTime := Events.Given (Dates.DateAt 0);
                  Events.endTime := Events.Absent |} ]))
  = Some "0.0 minutes"%string.
Proof.
  apply (sessions_without_end_average_zero 0
           {| Events.startTime := Events.Given (Dates.DateAt 0);
              Events.endTime := Events.Absent |} []).
  constructor; [left; reflexivity | constructor].
Defined.
